(** * Last-Position Lookup Engine

    A shallow embedding of the read path of gps-last-position-api:
    the two Redis repositories (device and mobile namespaces), the two
    services built on them, and the request validation middleware.

    JavaScript values are an inductive type, Redis is an interface whose
    replies are data, and the asynchronous methods become computations
    in a monad that records every Redis command and every log line and
    that can throw. *)

From Stdlib Require Import String Ascii List ZArith Lia Bool Arith DecimalString.
Import ListNotations.
Local Open Scope string_scope.
Local Open Scope list_scope.

Set Implicit Arguments.
Set Warnings "-register-all".
Set Warnings "-notation-overridden".

(** ** Strings

    A JavaScript string is a sequence of UTF-16 code units.  The model
    uses [string], whose characters stand for the code units 0..255;
    identifiers, Redis keys and type names of this service live there. *)

Module JSString.

(** WhiteSpace and LineTerminator code units below 256:
    TAB, LF, VT, FF, CR, SP and NBSP. *)
Definition is_white_space (c : ascii) : bool :=
  let n := nat_of_ascii c in
  ((n =? 9) || (n =? 10) || (n =? 11) || (n =? 12) || (n =? 13)
   || (n =? 32) || (n =? 160))%nat.

Fixpoint trimStart (s : string) : string :=
  match s with
  | EmptyString => EmptyString
  | String c rest => if is_white_space c then trimStart rest else s
  end.

Fixpoint trimEnd (s : string) : string :=
  match s with
  | EmptyString => EmptyString
  | String c rest =>
      match trimEnd rest with
      | EmptyString => if is_white_space c then EmptyString else String c EmptyString
      | kept => String c kept
      end
  end.

(** [String.prototype.trim] *)
Definition trim (s : string) : string := trimEnd (trimStart s).

Fixpoint every (p : ascii -> bool) (s : string) : bool :=
  match s with
  | EmptyString => true
  | String c rest => p c && every p rest
  end.

(** [String.prototype.replace] with a string pattern: the first
    occurrence of [pattern] is replaced (the replacement strings used by
    the service contain no dollar sign). *)
Fixpoint replace (pattern replacement s : string) : string :=
  if prefix pattern s
  then replacement ++
       substring (String.length pattern) (String.length s - String.length pattern) s
  else match s with
       | EmptyString => EmptyString
       | String c rest => String c (replace pattern replacement rest)
       end.

(** Decimal rendering of an array index, as in a property key. *)
Definition of_nat (n : nat) : string := NilZero.string_of_uint (Nat.to_uint n).

(** The value of a digit in radixes up to 36. *)
Definition digit_value (c : ascii) : option nat :=
  let n := nat_of_ascii c in
  if ((48 <=? n) && (n <=? 57))%nat then Some (n - 48)
  else if ((97 <=? n) && (n <=? 122))%nat then Some (n - 87)
  else if ((65 <=? n) && (n <=? 90))%nat then Some (n - 55)
  else None.

(** The number written by the longest prefix of [s] made of digits of
    the radix; [acc] is [None] until a digit was read. *)
Fixpoint read_digits (radix : nat) (s : string) (acc : option Z) : option Z :=
  match s with
  | EmptyString => acc
  | String c rest =>
      match digit_value c with
      | Some d =>
          if (d <? radix)%nat then
            read_digits radix rest
              (Some (match acc with
                     | Some a => a * Z.of_nat radix + Z.of_nat d
                     | None => Z.of_nat d
                     end)%Z)
          else acc
      | None => acc
      end
  end.

(** [parseInt(s)] without a radix argument; [None] is [NaN].  The
    integer is kept exactly. *)
Definition parseInt (s : string) : option Z :=
  let s1 := trimStart s in
  let (sign, s2) :=
    match s1 with
    | String c rest =>
        if Ascii.eqb c "-"%char then ((-1)%Z, rest)
        else if Ascii.eqb c "+"%char then (1%Z, rest)
        else (1%Z, s1)
    | EmptyString => (1%Z, s1)
    end in
  let (radix, s3) :=
    match s2 with
    | String c0 (String c1 rest) =>
        if Ascii.eqb c0 "0"%char && (Ascii.eqb c1 "x"%char || Ascii.eqb c1 "X"%char)
        then (16, rest) else (10, s2)
    | _ => (10, s2)
    end in
  match read_digits radix s3 None with
  | Some n => Some (sign * n)%Z
  | None => None
  end.

End JSString.

(** ** Values *)

(** The engine never computes with coordinates, speeds or scores, so the
    carrier of JavaScript numbers is a parameter. *)
Inductive value (number : Type) : Type :=
| VUndefined
| VNull
| VBool (b : bool)
| VNum (n : number)
| VStr (s : string)
| VArr (items : list (value number))
| VObj (fields : list (string * value number)).

Arguments VUndefined {number}.
Arguments VNull {number}.
Arguments VBool {number} b.
Arguments VNum {number} n.
Arguments VStr {number} s.
Arguments VArr {number} items.
Arguments VObj {number} fields.

(** What is thrown: the [SyntaxError] of [JSON.parse], the [TypeError]
    of a conversion to a primitive that fails, and the errors with which
    the Redis client rejects.  Each carries its [message]. *)
Inductive error : Type :=
| SyntaxError (message : string)
| TypeError (message : string)
| ReplyError (message : string).

Inductive result (A : Type) : Type :=
| Ok (a : A)
| Throw (e : error).

Arguments Ok {A} a.
Arguments Throw {A} e.

(** What the host supplies: number semantics, the two parsing built-ins,
    the clock, and the configured key prefix of the device namespace
    ([config.redis.keyPrefix]).  [JSON_parse text] is [None] when
    [JSON.parse] throws, and [JSON_error text] is then the message of
    its [SyntaxError]; [primitive_error] is the message of the
    [TypeError] thrown when an object cannot be converted to a
    primitive value. *)
Record Host (number : Type) : Type := {
  num_truthy : number -> bool;
  parseFloat : string -> number;
  JSON_parse : string -> option (value number);
  JSON_error : string -> string;
  primitive_error : string;
  now : string;
  keyPrefix : string
}.

Section Objects.
Context {number : Type} (host : Host number).

Local Abbreviation val := (value number).

(** [ToBoolean] *)
Definition truthy (v : val) : bool :=
  match v with
  | VUndefined | VNull => false
  | VBool b => b
  | VNum n => num_truthy host n
  | VStr s => negb (s =? "")
  | VArr _ | VObj _ => true
  end.

(** [a || b] *)
Definition js_or (a b : val) : val := if truthy a then a else b.

Fixpoint assoc {A : Type} (k : string) (l : list (string * A)) : option A :=
  match l with
  | [] => None
  | (k', v) :: rest => if k =? k' then Some v else assoc k rest
  end.

(** [v.k] for the property names the engine reads ([deviceId],
    [userId], [lat], [lng], [name]): own data properties of an object;
    strings, arrays, numbers and booleans carry none of them.  The
    engine reads properties of truthy values only (every read follows a
    check [!position], or is on a record of a result list), so [null]
    and [undefined], on which a read throws, never arrive here. *)
Definition get_prop (v : val) (k : string) : val :=
  match v with
  | VObj fields =>
      match assoc k fields with
      | Some x => x
      | None => VUndefined
      end
  | _ => VUndefined
  end.

(** Property definition in an object literal: overwrite in place when
    the key is already there, append otherwise. *)
Fixpoint obj_set (fields : list (string * val)) (k : string) (v : val)
  : list (string * val) :=
  match fields with
  | [] => [(k, v)]
  | (k', v') :: rest =>
      if k =? k' then (k, v) :: rest else (k', v') :: obj_set rest k v
  end.

Fixpoint indexed {A : Type} (i : nat) (l : list A) : list (string * A) :=
  match l with
  | [] => []
  | x :: rest => (JSString.of_nat i, x) :: indexed (S i) rest
  end.

Fixpoint code_units (s : string) : list val :=
  match s with
  | EmptyString => []
  | String c rest => VStr (String c EmptyString) :: code_units rest
  end.

(** [{...v}]: the own enumerable properties copied by a spread. *)
Definition spread (v : val) : list (string * val) :=
  match v with
  | VObj fields => fields
  | VArr items => indexed 0 items
  | VStr s => indexed 0 (code_units s)
  | _ => []
  end.

(** Whether [ToString] throws for a value.  An object that has an own
    property [toString] has no callable one (no value is a function), and
    its [valueOf], own or inherited, yields no primitive either: the
    conversion throws a [TypeError].  Every other object is rendered by
    [Object.prototype.toString].  An array is rendered by joining its
    elements, of which [null] and [undefined] are skipped. *)
Fixpoint toString_throws (v : val) : bool :=
  match v with
  | VObj fields =>
      match assoc "toString" fields with
      | Some _ => true
      | None => false
      end
  | VArr items => existsb toString_throws items
  | _ => false
  end.

(** [ids.includes(id)] for a string [id]: SameValueZero. *)
Definition same_string (v : val) (id : string) : bool :=
  match v with
  | VStr s => s =? id
  | _ => false
  end.

Definition includes (l : list val) (id : string) : bool :=
  existsb (fun v => same_string v id) l.

(** [Array.prototype.slice(start, end)] *)
Definition slice {A : Type} (l : list A) (start end_ : Z) : list A :=
  let len := Z.of_nat (List.length l) in
  let k := if (start <? 0)%Z then Z.max (len + start) 0 else Z.min start len in
  let final := if (end_ <? 0)%Z then Z.max (len + end_) 0 else Z.min end_ len in
  firstn (Z.to_nat (final - k)) (skipn (Z.to_nat k) l).

End Objects.

(** ** Effects

    A computation yields a result or throws, and leaves behind the trace
    of what it did to the outside: the Redis commands it sent and the
    lines that the repositories, the services and the handlers logged.
    Nothing is ever written to Redis, so the replies do not depend on
    the trace; the one piece of state, the connection of a repository,
    is part of the client (see [on_connect]). *)

Inductive level : Type := LError | LWarn | LInfo | LDebug.

Inductive command : Type :=
| CConnect
| CExists (key : string)
| CType (key : string)
| CGet (key : string)
| CHGetAll (key : string)
| CLIndex (key : string) (index : Z)
| CZRevRange (key : string) (start stop : Z)
| CKeys (pattern : string).

(** A log line is kept as its level and its subject: the identifier or
    the key that the line names; for a line that names neither, the
    text of the error it is passed, or else a word for what it
    reports. *)
Inductive event : Type :=
| Redis (c : command)
| Logged (l : level) (subject : string).

Definition M (A : Type) : Type := (result A * list event)%type.

Definition ret {A : Type} (a : A) : M A := (Ok a, []).

Definition throw {A : Type} (e : error) : M A := (Throw e, []).

Definition bind {A B : Type} (m : M A) (f : A -> M B) : M B :=
  match m with
  | (Ok a, t) => let (r, t') := f a in (r, t ++ t')
  | (Throw e, t) => (Throw e, t)
  end.

(** [try { m } catch (error) { handler error }] *)
Definition try_catch {A : Type} (m : M A) (handler : error -> M A) : M A :=
  match m with
  | (Ok a, t) => (Ok a, t)
  | (Throw e, t) => let (r, t') := handler e in (r, t ++ t')
  end.

Definition send {A : Type} (c : command) (reply : result A) : M A :=
  (reply, [Redis c]).

Definition log (l : level) (subject : string) : M unit :=
  (Ok tt, [Logged l subject]).

Declare Scope js_scope.
Delimit Scope js_scope with js.
Notation "x <- m ;; k" := (bind m (fun x => k))
  (at level 100, m at next level, right associativity) : js_scope.
Notation "m ;; k" := (bind m (fun _ => k))
  (at level 100, right associativity) : js_scope.

Definition outcome {A : Type} (m : M A) : result A := fst m.
Definition trace {A : Type} (m : M A) : list event := snd m.

Definition is_storage (e : event) : bool :=
  match e with
  | Redis _ => true
  | Logged _ _ => false
  end.

(** The Redis commands of a trace, in order. *)
Definition storage_accesses (t : list event) : list event := filter is_storage t.

(** [error.message] *)
Definition message (e : error) : string :=
  match e with
  | SyntaxError m => m
  | TypeError m => m
  | ReplyError m => m
  end.

(** How a call of [connect()] that succeeds comes by its connection.
    It reuses one: the client is ready or connecting, or the repository
    has marked it connected, and nothing is logged.  It opens one, and
    logs that at info level.  Or its attempt is refused as already
    connecting or already connected, which it logs at debug level and
    takes for a connection. *)
Inductive connection : Type := Reused | Opened | AlreadyConnected.

(** The replies of the Redis client, per command.  [None] is a JavaScript
    [null] reply.  [connect_reply] is the outcome of the repository's
    [connect()], and [on_connect] the way it succeeds. *)
Record RedisClient : Type := {
  connect_reply : result unit;
  on_connect : connection;
  exists_reply : string -> result Z;
  type_reply : string -> result string;
  get_reply : string -> result (option string);
  hgetall_reply : string -> result (option (list (string * string)));
  lindex_reply : string -> Z -> result (option string);
  zrevrange_reply : string -> Z -> Z -> result (option (list string));
  keys_reply : string -> result (list string)
}.

(** The client as a call of [connect()] leaves it: the next call in the
    same repository reuses the connection. *)
Definition connected (client : RedisClient) : RedisClient := {|
  connect_reply := connect_reply client;
  on_connect := Reused;
  exists_reply := exists_reply client;
  type_reply := type_reply client;
  get_reply := get_reply client;
  hgetall_reply := hgetall_reply client;
  lindex_reply := lindex_reply client;
  zrevrange_reply := zrevrange_reply client;
  keys_reply := keys_reply client
|}.

(** Reads of a field of the object returned by HGETALL. *)
Section HashFields.
Context {number : Type}.
Local Abbreviation val := (value number).

Definition field_truthy (f : option string) : bool :=
  match f with
  | Some s => negb (s =? "")
  | None => false
  end.

(** [hashData.a || fallback] with a string fallback *)
Definition field_or (f : option string) (fallback : string) : string :=
  match f with
  | Some s => if s =? "" then fallback else s
  | None => fallback
  end.

(** [hashData.a || null] *)
Definition field_or_null (f : option string) : val :=
  match f with
  | Some s => if s =? "" then VNull else VStr s
  | None => VNull
  end.

End HashFields.

(** ** Probes

    The existence check, the statistics and the liveness probe send five
    more commands.  Their computations run in a monad of the same shape,
    over traces that hold these commands next to the events above. *)

Inductive probe : Type :=
| PHKeys (key : string)
| PLLen (key : string)
| PZCard (key : string)
| PMemoryUsage (key : string)
| PPing.

Inductive step : Type :=
| Plain (e : event)
| Probed (p : probe).

(** The replies to the probes.  MEMORY USAGE answers with a number of
    bytes or with [null]. *)
Record RedisProbes : Type := {
  hkeys_reply : string -> result (list string);
  llen_reply : string -> result Z;
  zcard_reply : string -> result Z;
  memory_usage_reply : string -> result (option Z);
  ping_reply : result string
}.

Module Probing.

(** A computation of the plain monad, run among probes. *)
Definition lift {A : Type} (m : M A) : result A * list step :=
  (fst m, map Plain (snd m)).

Definition M (A : Type) : Type := (result A * list step)%type.

Definition ret {A : Type} (a : A) : M A := (Ok a, []).

Definition throw {A : Type} (e : error) : M A := (Throw e, []).

Definition bind {A B : Type} (m : M A) (f : A -> M B) : M B :=
  match m with
  | (Ok a, t) => let (r, t') := f a in (r, t ++ t')
  | (Throw e, t) => (Throw e, t)
  end.

Definition try_catch {A : Type} (m : M A) (handler : error -> M A) : M A :=
  match m with
  | (Ok a, t) => (Ok a, t)
  | (Throw e, t) => let (r, t') := handler e in (r, t ++ t')
  end.

Definition send {A : Type} (p : probe) (reply : result A) : M A :=
  (reply, [Probed p]).

Definition log (l : level) (subject : string) : M unit :=
  (Ok tt, [Plain (Logged l subject)]).

Definition outcome {A : Type} (m : M A) : result A := fst m.
Definition trace {A : Type} (m : M A) : list step := snd m.

End Probing.

Declare Scope probing_scope.
Delimit Scope probing_scope with probing.
Notation "x <- m ;; k" := (Probing.bind m (fun x => k))
  (at level 100, m at next level, right associativity) : probing_scope.
Notation "m ;; k" := (Probing.bind m (fun _ => k))
  (at level 100, right associativity) : probing_scope.

(** What [getStats] of the device repository returns. *)
Record device_stats : Type := {
  totalDevices : nat;
  keyPattern : string;
  memoryUsage : Z;
  stats_timestamp : string
}.

Local Open Scope js_scope.

(** ** What both repositories share *)

Section Shared.
Context {number : Type} (host : Host number).
Local Abbreviation val := (value number).

(** [JSON.parse(text)] *)
Definition parse (text : string) : M val :=
  match JSON_parse host text with
  | Some v => ret v
  | None => throw (SyntaxError (JSON_error host text))
  end.

(** [items.join(', ')], for what it can throw.  The text it builds goes
    into the [error] text of an answer, which is left out. *)
Definition join (items : list val) : M unit :=
  if existsb toString_throws items
  then throw (TypeError (primitive_error host))
  else ret tt.

(** The loop [for (const id of ids) { try { ... push ... } catch { warn } }]
    of the batch and listing methods, threading the [positions] array. *)
Fixpoint collect (getLastPosition : string -> M val)
    (deviceIds : list string) (positions : list val) : M (list val) :=
  match deviceIds with
  | [] => ret positions
  | deviceId :: rest =>
      positions' <-
        try_catch
          (position <- getLastPosition deviceId ;;
           if truthy host position then ret (positions ++ [position])
           else ret positions)
          (fun error => log LWarn deviceId ;; ret positions) ;;
      collect getLastPosition rest positions'
  end.

End Shared.

(** ** Device namespace: [GPSLastPositionRepository] *)

Module GPSLastPositionRepository.
Section Repository.
Context {number : Type} (host : Host number).
Local Abbreviation val := (value number).

(** [connect()]: [CConnect] stands for the call.  The status checks of
    the Redis client and the attempt to connect are folded into
    [connect_reply]; a call that succeeds logs according to the way it
    came by the connection, and an error that is not an
    already-connected race is logged and rethrown. *)
Definition connect (client : RedisClient) : M unit :=
  try_catch
    (send CConnect (connect_reply client) ;;
     match on_connect client with
     | Reused => ret tt
     | Opened => log LInfo "connected"
     | AlreadyConnected => log LDebug "connected"
     end)
    (fun error => log LError (message error) ;; throw error).

Definition getDataByType (client : RedisClient) (key deviceId : string) : M val :=
  dataType <- send (CType key) (type_reply client key) ;;
  if dataType =? "string" then
    stringData <- send (CGet key) (get_reply client key) ;;
    match stringData with
    | None => ret VNull
    | Some text => if text =? "" then ret VNull else parse host text
    end
  else if dataType =? "hash" then
    hashData <- send (CHGetAll key) (hgetall_reply client key) ;;
    match hashData with
    | None => ret VNull
    | Some fields =>
        if (List.length fields =? 0)%nat then ret VNull else
        let f := fun name => assoc name fields in
        metadata <- match f "metadata" with
                    | Some text => if text =? "" then ret VNull else parse host text
                    | None => ret VNull
                    end ;;
        ret (VObj
          [ ("deviceId", VStr (field_or (f "deviceId") deviceId));
            ("lat", match f "lat" with
                    | Some text => if text =? "" then VNull
                                   else VNum (parseFloat host text)
                    | None => VNull
                    end);
            ("lng", match f "lng" with
                    | Some text => if text =? "" then VNull
                                   else VNum (parseFloat host text)
                    | None => VNull
                    end);
            ("timestamp", field_or_null (f "timestamp"));
            ("receivedAt", field_or_null (f "receivedAt"));
            ("updatedAt", field_or_null (f "updatedAt"));
            ("metadata", metadata);
            ("name", if field_truthy (f "name") then field_or_null (f "name")
                     else field_or_null (f "deviceName")) ])
    end
  else if dataType =? "list" then
    listData <- send (CLIndex key (-1)) (lindex_reply client key (-1)) ;;
    match listData with
    | None => ret VNull
    | Some text => if text =? "" then ret VNull else parse host text
    end
  else if dataType =? "zset" then
    zsetData <- send (CZRevRange key 0 0) (zrevrange_reply client key 0 0) ;;
    match zsetData with
    | None => ret VNull
    | Some [] => ret VNull
    | Some (first :: _) => parse host first
    end
  else
    log LWarn deviceId ;; ret VNull.

Definition getLastPosition (client : RedisClient) (deviceId : string) : M val :=
  try_catch
    (connect client ;;
     let key := (keyPrefix host ++ deviceId)%string in
     exists_ <- send (CExists key) (exists_reply client key) ;;
     if (exists_ =? 0)%Z then
       log LDebug deviceId ;; ret VNull
     else
       position <- getDataByType client key deviceId ;;
       if negb (truthy host position) then
         log LDebug deviceId ;; ret VNull
       else
         log LDebug deviceId ;;
         ret (VObj (obj_set (spread position) "retrievedAt" (VStr (now host)))))
    (fun error => log LError deviceId ;; throw error).

(** The lookups of the loop call [connect()] again, on the connection
    that the call before the loop left. *)
Definition getMultipleLastPositions (client : RedisClient) (deviceIds : list string)
  : M (list val) :=
  try_catch
    (connect client ;;
     positions <- collect host (getLastPosition (connected client)) deviceIds [] ;;
     log LInfo "positions" ;;
     ret positions)
    (fun error => log LError (message error) ;; throw error).

Definition getAllLastPositions (client : RedisClient) : M (list val) :=
  try_catch
    (connect client ;;
     let pattern := (keyPrefix host ++ "*")%string in
     keys <- send (CKeys pattern) (keys_reply client pattern) ;;
     if (List.length keys =? 0)%nat then
       log LInfo "positions" ;; ret []
     else
       let deviceIds := map (JSString.replace (keyPrefix host) "") keys in
       positions <- collect host (getLastPosition (connected client)) deviceIds [] ;;
       log LInfo "positions" ;;
       ret positions)
    (fun error => log LError (message error) ;; throw error).


(** *** Existence, statistics and liveness *)

Local Open Scope probing_scope.

Definition hasLastPosition (client : RedisClient) (probes : RedisProbes)
    (deviceId : string) : Probing.M bool :=
  Probing.try_catch
    (Probing.lift (connect client) ;;
     let key := (keyPrefix host ++ deviceId)%string in
     Probing.log LDebug key ;;
     exists_ <- Probing.lift (send (CExists key) (exists_reply client key)) ;;
     Probing.log LDebug key ;;
     if (exists_ =? 1)%Z then
       Probing.try_catch
         (dataType <- Probing.lift (send (CType key) (type_reply client key)) ;;
          Probing.log LDebug key ;;
          if dataType =? "hash" then
            hashKeys <- Probing.send (PHKeys key) (hkeys_reply probes key) ;;
            let hasContent := (0 <? List.length hashKeys)%nat in
            Probing.log LDebug key ;;
            Probing.ret hasContent
          else if dataType =? "string" then
            stringValue <- Probing.lift (send (CGet key) (get_reply client key)) ;;
            let hasStringContent :=
              match stringValue with
              | Some text => negb (text =? "")
              | None => false
              end in
            Probing.log LDebug key ;;
            Probing.ret hasStringContent
          else if dataType =? "list" then
            listLength <- Probing.send (PLLen key) (llen_reply probes key) ;;
            let hasListContent := (0 <? listLength)%Z in
            Probing.log LDebug key ;;
            Probing.ret hasListContent
          else if dataType =? "zset" then
            zsetSize <- Probing.send (PZCard key) (zcard_reply probes key) ;;
            let hasZsetContent := (0 <? zsetSize)%Z in
            Probing.log LDebug key ;;
            Probing.ret hasZsetContent
          else
            Probing.log LWarn key ;; Probing.ret false)
         (fun typeError =>
            Probing.log LWarn key ;; Probing.ret (exists_ =? 1)%Z)
     else
       Probing.ret false)
    (fun error => Probing.log LError deviceId ;; Probing.throw error).

(** The loop of [getStats]: the memory of each key is added up, and a
    key whose MEMORY USAGE throws is passed over. *)
Fixpoint add_usage (probes : RedisProbes) (keys : list string) (totalMemoryUsage : Z)
  : Probing.M Z :=
  match keys with
  | [] => Probing.ret totalMemoryUsage
  | key :: rest =>
      totalMemoryUsage' <-
        Probing.try_catch
          (usage <- Probing.send (PMemoryUsage key) (memory_usage_reply probes key) ;;
           Probing.ret (totalMemoryUsage +
                        match usage with Some bytes => bytes | None => 0 end)%Z)
          (fun error => Probing.ret totalMemoryUsage) ;;
      add_usage probes rest totalMemoryUsage'
  end.

Definition getStats (client : RedisClient) (probes : RedisProbes)
  : Probing.M device_stats :=
  Probing.try_catch
    (Probing.lift (connect client) ;;
     let pattern := (keyPrefix host ++ "*")%string in
     keys <- Probing.lift (send (CKeys pattern) (keys_reply client pattern)) ;;
     totalMemoryUsage <- add_usage probes keys 0%Z ;;
     Probing.ret {| totalDevices := List.length keys;
                    keyPattern := pattern;
                    memoryUsage := totalMemoryUsage;
                    stats_timestamp := now host |})
    (fun error => Probing.log LError (message error) ;; Probing.throw error).

Definition ping (client : RedisClient) (probes : RedisProbes) : Probing.M bool :=
  Probing.try_catch
    (Probing.lift (connect client) ;;
     result <- Probing.send PPing (ping_reply probes) ;;
     Probing.ret (result =? "PONG"))
    (fun error => Probing.log LError (message error) ;; Probing.ret false).

End Repository.
End GPSLastPositionRepository.

(** ** Mobile namespace: [MobileLastPositionRepository] *)

Module MobileLastPositionRepository.
Section Repository.
Context {number : Type} (host : Host number).
Local Abbreviation val := (value number).

Definition keyPrefix : string := "mobile:last:".

(** [connect()], as in the device repository. *)
Definition connect (client : RedisClient) : M unit :=
  try_catch
    (send CConnect (connect_reply client) ;;
     match on_connect client with
     | Reused => ret tt
     | Opened => log LInfo "connected"
     | AlreadyConnected => log LDebug "connected"
     end)
    (fun error => log LError (message error) ;; throw error).

Definition getDataByType (client : RedisClient) (key userId : string) : M val :=
  dataType <- send (CType key) (type_reply client key) ;;
  if dataType =? "string" then
    stringData <- send (CGet key) (get_reply client key) ;;
    match stringData with
    | None => ret VNull
    | Some text => if text =? "" then ret VNull else parse host text
    end
  else if dataType =? "hash" then
    hashData <- send (CHGetAll key) (hgetall_reply client key) ;;
    match hashData with
    | None => ret VNull
    | Some fields =>
        if (List.length fields =? 0)%nat then ret VNull else
        let f := fun name => assoc name fields in
        metadata <- match f "metadata" with
                    | Some text => if text =? "" then ret VNull else parse host text
                    | None => ret VNull
                    end ;;
        ret (VObj
          [ ("userId", VStr (field_or (f "userId") (field_or (f "deviceId") userId)));
            ("lat", match f "lat" with
                    | Some text => if text =? "" then VNull
                                   else VNum (parseFloat host text)
                    | None => VNull
                    end);
            ("lng", match f "lng" with
                    | Some text => if text =? "" then VNull
                                   else VNum (parseFloat host text)
                    | None => VNull
                    end);
            ("timestamp", field_or_null (f "timestamp"));
            ("receivedAt", field_or_null (f "receivedAt"));
            ("updatedAt", field_or_null (f "updatedAt"));
            ("metadata", metadata);
            ("name", if field_truthy (f "name") then field_or_null (f "name")
                     else field_or_null (f "deviceName")) ])
    end
  else if dataType =? "list" then
    listData <- send (CLIndex key (-1)) (lindex_reply client key (-1)) ;;
    match listData with
    | None => ret VNull
    | Some text => if text =? "" then ret VNull else parse host text
    end
  else if dataType =? "zset" then
    zsetData <- send (CZRevRange key 0 0) (zrevrange_reply client key 0 0) ;;
    match zsetData with
    | None => ret VNull
    | Some [] => ret VNull
    | Some (first :: _) => parse host first
    end
  else
    log LWarn userId ;; ret VNull.

Definition getLastPosition (client : RedisClient) (userId : string) : M val :=
  try_catch
    (connect client ;;
     let key := (keyPrefix ++ userId)%string in
     exists_ <- send (CExists key) (exists_reply client key) ;;
     if (exists_ =? 0)%Z then
       log LDebug userId ;; ret VNull
     else
       position <- getDataByType client key userId ;;
       if negb (truthy host position) then
         log LDebug userId ;; ret VNull
       else
         log LDebug userId ;;
         ret (VObj
           (obj_set
              (obj_set (spread position) "userId"
                 (js_or host (get_prop position "userId") (VStr userId)))
              "retrievedAt" (VStr (now host)))))
    (fun error => log LError userId ;; throw error).

Definition getMultipleLastPositions (client : RedisClient) (userIds : list string)
  : M (list val) :=
  try_catch
    (connect client ;;
     positions <- collect host (getLastPosition (connected client)) userIds [] ;;
     log LInfo "positions" ;;
     ret positions)
    (fun error => log LError (message error) ;; throw error).

Definition getAllLastPositions (client : RedisClient) : M (list val) :=
  try_catch
    (connect client ;;
     let pattern := (keyPrefix ++ "*")%string in
     keys <- send (CKeys pattern) (keys_reply client pattern) ;;
     if (List.length keys =? 0)%nat then
       log LInfo "positions" ;; ret []
     else
       let userIds := map (JSString.replace keyPrefix "") keys in
       positions <- collect host (getLastPosition (connected client)) userIds [] ;;
       log LInfo "positions" ;;
       ret positions)
    (fun error => log LError (message error) ;; throw error).

End Repository.
End MobileLastPositionRepository.

(** ** Responses of the services

    The human-readable [error] text of a failure is left out; its [code]
    and the fields that accompany it are kept. *)

Section Responses.
Context {number : Type}.
Local Abbreviation val := (value number).

Inductive failure_info : Type :=
| NoInfo
| ForEntity (id : string)
| InvalidIds (invalidIds : list val)
| TooMany (requested maximum : nat)
| Details (details : string).

Inductive response (A : Type) : Type :=
| Success (payload : A)
| Failure (code : string) (info : failure_info).

Record single : Type := {
  single_data : val;
  single_id : string;
  single_timestamp : string
}.

Record batch_summary : Type := {
  requested : nat;
  found : nat;
  notFound : nat;
  notFoundIds : list string
}.

Record batch : Type := {
  batch_data : list val;
  summary : batch_summary;
  batch_timestamp : string
}.

Record listing_summary : Type := {
  total : nat;
  returned : nat;
  offset : Z;
  limit : option Z;
  format : string
}.

Record listing : Type := {
  listing_data : list val;
  listing_summary_of : listing_summary;
  listing_timestamp : string
}.

(** The [options] argument of a listing.  [opt_limit = None] is a limit
    that is absent or [null]; [opt_offset = None] is an absent offset. *)
Record options : Type := {
  opt_limit : option Z;
  opt_offset : option Z
}.

End Responses.

Arguments Success {number A} payload.
Arguments Failure {number A} code info.
Arguments failure_info number : clear implicits.
Arguments response number A : clear implicits.
Arguments single number : clear implicits.
Arguments batch number : clear implicits.
Arguments listing number : clear implicits.

(** Answers of the existence check, the statistics and the health check. *)

Record existence : Type := {
  exists_flag : bool;
  existence_id : string;
  existence_timestamp : string
}.

Record service_stats : Type := {
  repository_stats : device_stats;
  redisConnection : string;
  service_name : string;
  version : string;
  service_stats_timestamp : string
}.

(** [healthCheck] answers with the state of its services, or, when it
    caught an error, with the text of the error. *)
Inductive health : Type :=
| Health (healthy : bool) (redis api : string) (devices : nat) (timestamp : string)
| Unhealthy (error_text : string) (timestamp : string).

Definition healthy_of (h : health) : bool :=
  match h with
  | Health healthy _ _ _ _ => healthy
  | Unhealthy _ _ => false
  end.

(** ** [GPSLastPositionService] *)

Module GPSLastPositionService.
Section Service.
Context {number : Type} (host : Host number) (client : RedisClient).
Local Abbreviation val := (value number).

Definition repository_getLastPosition := GPSLastPositionRepository.getLastPosition host client.
Definition repository_getMultipleLastPositions :=
  GPSLastPositionRepository.getMultipleLastPositions host client.
Definition repository_getAllLastPositions :=
  GPSLastPositionRepository.getAllLastPositions host client.

Definition _formatPositionData (position : val) (format : string) : val :=
  if format =? "gps" then
    VObj [ ("id", get_prop position "deviceId");
           ("lat", get_prop position "lat");
           ("lng", get_prop position "lng") ]
  else if format =? "mobile" then
    VObj [ ("id", get_prop position "deviceId");
           ("lat", get_prop position "lat");
           ("lng", get_prop position "lng");
           ("name", js_or host (get_prop position "name")
                               (get_prop position "deviceId")) ]
  else
    position.

(** [!deviceId || typeof deviceId !== 'string' || deviceId.trim() === ''] *)
Definition is_blank (deviceId : val) : bool :=
  match deviceId with
  | VStr s => negb (truthy host deviceId) || (JSString.trim s =? "")
  | _ => true
  end.

Definition clean (deviceId : val) : string :=
  match deviceId with
  | VStr s => JSString.trim s
  | _ => ""
  end.

(** [`${deviceId}`] in the catch block of a lookup: the identifier as it
    was passed, not trimmed.  The check of the identifier cannot throw
    and answers every value that is no string, so a catch block is
    reached with a string only. *)
Definition as_passed (deviceId : val) : string :=
  match deviceId with
  | VStr s => s
  | _ => ""
  end.

Definition getDeviceLastPosition (deviceId : val) (format : string)
  : M (response number (single number)) :=
  try_catch
    (if is_blank deviceId then
       ret (Failure "INVALID_DEVICE_ID" NoInfo)
     else
       let cleanDeviceId := clean deviceId in
       log LInfo cleanDeviceId ;;
       position <- repository_getLastPosition cleanDeviceId ;;
       if negb (truthy host position) then
         ret (Failure "POSITION_NOT_FOUND" (ForEntity cleanDeviceId))
       else
         let formattedData := _formatPositionData position format in
         ret (Success {| single_data := formattedData;
                         single_id := cleanDeviceId;
                         single_timestamp := now host |}))
    (fun error =>
       log LError (as_passed deviceId) ;;
       ret (Failure "INTERNAL_ERROR" (Details (message error)))).

(** The validation loop of the batch lookup, threading
    [cleanDeviceIds] and [invalidIds]. *)
Fixpoint validate (deviceIds : list val)
    (cleanDeviceIds : list string) (invalidIds : list val)
  : list string * list val :=
  match deviceIds with
  | [] => (cleanDeviceIds, invalidIds)
  | id :: rest =>
      if is_blank id
      then validate rest cleanDeviceIds (invalidIds ++ [id])
      else validate rest (cleanDeviceIds ++ [clean id]) invalidIds
  end.

Definition maxDevices : nat := 100.

Definition getMultipleDevicesLastPositions (deviceIds : val) (format : string)
  : M (response number (batch number)) :=
  try_catch
    (match deviceIds with
     | VArr ids =>
         if (List.length ids =? 0)%nat then
           ret (Failure "INVALID_DEVICE_IDS" NoInfo)
         else
           let (cleanDeviceIds, invalidIds) := validate ids [] [] in
           if (0 <? List.length invalidIds)%nat then
             join host invalidIds ;;
             ret (Failure "INVALID_DEVICE_IDS" (InvalidIds invalidIds))
           else if (maxDevices <? List.length cleanDeviceIds)%nat then
             ret (Failure "TOO_MANY_DEVICES"
                    (TooMany (List.length cleanDeviceIds) maxDevices))
           else
             log LInfo format ;;
             positions <- repository_getMultipleLastPositions cleanDeviceIds ;;
             let formattedPositions :=
               map (fun position => _formatPositionData position format) positions in
             let foundDeviceIds := map (fun p => get_prop p "deviceId") positions in
             let notFoundDeviceIds :=
               filter (fun id => negb (includes foundDeviceIds id)) cleanDeviceIds in
             ret (Success
               {| batch_data := formattedPositions;
                  summary :=
                    {| requested := List.length cleanDeviceIds;
                       found := List.length formattedPositions;
                       notFound := List.length notFoundDeviceIds;
                       notFoundIds := notFoundDeviceIds |};
                  batch_timestamp := now host |})
     | _ => ret (Failure "INVALID_DEVICE_IDS" NoInfo)
     end)
    (fun error =>
       log LError (message error) ;;
       ret (Failure "INTERNAL_ERROR" (Details (message error)))).

Definition getAllLastPositions (opts : options)
  : M (response number (listing number)) :=
  try_catch
    (let limit := opt_limit opts in
     let offset := match opt_offset opts with Some o => o | None => 0%Z end in
     log LInfo "gps" ;;
     allPositions <- repository_getAllLastPositions ;;
     let formattedPositions :=
       map (fun position => _formatPositionData position "gps") allPositions in
     let positions :=
       match limit with
       | Some l =>
           if negb (l =? 0)%Z && (0 <? l)%Z then
             let start := Z.max 0 offset in
             let end_ := (start + l)%Z in
             slice formattedPositions start end_
           else formattedPositions
       | None => formattedPositions
       end in
     ret (Success
       {| listing_data := positions;
          listing_summary_of :=
            {| total := List.length formattedPositions;
               returned := List.length positions;
               offset := offset;
               limit := limit;
               format := "gps" |};
          listing_timestamp := now host |}))
    (fun error =>
       log LError (message error) ;;
       ret (Failure "INTERNAL_ERROR" (Details (message error)))).


(** *** Existence, statistics and health *)

Context (probes : RedisProbes).
Local Open Scope probing_scope.

Definition repository_hasLastPosition :=
  GPSLastPositionRepository.hasLastPosition host client probes.
Definition repository_getStats := GPSLastPositionRepository.getStats host client probes.
Definition repository_ping := GPSLastPositionRepository.ping client probes.

Definition checkDeviceExists (deviceId : val)
  : Probing.M (response number existence) :=
  Probing.try_catch
    (if is_blank deviceId then
       Probing.ret (Failure "INVALID_DEVICE_ID" NoInfo)
     else
       let cleanDeviceId := clean deviceId in
       exists_ <- repository_hasLastPosition cleanDeviceId ;;
       Probing.ret (Success {| exists_flag := exists_;
                               existence_id := cleanDeviceId;
                               existence_timestamp := now host |}))
    (fun error =>
       Probing.log LError (as_passed deviceId) ;;
       Probing.ret (Failure "INTERNAL_ERROR" (Details (message error)))).

(** The second call on the repository finds it as the first left it. *)
Definition getServiceStats : Probing.M (response number service_stats) :=
  Probing.try_catch
    (stats <- repository_getStats ;;
     healthCheck <- GPSLastPositionRepository.ping (connected client) probes ;;
     Probing.ret (Success
       {| repository_stats := stats;
          redisConnection := if healthCheck then "healthy" else "unhealthy";
          service_name := "gps-last-position-api";
          version := "1.0.0";
          service_stats_timestamp := now host |}))
    (fun error =>
       Probing.log LError (message error) ;;
       Probing.ret (Failure "INTERNAL_ERROR" (Details (message error)))).

Definition healthCheck : Probing.M health :=
  Probing.try_catch
    (redisHealth <- repository_ping ;;
     stats <- GPSLastPositionRepository.getStats host (connected client) probes ;;
     Probing.ret (Health redisHealth
                    (if redisHealth then "healthy" else "unhealthy")
                    "healthy"
                    (totalDevices stats)
                    (now host)))
    (fun error =>
       Probing.log LError (message error) ;;
       Probing.ret (Unhealthy (message error) (now host))).

End Service.
End GPSLastPositionService.

(** ** [MobileLastPositionService] *)

Module MobileLastPositionService.
Section Service.
Context {number : Type} (host : Host number) (client : RedisClient).
Local Abbreviation val := (value number).

Definition repository_getAllLastPositions :=
  MobileLastPositionRepository.getAllLastPositions host client.

Definition _formatPositionDataForMobile (position : val) : val :=
  VObj [ ("id", get_prop position "userId");
         ("lat", get_prop position "lat");
         ("lng", get_prop position "lng");
         ("name", js_or host (get_prop position "name")
                             (get_prop position "userId")) ].

Definition getAllLastPositions (opts : options)
  : M (response number (listing number)) :=
  try_catch
    (let limit := opt_limit opts in
     let offset := match opt_offset opts with Some o => o | None => 0%Z end in
     log LInfo "mobile" ;;
     allPositions <- repository_getAllLastPositions ;;
     let formattedPositions := map _formatPositionDataForMobile allPositions in
     let positions :=
       match limit with
       | Some l =>
           if negb (l =? 0)%Z && (0 <? l)%Z then
             let start := Z.max 0 offset in
             let end_ := (start + l)%Z in
             slice formattedPositions start end_
           else formattedPositions
       | None => formattedPositions
       end in
     ret (Success
       {| listing_data := positions;
          listing_summary_of :=
            {| total := List.length formattedPositions;
               returned := List.length positions;
               offset := offset;
               limit := limit;
               format := "mobile" |};
          listing_timestamp := now host |}))
    (fun error =>
       log LError (message error) ;;
       ret (Failure "INTERNAL_ERROR" (Details (message error)))).

(** *** Single and batch lookup of users

    The identifier checks are, word for word, those of the device
    service. *)

Record users_summary : Type := {
  requested_users : nat;
  found_users : nat;
  notFound_users : nat;
  notFoundUserIds : list string;
  users_format : string
}.

Record users : Type := {
  users_data : list val;
  users_summary_of : users_summary;
  users_timestamp : string
}.

Definition repository_getLastPosition :=
  MobileLastPositionRepository.getLastPosition host client.
Definition repository_getMultipleLastPositions :=
  MobileLastPositionRepository.getMultipleLastPositions host client.

Definition getUserLastPosition (userId : val) : M (response number (single number)) :=
  try_catch
    (if GPSLastPositionService.is_blank host userId then
       ret (Failure "INVALID_USER_ID" NoInfo)
     else
       let cleanUserId := GPSLastPositionService.clean userId in
       log LInfo cleanUserId ;;
       position <- repository_getLastPosition cleanUserId ;;
       if negb (truthy host position) then
         ret (Failure "POSITION_NOT_FOUND" (ForEntity cleanUserId))
       else
         ret (Success {| single_data := position;
                         single_id := cleanUserId;
                         single_timestamp := now host |}))
    (fun error =>
       log LError (GPSLastPositionService.as_passed userId) ;;
       ret (Failure "INTERNAL_ERROR" (Details (message error)))).

Definition maxUsers : nat := 100.

Definition getMultipleUsersLastPositions (userIds : val) : M (response number users) :=
  try_catch
    (match userIds with
     | VArr ids =>
         if (List.length ids =? 0)%nat then
           ret (Failure "INVALID_USER_IDS" NoInfo)
         else
           let (cleanUserIds, invalidIds) :=
             GPSLastPositionService.validate host ids [] [] in
           if (0 <? List.length invalidIds)%nat then
             join host invalidIds ;;
             ret (Failure "INVALID_USER_IDS" (InvalidIds invalidIds))
           else if (maxUsers <? List.length cleanUserIds)%nat then
             ret (Failure "TOO_MANY_USERS"
                    (TooMany (List.length cleanUserIds) maxUsers))
           else
             log LInfo "users" ;;
             positions <- repository_getMultipleLastPositions cleanUserIds ;;
             let foundUserIds := map (fun p => get_prop p "userId") positions in
             let notFoundUserIds :=
               filter (fun id => negb (includes foundUserIds id)) cleanUserIds in
             ret (Success
               {| users_data := positions;
                  users_summary_of :=
                    {| requested_users := List.length cleanUserIds;
                       found_users := List.length positions;
                       notFound_users := List.length notFoundUserIds;
                       notFoundUserIds := notFoundUserIds;
                       users_format := "full" |};
                  users_timestamp := now host |})
     | _ => ret (Failure "INVALID_USER_IDS" NoInfo)
     end)
    (fun error =>
       log LError (message error) ;;
       ret (Failure "INTERNAL_ERROR" (Details (message error)))).

End Service.
End MobileLastPositionService.

(** ** Validation middleware *)

Module validationMiddleware.
Section Middleware.
Context {number : Type} (host : Host number).
Local Abbreviation val := (value number).

(** What a middleware does with a request: hand it on, or answer it
    with a status and an error code. *)
Inductive verdict : Type :=
| next
| rejected (status : Z) (code : string).

(** One character of the class [[a-zA-Z0-9._-]]. *)
Definition in_class (c : ascii) : bool :=
  let n := nat_of_ascii c in
  ((97 <=? n) && (n <=? 122) || (65 <=? n) && (n <=? 90)
   || (48 <=? n) && (n <=? 57)
   || (n =? 46) || (n =? 95) || (n =? 45))%nat.

(** [/^[a-zA-Z0-9._-]+$/.test(s)] *)
Definition validPattern_test (s : string) : bool :=
  negb (s =? "") && JSString.every in_class s.

Definition validateDeviceIdMiddleware (deviceId : val) : verdict :=
  if negb (truthy host deviceId) then
    rejected 400 "MISSING_DEVICE_ID"
  else
    match deviceId with
    | VStr s =>
        if JSString.trim s =? "" then rejected 400 "INVALID_DEVICE_ID"
        else if (100 <? String.length s)%nat then rejected 400 "DEVICE_ID_TOO_LONG"
        else if negb (validPattern_test s) then
          rejected 400 "INVALID_DEVICE_ID_CHARACTERS"
        else next
    | _ => rejected 400 "INVALID_DEVICE_ID"
    end.

(** *** The other request checks *)

Definition validateUserIdMiddleware (userId : val) : verdict :=
  if negb (truthy host userId) then
    rejected 400 "MISSING_USER_ID"
  else
    match userId with
    | VStr s =>
        if JSString.trim s =? "" then rejected 400 "INVALID_USER_ID"
        else if (100 <? String.length s)%nat then rejected 400 "USER_ID_TOO_LONG"
        else if negb (validPattern_test s) then
          rejected 400 "INVALID_USER_ID_CHARACTERS"
        else next
    | _ => rejected 400 "INVALID_USER_ID"
    end.

(** Why an entry of a batch is refused: it is no non-blank string, it
    is longer than 100 characters, or it has a character outside the
    class. *)
Inductive entry_error : Type := NotAnIdentifier | TooLong | BadCharacters.

Record invalid_entry : Type := {
  entry_index : nat;
  entry_value : val;
  entry_reason : entry_error
}.

Inductive batch_verdict : Type :=
| batch_next
| batch_rejected (status : Z) (code : string) (details : list invalid_entry).

(** The loop [for (let i = 0; i < deviceIds.length; i++)] of the batch
    check, threading [invalidDevices]. *)
Fixpoint check_entries (i : nat) (deviceIds : list val)
    (invalidDevices : list invalid_entry) : list invalid_entry :=
  match deviceIds with
  | [] => invalidDevices
  | deviceId :: rest =>
      let refuse reason :=
        invalidDevices ++
        [ {| entry_index := i; entry_value := deviceId; entry_reason := reason |} ] in
      check_entries (S i) rest
        match deviceId with
        | VStr s =>
            if negb (truthy host deviceId) || (JSString.trim s =? "")
            then refuse NotAnIdentifier
            else if (100 <? String.length s)%nat then refuse TooLong
            else if negb (validPattern_test s) then refuse BadCharacters
            else invalidDevices
        | _ => refuse NotAnIdentifier
        end
  end.

Definition validateMultipleDevicesMiddleware (deviceIds : val) : batch_verdict :=
  if negb (truthy host deviceIds) then
    batch_rejected 400 "MISSING_DEVICE_IDS" []
  else
    match deviceIds with
    | VArr ids =>
        if (List.length ids =? 0)%nat then
          batch_rejected 400 "EMPTY_DEVICE_IDS" []
        else if (100 <? List.length ids)%nat then
          batch_rejected 400 "TOO_MANY_DEVICE_IDS" []
        else
          let invalidDevices := check_entries 0 ids [] in
          if (0 <? List.length invalidDevices)%nat then
            batch_rejected 400 "INVALID_DEVICE_IDS" invalidDevices
          else batch_next
    | _ => batch_rejected 400 "INVALID_DEVICE_IDS_TYPE" []
    end.


End Middleware.
End validationMiddleware.

(** ** [GPSLastPositionController]

    What a handler answers: the HTTP status and the body it sends.  The
    body of a success repeats the data of the service's answer (with
    the summary of a listing) and puts its identifier and timestamp
    under [meta].  The body of a failure holds the [code] of the answer
    and, on the route of the single lookup, an identifier under [meta];
    the [details] of the service's answer are not sent.  The body with
    which a request check refuses is kept as its [code].  A route
    parameter is a string: the path segment. *)

Module GPSLastPositionController.
Section Controller.
Context {number : Type} (host : Host number) (client : RedisClient).
Local Abbreviation val := (value number).

(** [result.deviceId || deviceId]: only the answer that no position was
    found carries an identifier. *)
Definition deviceId_or (info : failure_info number) (deviceId : string) : string :=
  match info with
  | ForEntity id => if id =? "" then deviceId else id
  | _ => deviceId
  end.

(** [GET /last/:deviceId] *)
Definition getLastPosition (deviceId : string)
  : M (Z * response number (single number)) :=
  try_catch
    (log LInfo deviceId ;;
     result <- GPSLastPositionService.getDeviceLastPosition host client
                 (VStr deviceId) "full" ;;
     match result with
     | Success _ => ret (200%Z, result)
     | Failure code info =>
         let statusCode := if code =? "POSITION_NOT_FOUND" then 404%Z else 400%Z in
         ret (statusCode, Failure code (ForEntity (deviceId_or info deviceId)))
     end)
    (fun error =>
       log LError (message error) ;;
       ret (500%Z, Failure "INTERNAL_ERROR" NoInfo)).

(** [GET /last?limit=..&offset=..] *)
Definition getAllLastPositions (query_limit query_offset : option string)
  : M (Z * response number (listing number)) :=
  try_catch
    (let limit :=
       match query_limit with
       | Some text => if text =? "" then None else Some (JSString.parseInt text)
       | None => None
       end in
     let offset :=
       match query_offset with
       | Some text => if text =? "" then Some 0%Z else JSString.parseInt text
       | None => Some 0%Z
       end in
     let limit_refused :=
       match limit with
       | Some None => true
       | Some (Some l) => (l <=? 0)%Z || (1000 <? l)%Z
       | None => false
       end in
     if limit_refused then ret (400%Z, Failure "INVALID_LIMIT" NoInfo)
     else
       match offset with
       | None => ret (400%Z, Failure "INVALID_OFFSET" NoInfo)
       | Some o =>
           if (o <? 0)%Z then ret (400%Z, Failure "INVALID_OFFSET" NoInfo)
           else
             log LInfo "getAllLastPositions" ;;
             result <- GPSLastPositionService.getAllLastPositions host client
                         {| opt_limit := match limit with
                                         | Some (Some l) => Some l
                                         | _ => None
                                         end;
                            opt_offset := Some o |} ;;
             match result with
             | Success _ => ret (200%Z, result)
             | Failure code _ => ret (500%Z, Failure code NoInfo)
             end
       end)
    (fun error =>
       log LError (message error) ;;
       ret (500%Z, Failure "INTERNAL_ERROR" NoInfo)).


(** The route [GET /last/:deviceId]: the identifier check, then the
    handler. *)
Definition route_last_of (deviceId : string)
  : M (Z * response number (single number)) :=
  match validationMiddleware.validateDeviceIdMiddleware host (VStr deviceId) with
  | validationMiddleware.next => getLastPosition deviceId
  | validationMiddleware.rejected status code => ret (status, Failure code NoInfo)
  end.

End Controller.
End GPSLastPositionController.

(** ** A Redis database and the client it induces

    The four physical encodings the producers use, and any other Redis
    type under its type name.  A sorted set is kept in rank order, lowest
    score first, which is all ZREVRANGE looks at. *)

Module Redis.

Inductive entry : Type :=
| String_ (text : string)
| Hash (fields : list (string * string))
| List_ (items : list string)
| ZSet (ranked : list string)
| Other (typeName : string).

Definition database : Type := list (string * entry).

Definition wrongtype {A : Type} : result A :=
  Throw (ReplyError "WRONGTYPE Operation against a key holding the wrong kind of value").

(** Glob patterns of KEYS with [*] and [?]. *)
Fixpoint glob (pattern s : string) {struct pattern} : bool :=
  match pattern with
  | EmptyString => match s with EmptyString => true | _ => false end
  | String p pattern' =>
      if Ascii.eqb p "*"%char then
        (fix star (s : string) : bool :=
           glob pattern' s ||
           match s with
           | EmptyString => false
           | String _ s' => star s'
           end) s
      else
        match s with
        | EmptyString => false
        | String c s' =>
            (Ascii.eqb p "?"%char || Ascii.eqb p c) && glob pattern' s'
        end
  end.

(** Inclusive index ranges of LRANGE and ZRANGE, negative from the end. *)
Definition range {A : Type} (l : list A) (start stop : Z) : list A :=
  let len := Z.of_nat (List.length l) in
  let start' := if (start <? 0)%Z then Z.max (len + start) 0 else start in
  let stop' := if (stop <? 0)%Z then (len + stop)%Z else Z.min stop (len - 1) in
  if (stop' <? start')%Z then []
  else firstn (Z.to_nat (stop' - start' + 1)) (skipn (Z.to_nat start') l).

Definition index {A : Type} (l : list A) (i : Z) : option A :=
  let len := Z.of_nat (List.length l) in
  let i' := if (i <? 0)%Z then (len + i)%Z else i in
  if (i' <? 0)%Z then None else nth_error l (Z.to_nat i').

(** The client of a repository that is connected to the database. *)
Definition client (db : database) : RedisClient := {|
  connect_reply := Ok tt;
  on_connect := Reused;
  exists_reply key :=
    Ok (match assoc key db with Some _ => 1%Z | None => 0%Z end);
  type_reply key :=
    Ok (match assoc key db with
        | Some (String_ _) => "string"
        | Some (Hash _) => "hash"
        | Some (List_ _) => "list"
        | Some (ZSet _) => "zset"
        | Some (Other typeName) => typeName
        | None => "none"
        end);
  get_reply key :=
    match assoc key db with
    | Some (String_ text) => Ok (Some text)
    | None => Ok None
    | Some _ => wrongtype
    end;
  hgetall_reply key :=
    match assoc key db with
    | Some (Hash fields) => Ok (Some fields)
    | None => Ok (Some [])
    | Some _ => wrongtype
    end;
  lindex_reply key i :=
    match assoc key db with
    | Some (List_ items) => Ok (index items i)
    | None => Ok None
    | Some _ => wrongtype
    end;
  zrevrange_reply key start stop :=
    match assoc key db with
    | Some (ZSet ranked) => Ok (Some (range (rev ranked) start stop))
    | None => Ok (Some [])
    | Some _ => wrongtype
    end;
  keys_reply pattern :=
    Ok (filter (glob pattern) (map fst db))
|}.

(** The replies to the probes over a database.  What MEMORY USAGE
    reports for a key that exists is Redis' own accounting, given here
    by [usage]. *)
Definition probes (usage : string -> Z) (db : database) : RedisProbes := {|
  hkeys_reply key :=
    match assoc key db with
    | Some (Hash fields) => Ok (map fst fields)
    | None => Ok []
    | Some _ => wrongtype
    end;
  llen_reply key :=
    match assoc key db with
    | Some (List_ items) => Ok (Z.of_nat (List.length items))
    | None => Ok 0%Z
    | Some _ => wrongtype
    end;
  zcard_reply key :=
    match assoc key db with
    | Some (ZSet ranked) => Ok (Z.of_nat (List.length ranked))
    | None => Ok 0%Z
    | Some _ => wrongtype
    end;
  memory_usage_reply key :=
    Ok (match assoc key db with
        | Some _ => Some (usage key)
        | None => None
        end);
  ping_reply := Ok "PONG"
|}.

End Redis.

(** ** A host to run examples on

    Numbers are decimal numerals kept as their text, and [JSON.parse] is
    a reader for JSON without exponents and without escapes other than
    backslash-quote and backslash-backslash.  The theorems below hold for
    every host; this one only makes the examples computable. *)

Module ExampleHost.

Definition numeral : Type := string.
Local Abbreviation val := (value numeral).

Definition is_digit (c : ascii) : bool :=
  let n := nat_of_ascii c in ((48 <=? n) && (n <=? 57))%nat.

Fixpoint digits (s : string) : string * string :=
  match s with
  | EmptyString => (EmptyString, EmptyString)
  | String c rest =>
      if is_digit c then let (d, r) := digits rest in (String c d, r)
      else (EmptyString, s)
  end.

(** A numeral at the head of [s]: sign, integer part, optional fraction. *)
Definition scan_numeral (s : string) : option (numeral * string) :=
  let (sign, s1) :=
    match s with
    | String c rest => if Ascii.eqb c "-"%char then ("-", rest) else ("", s)
    | EmptyString => ("", s)
    end in
  let (int, s2) := digits s1 in
  if int =? "" then None
  else match s2 with
       | String c rest =>
           if Ascii.eqb c "."%char then
             let (frac, s3) := digits rest in
             if frac =? "" then Some ((sign ++ int)%string, s2)
             else Some ((sign ++ int ++ "." ++ frac)%string, s3)
           else Some ((sign ++ int)%string, s2)
       | EmptyString => Some ((sign ++ int)%string, s2)
       end.

Definition nonzero_digit (c : ascii) : bool :=
  let n := nat_of_ascii c in ((49 <=? n) && (n <=? 57))%nat.

Fixpoint any (p : ascii -> bool) (s : string) : bool :=
  match s with
  | EmptyString => false
  | String c rest => p c || any p rest
  end.

Definition numeral_truthy (n : numeral) : bool :=
  negb (n =? "NaN") && any nonzero_digit n.

Definition parse_float (s : string) : numeral :=
  match scan_numeral (JSString.trimStart s) with
  | Some (n, _) => n
  | None => "NaN"
  end.

Definition quote : ascii := ascii_of_nat 34.
Definition backslash : ascii := ascii_of_nat 92.

Definition is_json_space (c : ascii) : bool :=
  let n := nat_of_ascii c in
  ((n =? 32) || (n =? 9) || (n =? 10) || (n =? 13))%nat.

Fixpoint skip (s : string) : string :=
  match s with
  | EmptyString => EmptyString
  | String c rest => if is_json_space c then skip rest else s
  end.

(** The characters of a string literal after its opening quote. *)
Fixpoint scan_string (s : string) : option (string * string) :=
  match s with
  | EmptyString => None
  | String c rest =>
      if Ascii.eqb c quote then Some (EmptyString, rest)
      else if Ascii.eqb c backslash then
        match rest with
        | String e rest' =>
            if Ascii.eqb e quote || Ascii.eqb e backslash then
              match scan_string rest' with
              | Some (body, r) => Some (String e body, r)
              | None => None
              end
            else None
        | EmptyString => None
        end
      else
        match scan_string rest with
        | Some (body, r) => Some (String c body, r)
        | None => None
        end
  end.

Definition expect (word : string) (v : val) (s : string) : option (val * string) :=
  if prefix word s
  then Some (v, substring (String.length word) (String.length s - String.length word) s)
  else None.

Fixpoint parse_value (fuel : nat) (s : string) {struct fuel} : option (val * string) :=
  match fuel with
  | O => None
  | S fuel' =>
      match skip s with
      | EmptyString => None
      | String c rest as s' =>
          if Ascii.eqb c "n"%char then expect "null" VNull s'
          else if Ascii.eqb c "t"%char then expect "true" (VBool true) s'
          else if Ascii.eqb c "f"%char then expect "false" (VBool false) s'
          else if Ascii.eqb c quote then
            match scan_string rest with
            | Some (body, r) => Some (VStr body, r)
            | None => None
            end
          else if Ascii.eqb c "["%char then
            match skip rest with
            | String d r =>
                if Ascii.eqb d "]"%char then Some (VArr [], r)
                else parse_items fuel' rest []
            | EmptyString => None
            end
          else if Ascii.eqb c "{"%char then
            match skip rest with
            | String d r =>
                if Ascii.eqb d "}"%char then Some (VObj [], r)
                else parse_members fuel' rest []
            | EmptyString => None
            end
          else
            match scan_numeral s' with
            | Some (n, r) => Some (VNum n, r)
            | None => None
            end
      end
  end
with parse_items (fuel : nat) (s : string) (items : list val) {struct fuel}
  : option (val * string) :=
  match fuel with
  | O => None
  | S fuel' =>
      match parse_value fuel' s with
      | Some (v, r) =>
          match skip r with
          | String d r' =>
              if Ascii.eqb d ","%char then parse_items fuel' r' (items ++ [v])
              else if Ascii.eqb d "]"%char then Some (VArr (items ++ [v]), r')
              else None
          | EmptyString => None
          end
      | None => None
      end
  end
with parse_members (fuel : nat) (s : string) (fields : list (string * val))
  {struct fuel} : option (val * string) :=
  match fuel with
  | O => None
  | S fuel' =>
      match skip s with
      | String c rest =>
          if Ascii.eqb c quote then
            match scan_string rest with
            | Some (key, r) =>
                match skip r with
                | String d r' =>
                    if Ascii.eqb d ":"%char then
                      match parse_value fuel' r' with
                      | Some (v, r'') =>
                          match skip r'' with
                          | String e r3 =>
                              if Ascii.eqb e ","%char
                              then parse_members fuel' r3 (obj_set fields key v)
                              else if Ascii.eqb e "}"%char
                              then Some (VObj (obj_set fields key v), r3)
                              else None
                          | EmptyString => None
                          end
                      | None => None
                      end
                    else None
                | EmptyString => None
                end
            | None => None
            end
          else None
      | EmptyString => None
      end
  end.

Definition json_parse (text : string) : option val :=
  match parse_value (2 * String.length text + 2) text with
  | Some (v, r) => if skip r =? "" then Some v else None
  | None => None
  end.

(** The message for a text that [json_parse] rejects. *)
Definition json_error (text : string) : string :=
  if skip text =? "" then "Unexpected end of JSON input"
  else "Unexpected token in JSON".

(** The example host: clock reading [t], device prefix [gps:last:]. *)
Definition host : Host numeral := {|
  num_truthy := numeral_truthy;
  parseFloat := parse_float;
  JSON_parse := json_parse;
  JSON_error := json_error;
  primitive_error := "Cannot convert object to primitive value";
  now := "2025-07-29T10:30:00.000Z";
  keyPrefix := "gps:last:"
|}.

(** Writes a JSON text with apostrophes for its double quotes. *)
Fixpoint json (s : string) : string :=
  match s with
  | EmptyString => EmptyString
  | String c rest =>
      String (if Ascii.eqb c "'"%char then quote else c) (json rest)
  end.

End ExampleHost.

(** ** Databases for the examples *)

Module Examples.

Definition device (lat lng : string) : Redis.entry :=
  Redis.Hash [("lat", lat); ("lng", lng)].

(** Five devices, each stored as a field map. *)
Definition five_devices : Redis.database :=
  [ ("gps:last:device-001", device "-12.045409" "-77.031494");
    ("gps:last:device-002", device "-12.046789" "-77.032123");
    ("gps:last:device-003", device "-12.047123" "-77.030987");
    ("gps:last:device-004", device "-12.048001" "-77.029500");
    ("gps:last:device-005", device "-12.049250" "-77.028750") ].

(** A key of the device namespace that holds a plain Redis set. *)
Definition with_a_set : Redis.database :=
  [ ("gps:last:device-006", Redis.Other "set");
    ("gps:last:device-001", device "-12.045409" "-77.031494") ].

(** Keys whose payloads name another identifier than their key does. *)
Definition renamed : Redis.database :=
  [ ("gps:last:device-001",
     Redis.Hash [("deviceId", "tracker-9"); ("lat", "-12.045409");
                 ("lng", "-77.031494")]);
    ("mobile:last:user-001",
     Redis.String_ (ExampleHost.json "{'userId':'user-999','lat':-12.04,'lng':-77.03}")) ].

(** Payloads of the mobile namespace that carry no identifier, in each
    of the four encodings. *)
Definition anonymous : Redis.database :=
  [ ("mobile:last:user-001", Redis.String_ (ExampleHost.json "{'lat':-12.04,'lng':-77.03}"));
    ("mobile:last:user-002", Redis.Hash [("lat", "-12.05"); ("lng", "-77.04")]);
    ("mobile:last:user-003",
     Redis.List_ [ ExampleHost.json "{'lat':1,'lng':1}";
                   ExampleHost.json "{'lat':-12.06,'lng':-77.05}" ]);
    ("mobile:last:user-004",
     Redis.ZSet [ ExampleHost.json "{'lat':2,'lng':2}";
                  ExampleHost.json "{'lat':-12.07,'lng':-77.06}" ]);
    ("gps:last:device-001", device "-12.045409" "-77.031494") ].

(** One device that decodes, one whose payload is corrupt, and no key
    for a third. *)
Definition mixed : Redis.database :=
  [ ("gps:last:device-001", device "-12.045409" "-77.031494");
    ("gps:last:device-002", Redis.String_ "{lat:") ].

(** A client that cannot connect; its other replies are those of the
    database. *)
Definition unreachable (db : Redis.database) : RedisClient := {|
  connect_reply := Throw (ReplyError "connect ECONNREFUSED 127.0.0.1:6379");
  on_connect := Opened;
  exists_reply := exists_reply (Redis.client db);
  type_reply := type_reply (Redis.client db);
  get_reply := get_reply (Redis.client db);
  hgetall_reply := hgetall_reply (Redis.client db);
  lindex_reply := lindex_reply (Redis.client db);
  zrevrange_reply := zrevrange_reply (Redis.client db);
  keys_reply := keys_reply (Redis.client db)
|}.

(** The client of a repository on its first call: it opens the
    connection to the database. *)
Definition fresh (db : Redis.database) : RedisClient := {|
  connect_reply := Ok tt;
  on_connect := Opened;
  exists_reply := exists_reply (Redis.client db);
  type_reply := type_reply (Redis.client db);
  get_reply := get_reply (Redis.client db);
  hgetall_reply := hgetall_reply (Redis.client db);
  lindex_reply := lindex_reply (Redis.client db);
  zrevrange_reply := zrevrange_reply (Redis.client db);
  keys_reply := keys_reply (Redis.client db)
|}.

(** Every key takes 64 bytes. *)
Definition flat_usage (key : string) : Z := 64%Z.

(** A client whose connection drops when the type of a key is asked
    for; its other replies are those of the database. *)
Definition type_fails (db : Redis.database) : RedisClient := {|
  connect_reply := Ok tt;
  on_connect := Reused;
  exists_reply := exists_reply (Redis.client db);
  type_reply := fun _ => Throw (ReplyError "Connection is closed.");
  get_reply := get_reply (Redis.client db);
  hgetall_reply := hgetall_reply (Redis.client db);
  lindex_reply := lindex_reply (Redis.client db);
  zrevrange_reply := zrevrange_reply (Redis.client db);
  keys_reply := keys_reply (Redis.client db)
|}.

(** Probes over the five devices where MEMORY USAGE throws for the
    third device and knows nothing of the fourth. *)
Definition patchy_probes : RedisProbes := {|
  hkeys_reply := hkeys_reply (Redis.probes flat_usage five_devices);
  llen_reply := llen_reply (Redis.probes flat_usage five_devices);
  zcard_reply := zcard_reply (Redis.probes flat_usage five_devices);
  memory_usage_reply key :=
    if key =? "gps:last:device-003" then Throw (ReplyError "ERR unknown command")
    else if key =? "gps:last:device-004" then Ok None
    else Ok (Some 64%Z);
  ping_reply := Ok "PONG"
|}.

End Examples.

(** ** Vocabulary of the statements *)

Section Vocabulary.
Context {number : Type} (host : Host number) (client : RedisClient).
Local Abbreviation val := (value number).

(** The trace begins with the event [e]. *)
Definition starts_with (e : event) (t : list event) : Prop :=
  exists rest, t = e :: rest.

(** What one entry of a batch contributes to the result of the device
    repository: the record of a lookup that returned one, nothing for a
    lookup that returned null or threw. *)
Definition resolved (deviceId : string) : list val :=
  match outcome (GPSLastPositionRepository.getLastPosition host client deviceId) with
  | Ok position => if truthy host position then [position] else []
  | Throw _ => []
  end.

End Vocabulary.

(** ** Vocabulary of the further statements *)

Section FurtherVocabulary.
Context {number : Type} (host : Host number) (client : RedisClient)
  (probes : RedisProbes).
Local Abbreviation val := (value number).

(** A stored entry with nothing in it. *)
Definition is_empty (e : Redis.entry) : bool :=
  match e with
  | Redis.String_ text => text =? ""
  | Redis.Hash fields => (List.length fields =? 0)%nat
  | Redis.List_ items => (List.length items =? 0)%nat
  | Redis.ZSet ranked => (List.length ranked =? 0)%nat
  | Redis.Other _ => false
  end.

(** A key that holds content of one of the four supported types. *)
Definition has_content (e : option Redis.entry) : bool :=
  match e with
  | Some (Redis.Other _) => false
  | Some stored => negb (is_empty stored)
  | None => false
  end.

(** The bytes a key adds to the statistics: what MEMORY USAGE reports,
    and nothing when it reports [null] or throws. *)
Definition counted_bytes (key : string) : Z :=
  match memory_usage_reply probes key with
  | Ok (Some bytes) => bytes
  | Ok None => 0%Z
  | Throw _ => 0%Z
  end.

(** What one entry of a batch contributes to the result of the mobile
    repository. *)
Definition resolved_user (userId : string) : list val :=
  match outcome (MobileLastPositionRepository.getLastPosition host client userId) with
  | Ok position => if truthy host position then [position] else []
  | Throw _ => []
  end.

(** What a call of [connect()] that succeeds logs. *)
Definition connect_lines : list event :=
  match on_connect client with
  | Reused => []
  | Opened => [Logged LInfo "connected"]
  | AlreadyConnected => [Logged LDebug "connected"]
  end.

(** The [gps] view of every record of a scan. *)
Definition gps_views (allPositions : list val) : list val :=
  map (fun p => GPSLastPositionService._formatPositionData host p "gps") allPositions.


(** The identifiers the request checks let through: one to a hundred
    characters of the class. *)
Definition well_formed (s : string) : Prop :=
  s <> "" /\ String.length s <= 100 /\
  JSString.every validationMiddleware.in_class s = true.

(** An entry of another Redis type goes by a type name that is none of
    the four supported ones. *)
Definition well_typed (e : option Redis.entry) : Prop :=
  match e with
  | Some (Redis.Other typeName) => ~ In typeName ["string"; "hash"; "list"; "zset"]
  | _ => True
  end.

End FurtherVocabulary.

(** * Properties *)

Unset Implicit Arguments.

(** ** Laws of the effect monad *)

Section MonadLaws.
Context {A B : Type}.

Lemma outcome_bind (m : M A) (f : A -> M B) :
  outcome (bind m f) =
  match outcome m with
  | Ok a => outcome (f a)
  | Throw e => Throw e
  end.
Proof.
  destruct m as [[a | e] t]; simpl; [ | reflexivity ].
  destruct (f a); reflexivity.
Qed.

Lemma trace_bind (m : M A) (f : A -> M B) :
  trace (bind m f) =
  match outcome m with
  | Ok a => trace m ++ trace (f a)
  | Throw _ => trace m
  end.
Proof.
  destruct m as [[a | e] t]; simpl; [ | reflexivity ].
  destruct (f a); reflexivity.
Qed.

Lemma outcome_try_catch (m : M A) (handler : error -> M A) :
  outcome (try_catch m handler) =
  match outcome m with
  | Ok a => Ok a
  | Throw e => outcome (handler e)
  end.
Proof.
  destruct m as [[a | e] t]; simpl; [ reflexivity | ].
  destruct (handler e); reflexivity.
Qed.

Lemma trace_try_catch (m : M A) (handler : error -> M A) :
  trace (try_catch m handler) =
  match outcome m with
  | Ok _ => trace m
  | Throw e => trace m ++ trace (handler e)
  end.
Proof.
  destruct m as [[a | e] t]; simpl; [ reflexivity | ].
  destruct (handler e); reflexivity.
Qed.

End MonadLaws.

Lemma outcome_log_then {A : Type} (l : level) (subject : string) (k : M A) :
  outcome (log l subject ;; k) = outcome k.
Proof. unfold log; simpl. destruct k; reflexivity. Qed.

Lemma storage_accesses_app (t t' : list event) :
  storage_accesses (t ++ t') = storage_accesses t ++ storage_accesses t'.
Proof. apply filter_app. Qed.

(** ** Connecting *)

Section Connecting.
Context (client : RedisClient).

Lemma connect_accepted :
  connect_reply client = Ok tt ->
  GPSLastPositionRepository.connect client
  = (Ok tt, Redis CConnect :: connect_lines client).
Proof.
  intros H. unfold GPSLastPositionRepository.connect, send, connect_lines.
  rewrite H. destruct (on_connect client); reflexivity.
Qed.

Lemma connect_outcome :
  connect_reply client = Ok tt ->
  outcome (GPSLastPositionRepository.connect client) = Ok tt.
Proof. intros H. now rewrite (connect_accepted H). Qed.

Lemma mobile_connect_accepted :
  connect_reply client = Ok tt ->
  MobileLastPositionRepository.connect client
  = (Ok tt, Redis CConnect :: connect_lines client).
Proof.
  intros H. unfold MobileLastPositionRepository.connect, send, connect_lines.
  rewrite H. destruct (on_connect client); reflexivity.
Qed.

Lemma mobile_connect_outcome :
  connect_reply client = Ok tt ->
  outcome (MobileLastPositionRepository.connect client) = Ok tt.
Proof. intros H. now rewrite (mobile_connect_accepted H). Qed.

(** A call of [connect()] on the connection that an earlier call left
    ends as that call did. *)
Lemma connect_again :
  outcome (GPSLastPositionRepository.connect (connected client))
  = outcome (GPSLastPositionRepository.connect client).
Proof.
  unfold GPSLastPositionRepository.connect, connected, send.
  cbn [connect_reply on_connect].
  destruct (connect_reply client) as [ [] | e ]; destruct (on_connect client);
    reflexivity.
Qed.

Lemma mobile_connect_again :
  outcome (MobileLastPositionRepository.connect (connected client))
  = outcome (MobileLastPositionRepository.connect client).
Proof.
  unfold MobileLastPositionRepository.connect, connected, send.
  cbn [connect_reply on_connect].
  destruct (connect_reply client) as [ [] | e ]; destruct (on_connect client);
    reflexivity.
Qed.

Lemma storage_accesses_connect_lines : storage_accesses (connect_lines client) = [].
Proof. unfold connect_lines. destruct (on_connect client); reflexivity. Qed.

End Connecting.

(** What a lookup returns does not depend on how the connection was
    come by. *)
Lemma getLastPosition_connected {number : Type} (host : Host number)
    (client : RedisClient) (deviceId : string) :
  outcome (GPSLastPositionRepository.getLastPosition host (connected client) deviceId)
  = outcome (GPSLastPositionRepository.getLastPosition host client deviceId).
Proof.
  unfold GPSLastPositionRepository.getLastPosition.
  rewrite !outcome_try_catch, !outcome_bind, connect_again. reflexivity.
Qed.

Lemma mobile_getLastPosition_connected {number : Type} (host : Host number)
    (client : RedisClient) (userId : string) :
  outcome (MobileLastPositionRepository.getLastPosition host (connected client) userId)
  = outcome (MobileLastPositionRepository.getLastPosition host client userId).
Proof.
  unfold MobileLastPositionRepository.getLastPosition.
  rewrite !outcome_try_catch, !outcome_bind, mobile_connect_again. reflexivity.
Qed.

Lemma resolved_connected {number : Type} (host : Host number)
    (client : RedisClient) (deviceId : string) :
  resolved host (connected client) deviceId = resolved host client deviceId.
Proof. unfold resolved. now rewrite getLastPosition_connected. Qed.

Lemma resolved_user_connected {number : Type} (host : Host number)
    (client : RedisClient) (userId : string) :
  resolved_user host (connected client) userId = resolved_user host client userId.
Proof. unfold resolved_user. now rewrite mobile_getLastPosition_connected. Qed.

(** ** Objects *)

Section ObjectFacts.
Context {number : Type}.
Local Abbreviation val := (value number).

Lemma assoc_obj_set_same (fields : list (string * val)) k v :
  assoc k (obj_set fields k v) = Some v.
Proof.
  induction fields as [ | [k' v'] rest IH ]; simpl.
  - now rewrite String.eqb_refl.
  - destruct (k =? k') eqn:E; simpl.
    + now rewrite String.eqb_refl.
    + now rewrite E.
Qed.

Lemma assoc_obj_set_other (fields : list (string * val)) k k' v :
  k <> k' -> assoc k (obj_set fields k' v) = assoc k fields.
Proof.
  intros Hneq.
  assert (Hkk : (k =? k') = false) by now apply String.eqb_neq.
  induction fields as [ | [k0 v0] rest IH ]; simpl.
  - now rewrite Hkk.
  - destruct (k' =? k0) eqn:E; simpl.
    + apply String.eqb_eq in E; subst k0. now rewrite Hkk.
    + destruct (k =? k0); [ reflexivity | exact IH ].
Qed.

Lemma get_prop_set_same (fields : list (string * val)) k v :
  get_prop (VObj (obj_set fields k v)) k = v.
Proof. simpl. now rewrite assoc_obj_set_same. Qed.

Lemma get_prop_set_other (fields : list (string * val)) k k' v :
  k <> k' ->
  get_prop (VObj (obj_set fields k' v)) k = get_prop (VObj fields) k.
Proof. intros H. simpl. now rewrite assoc_obj_set_other. Qed.

End ObjectFacts.

(** ** View projection *)

Section Projection.
Context {number : Type} (host : Host number).
Local Abbreviation val := (value number).

Lemma truthy_unset (v : val) :
  v = VNull \/ v = VUndefined \/ v = VStr "" -> truthy host v = false.
Proof. intros [-> | [-> | ->]]; reflexivity. Qed.

Lemma truthy_nonempty (s : string) : s <> "" -> truthy host (VStr s) = true.
Proof.
  intros Hs; simpl. apply negb_true_iff. now apply String.eqb_neq.
Qed.

Lemma js_or_falsy (a b : val) : truthy host a = false -> js_or host a b = b.
Proof. unfold js_or; now intros ->. Qed.

Lemma js_or_truthy (a b : val) : truthy host a = true -> js_or host a b = a.
Proof. unfold js_or; now intros ->. Qed.

End Projection.

(** C6, as amended.  In the [gps] and [mobile] views the projected
    object has a field [id] holding the record's identifier ([deviceId]
    in the device service, [userId] in the mobile service).  The [full]
    view is the record itself, unchanged: its identifier stays under
    [deviceId] and no [id] field is added.  The projection is a total
    function without effects. *)
Theorem projected_id {number : Type} (host : Host number) (r : value number) :
  get_prop (GPSLastPositionService._formatPositionData host r "gps") "id"
    = get_prop r "deviceId" /\
  get_prop (GPSLastPositionService._formatPositionData host r "mobile") "id"
    = get_prop r "deviceId" /\
  GPSLastPositionService._formatPositionData host r "full" = r /\
  get_prop (MobileLastPositionService._formatPositionDataForMobile host r) "id"
    = get_prop r "userId".
Proof. repeat split. Qed.

(** C6 as stated fails in the [full] view: a record that carries a
    [deviceId] comes back with no [id] field at all. *)
Lemma full_view_has_no_id :
  let r : value ExampleHost.numeral :=
    VObj [("deviceId", VStr "device-001"); ("lat", VNum "-12.04")] in
  get_prop (GPSLastPositionService._formatPositionData ExampleHost.host r "full") "id"
    <> get_prop r "deviceId".
Proof. simpl. discriminate. Qed.

(** C7, as amended.  In the mobile view, [name] is the record's
    identifier when its [name] is null, unset or the empty string, and
    is the record's [name] when that is a non-empty string.  Both the
    device service and the mobile service project this way. *)
Theorem mobile_view_name {number : Type} (host : Host number) (r : value number) :
  (get_prop r "name" = VNull \/ get_prop r "name" = VUndefined
   \/ get_prop r "name" = VStr "" ->
   get_prop (GPSLastPositionService._formatPositionData host r "mobile") "name"
     = get_prop r "deviceId" /\
   get_prop (MobileLastPositionService._formatPositionDataForMobile host r) "name"
     = get_prop r "userId") /\
  (forall displayName : string,
   get_prop r "name" = VStr displayName -> displayName <> "" ->
   get_prop (GPSLastPositionService._formatPositionData host r "mobile") "name"
     = VStr displayName /\
   get_prop (MobileLastPositionService._formatPositionDataForMobile host r) "name"
     = VStr displayName).
Proof.
  split.
  - intros Hunset. apply (truthy_unset host _) in Hunset.
    unfold GPSLastPositionService._formatPositionData,
      MobileLastPositionService._formatPositionDataForMobile.
    simpl. rewrite !(js_or_falsy host _ _ Hunset). now split.
  - intros displayName Hname Hne.
    pose proof (truthy_nonempty host _ Hne) as Htruthy.
    rewrite <- Hname in Htruthy |- *.
    unfold GPSLastPositionService._formatPositionData,
      MobileLastPositionService._formatPositionDataForMobile.
    simpl. rewrite !(js_or_truthy host _ _ Htruthy). now split.
Qed.

(** A device without a name and a device named Truck. *)
Lemma mobile_view_name_witness :
  let unnamed : value ExampleHost.numeral :=
    VObj [("deviceId", VStr "device-001"); ("name", VNull)] in
  let named : value ExampleHost.numeral :=
    VObj [("deviceId", VStr "device-002"); ("name", VStr "Truck")] in
  get_prop (GPSLastPositionService._formatPositionData ExampleHost.host unnamed "mobile")
    "name" = VStr "device-001" /\
  get_prop (GPSLastPositionService._formatPositionData ExampleHost.host named "mobile")
    "name" = VStr "Truck".
Proof.
  intros unnamed named. split.
  - apply (proj1 (mobile_view_name ExampleHost.host unnamed)).
    left; reflexivity.
  - apply (proj2 (mobile_view_name ExampleHost.host named) "Truck").
    + reflexivity.
    + discriminate.
Defined.

(** C7 as stated fails for a record whose [name] is set to the empty
    string: the mobile view answers with the identifier, not with the
    stored name. *)
Lemma empty_name_is_replaced :
  let r : value ExampleHost.numeral :=
    VObj [("deviceId", VStr "device-001"); ("name", VStr "")] in
  get_prop r "name" <> VNull /\ get_prop r "name" <> VUndefined /\
  get_prop (GPSLastPositionService._formatPositionData ExampleHost.host r "mobile")
    "name" <> get_prop r "name".
Proof. simpl. repeat split; discriminate. Qed.

(** ** Full listing and pagination *)

Ltac step_outcome :=
  repeat first
    [ rewrite outcome_try_catch
    | rewrite outcome_log_then
    | rewrite outcome_bind ].

Section Listing.
Context {number : Type} (host : Host number) (client : RedisClient).
Local Abbreviation val := (value number).

Lemma firstn_min_length {A : Type} (n : nat) (l : list A) :
  firstn (Nat.min n (List.length l)) l = firstn n l.
Proof.
  destruct (Nat.le_gt_cases n (List.length l)) as [Hle | Hgt].
  - now rewrite Nat.min_l.
  - rewrite Nat.min_r by lia.
    rewrite firstn_all, firstn_all2 by lia. reflexivity.
Qed.

(** On indices in range, [slice] is [firstn] after [skipn]. *)
Lemma slice_firstn_skipn {A : Type} (l : list A) (o n : nat) :
  slice l (Z.of_nat o) (Z.of_nat o + Z.of_nat n) = firstn n (skipn o l).
Proof.
  unfold slice.
  replace (Z.of_nat o <? 0)%Z with false by (symmetry; apply Z.ltb_ge; lia).
  replace (Z.of_nat o + Z.of_nat n <? 0)%Z with false
    by (symmetry; apply Z.ltb_ge; lia).
  set (len := List.length l).
  destruct (Nat.le_gt_cases len o) as [Hout | Hin].
  - replace (Z.to_nat (Z.min (Z.of_nat o) (Z.of_nat len))) with len by lia.
    unfold len. rewrite skipn_all. rewrite skipn_all2 by exact Hout.
    now rewrite !firstn_nil.
  - replace (Z.to_nat (Z.min (Z.of_nat o) (Z.of_nat len))) with o by lia.
    replace (Z.to_nat (Z.min (Z.of_nat o + Z.of_nat n) (Z.of_nat len)
                       - Z.min (Z.of_nat o) (Z.of_nat len)))
      with (Nat.min n (List.length (skipn o l)))
      by (rewrite length_skipn; fold len; lia).
    apply firstn_min_length.
Qed.

(** The page of a listing with a positive limit: [limit] records after
    the first [offset] ones of the projected scan. *)
Lemma listing_pagination (allPositions : list val) (o l : nat) :
  outcome (GPSLastPositionRepository.getAllLastPositions host client)
    = Ok allPositions ->
  0 < l ->
  exists page,
    outcome (GPSLastPositionService.getAllLastPositions host client
               {| opt_limit := Some (Z.of_nat l); opt_offset := Some (Z.of_nat o) |})
      = Ok (Success page) /\
    listing_data page =
      firstn l (skipn o
        (map (fun p => GPSLastPositionService._formatPositionData host p "gps")
             allPositions)) /\
    total (listing_summary_of page) = List.length allPositions.
Proof.
  intros Hscan Hl.
  unfold GPSLastPositionService.getAllLastPositions,
    GPSLastPositionService.repository_getAllLastPositions.
  step_outcome. rewrite Hscan. cbn [opt_limit opt_offset].
  replace (Z.of_nat l =? 0)%Z with false by (symmetry; apply Z.eqb_neq; lia).
  replace (0 <? Z.of_nat l)%Z with true by (symmetry; apply Z.ltb_lt; lia).
  cbn [negb andb outcome fst ret].
  eexists; split; [ reflexivity | ].
  cbn [listing_data listing_summary_of total].
  rewrite Z.max_r by lia. rewrite slice_firstn_skipn, length_map. now split.
Qed.

End Listing.

(** C5.  Over a store whose scan yields five records, the listing with
    [limit = 2] and [offset = 1] answers with the projections of the
    second and third record, in scan order, and its summary reads
    [total = 5], [returned = 2], [offset = 1], [limit = 2]: the slice is
    taken in memory, after every record was projected. *)
Theorem listing_page_of_five {number : Type} (host : Host number)
    (client : RedisClient) (r0 r1 r2 r3 r4 : value number) :
  outcome (GPSLastPositionRepository.getAllLastPositions host client)
    = Ok [r0; r1; r2; r3; r4] ->
  outcome (GPSLastPositionService.getAllLastPositions host client
             {| opt_limit := Some 2%Z; opt_offset := Some 1%Z |})
  = Ok (Success
      {| listing_data :=
           [ GPSLastPositionService._formatPositionData host r1 "gps";
             GPSLastPositionService._formatPositionData host r2 "gps" ];
         listing_summary_of :=
           {| total := 5; returned := 2; offset := 1%Z; limit := Some 2%Z;
              format := "gps" |};
         listing_timestamp := now host |}).
Proof.
  intros Hscan.
  unfold GPSLastPositionService.getAllLastPositions,
    GPSLastPositionService.repository_getAllLastPositions.
  step_outcome. rewrite Hscan. reflexivity.
Qed.

(** C10.  Without a limit the listing answers with every projected
    record, whatever offset the caller supplied: the offset is not
    applied, [returned] equals [total], and the summary repeats the
    offset as given.  Both services behave this way; a listing whose
    scan throws is answered with [INTERNAL_ERROR]. *)
Theorem listing_without_limit {number : Type} (host : Host number)
    (client : RedisClient) (o : Z) :
  outcome (GPSLastPositionService.getAllLastPositions host client
             {| opt_limit := None; opt_offset := Some o |})
  = match outcome (GPSLastPositionRepository.getAllLastPositions host client) with
    | Ok allPositions =>
        let projected :=
          map (fun p => GPSLastPositionService._formatPositionData host p "gps")
              allPositions in
        Ok (Success
          {| listing_data := projected;
             listing_summary_of :=
               {| total := List.length projected;
                  returned := List.length projected;
                  offset := o; limit := None; format := "gps" |};
             listing_timestamp := now host |})
    | Throw e => Ok (Failure "INTERNAL_ERROR" (Details (message e)))
    end
  /\
  outcome (MobileLastPositionService.getAllLastPositions host client
             {| opt_limit := None; opt_offset := Some o |})
  = match outcome (MobileLastPositionRepository.getAllLastPositions host client) with
    | Ok allPositions =>
        let projected :=
          map (MobileLastPositionService._formatPositionDataForMobile host)
              allPositions in
        Ok (Success
          {| listing_data := projected;
             listing_summary_of :=
               {| total := List.length projected;
                  returned := List.length projected;
                  offset := o; limit := None; format := "mobile" |};
             listing_timestamp := now host |})
    | Throw e => Ok (Failure "INTERNAL_ERROR" (Details (message e)))
    end.
Proof.
  split.
  - unfold GPSLastPositionService.getAllLastPositions,
      GPSLastPositionService.repository_getAllLastPositions.
    step_outcome.
    destruct (outcome (GPSLastPositionRepository.getAllLastPositions host client));
      reflexivity.
  - unfold MobileLastPositionService.getAllLastPositions,
      MobileLastPositionService.repository_getAllLastPositions.
    step_outcome.
    destruct (outcome (MobileLastPositionRepository.getAllLastPositions host client));
      reflexivity.
Qed.

(** The second page of size two over the five devices of the examples. *)
Lemma listing_page_of_five_witness :
  outcome (GPSLastPositionService.getAllLastPositions ExampleHost.host
             (Redis.client Examples.five_devices)
             {| opt_limit := Some 2%Z; opt_offset := Some 1%Z |})
  = Ok (Success
      {| listing_data :=
           [ VObj [("id", VStr "device-002"); ("lat", VNum "-12.046789");
                   ("lng", VNum "-77.032123")];
             VObj [("id", VStr "device-003"); ("lat", VNum "-12.047123");
                   ("lng", VNum "-77.030987")] ];
         listing_summary_of :=
           {| total := 5; returned := 2; offset := 1%Z; limit := Some 2%Z;
              format := "gps" |};
         listing_timestamp := "2025-07-29T10:30:00.000Z" |}).
Proof.
  eapply eq_trans.
  - eapply listing_page_of_five. vm_compute. reflexivity.
  - reflexivity.
Defined.

(** ** Validation of identifiers and batches *)

Section Validation.
Context {number : Type} (host : Host number) (client : RedisClient).
Local Abbreviation val := (value number).

Lemma starts_with_app e t t' : starts_with e t -> starts_with e (t ++ t').
Proof. intros [rest ->]. now exists (rest ++ t'). Qed.

Lemma starts_with_bind {A B : Type} e (m : M A) (f : A -> M B) :
  starts_with e (trace m) -> starts_with e (trace (bind m f)).
Proof.
  intros H. rewrite trace_bind.
  destruct (outcome m); [ now apply starts_with_app | exact H ].
Qed.

Lemma starts_with_try_catch {A : Type} e (m : M A) handler :
  starts_with e (trace m) -> starts_with e (trace (try_catch m handler)).
Proof.
  intros H. rewrite trace_try_catch.
  destruct (outcome m); [ exact H | now apply starts_with_app ].
Qed.

Lemma connect_first :
  starts_with (Redis CConnect) (trace (GPSLastPositionRepository.connect client)).
Proof.
  unfold GPSLastPositionRepository.connect.
  apply starts_with_try_catch, starts_with_bind. now exists [].
Qed.

(** Every single lookup of the repository begins by reaching for Redis. *)
Lemma getLastPosition_connects_first (deviceId : string) :
  starts_with (Redis CConnect)
    (trace (GPSLastPositionRepository.getLastPosition host client deviceId)).
Proof.
  unfold GPSLastPositionRepository.getLastPosition.
  apply starts_with_try_catch, starts_with_bind, connect_first.
Qed.

Lemma is_blank_string (s : string) :
  GPSLastPositionService.is_blank host (VStr s) = (JSString.trim s =? "").
Proof.
  unfold GPSLastPositionService.is_blank; simpl.
  destruct s as [ | c s ]; reflexivity.
Qed.

Lemma blank_identifier_rejected (deviceId : val) (format : string) :
  GPSLastPositionService.is_blank host deviceId = true ->
  GPSLastPositionService.getDeviceLastPosition host client deviceId format
    = (Ok (Failure "INVALID_DEVICE_ID" NoInfo), []).
Proof.
  intros Hblank. unfold GPSLastPositionService.getDeviceLastPosition.
  now rewrite Hblank.
Qed.

Lemma accepted_identifier_reaches_storage (deviceId : val) (format : string) :
  GPSLastPositionService.is_blank host deviceId = false ->
  exists rest,
    storage_accesses
      (trace (GPSLastPositionService.getDeviceLastPosition host client deviceId format))
    = Redis CConnect :: rest.
Proof.
  intros Hvalid. unfold GPSLastPositionService.getDeviceLastPosition.
  rewrite Hvalid.
  set (cleanDeviceId := GPSLastPositionService.clean deviceId).
  destruct (getLastPosition_connects_first cleanDeviceId) as [t Ht].
  unfold GPSLastPositionService.repository_getLastPosition.
  rewrite trace_try_catch, outcome_log_then, !trace_bind.
  cbn [outcome trace fst snd log].
  rewrite Ht. cbn [app].
  repeat match goal with
  | |- context [match ?r with Ok _ => _ | Throw _ => _ end] => destruct r
  end;
  cbn [storage_accesses filter is_storage app]; eexists; reflexivity.
Qed.

Lemma every_false_nonempty (p : ascii -> bool) (s : string) :
  JSString.every p s = false -> s <> "".
Proof. intros H ->. discriminate. Qed.

Lemma too_long_nonempty (s : string) : 100 < String.length s -> s <> "".
Proof. intros H ->. simpl in H. lia. Qed.

End Validation.

(** C3, as amended.  For an identifier that is longer than 100
    characters or has a character outside [[A-Za-z0-9._-]]: the boundary
    middleware answers 400 and does not hand the request on; the
    single lookup itself rejects it, with [INVALID_DEVICE_ID] and before
    any storage access, only when it is blank after trimming, and
    otherwise goes on to Redis.  The length and character rules are
    checked by the middleware alone. *)
Theorem identifier_rules {number : Type} (host : Host number)
    (client : RedisClient) (s format : string) :
  100 < String.length s \/ JSString.every validationMiddleware.in_class s = false ->
  (exists code,
     validationMiddleware.validateDeviceIdMiddleware host (VStr s)
       = validationMiddleware.rejected 400 code) /\
  (JSString.trim s = "" ->
   GPSLastPositionService.getDeviceLastPosition host client (VStr s) format
     = (Ok (Failure "INVALID_DEVICE_ID" NoInfo), [])) /\
  (JSString.trim s <> "" ->
   exists rest,
     storage_accesses
       (trace (GPSLastPositionService.getDeviceLastPosition host client (VStr s) format))
     = Redis CConnect :: rest).
Proof.
  intros Hviolates. repeat split.
  - assert (Hne : s <> "")
      by (destruct Hviolates;
          [ now apply too_long_nonempty | now apply every_false_nonempty in H ]).
    unfold validationMiddleware.validateDeviceIdMiddleware.
    rewrite (truthy_nonempty host _ Hne). cbn [negb].
    destruct (JSString.trim s =? ""); [ eexists; reflexivity | ].
    destruct (100 <? String.length s)%nat eqn:Hlen; [ eexists; reflexivity | ].
    destruct Hviolates as [Hlong | Hchar].
    + apply Nat.ltb_ge in Hlen. lia.
    + unfold validationMiddleware.validPattern_test. rewrite Hchar.
      rewrite andb_false_r. eexists; reflexivity.
  - intros Hblank. apply blank_identifier_rejected.
    rewrite is_blank_string. now apply String.eqb_eq.
  - intros Hvalid. apply accepted_identifier_reaches_storage.
    rewrite is_blank_string. now apply String.eqb_neq.
Qed.

(** An identifier with a space and an exclamation mark. *)
Lemma identifier_rules_witness :
  (exists code,
     validationMiddleware.validateDeviceIdMiddleware ExampleHost.host
       (VStr "device 001!") = validationMiddleware.rejected 400 code) /\
  (exists rest,
     storage_accesses
       (trace (GPSLastPositionService.getDeviceLastPosition ExampleHost.host
                 (Redis.client Examples.five_devices) (VStr "device 001!") "full"))
     = Redis CConnect :: rest).
Proof.
  assert (Hviolates :
    100 < String.length "device 001!" \/
    JSString.every validationMiddleware.in_class "device 001!" = false)
    by (right; reflexivity).
  destruct (identifier_rules ExampleHost.host (Redis.client Examples.five_devices)
              "device 001!" "full" Hviolates) as [Hmw [_ Hstorage]].
  split; [ exact Hmw | apply Hstorage; discriminate ].
Defined.

(** C3 as stated fails: an identifier with a space and an exclamation
    mark is not rejected by the single lookup, which queries Redis for
    it and answers that no position was found. *)
Lemma invalid_characters_reach_storage :
  JSString.every validationMiddleware.in_class "device 001!" = false /\
  GPSLastPositionService.getDeviceLastPosition ExampleHost.host
    (Redis.client Examples.five_devices) (VStr "device 001!") "full"
  = (Ok (Failure "POSITION_NOT_FOUND" (ForEntity "device 001!")),
     [ Logged LInfo "device 001!"; Redis CConnect;
       Redis (CExists "gps:last:device 001!"); Logged LDebug "device 001!" ]).
Proof. split; reflexivity. Qed.

(** ** Batch validation *)

Section BatchValidation.
Context {number : Type} (host : Host number) (client : RedisClient).
Local Abbreviation val := (value number).

Lemma validate_spec (ids : list val) (cleanIds : list string) (invalidIds : list val) :
  GPSLastPositionService.validate host ids cleanIds invalidIds =
  (cleanIds ++ map GPSLastPositionService.clean
                 (filter (fun id => negb (GPSLastPositionService.is_blank host id)) ids),
   invalidIds ++ filter (GPSLastPositionService.is_blank host) ids).
Proof.
  revert cleanIds invalidIds.
  induction ids as [ | id rest IH ]; intros cleanIds invalidIds; simpl.
  - now rewrite !app_nil_r.
  - destruct (GPSLastPositionService.is_blank host id); simpl; rewrite IH.
    + now rewrite <- app_assoc.
    + now rewrite <- app_assoc.
Qed.

Lemma filter_none {A : Type} (p : A -> bool) (l : list A) :
  Forall (fun x => p x = false) l -> filter p l = [].
Proof.
  induction 1 as [ | x l Hx _ IH ]; simpl; [ reflexivity | now rewrite Hx ].
Qed.

Lemma filter_all {A : Type} (p : A -> bool) (l : list A) :
  Forall (fun x => p x = false) l -> filter (fun x => negb (p x)) l = l.
Proof.
  induction 1 as [ | x l Hx _ IH ]; simpl; [ reflexivity | ].
  rewrite Hx; simpl. now rewrite IH.
Qed.

Lemma filter_some {A : Type} (p : A -> bool) (l : list A) :
  Exists (fun x => p x = true) l -> filter p l <> [].
Proof.
  induction 1 as [ x l Hx | x l _ IH ]; simpl.
  - rewrite Hx. discriminate.
  - destruct (p x); [ discriminate | exact IH ].
Qed.

Lemma validate_all_valid (ids : list val) :
  Forall (fun id => GPSLastPositionService.is_blank host id = false) ids ->
  GPSLastPositionService.validate host ids [] [] =
  (map GPSLastPositionService.clean ids, []).
Proof.
  intros Hvalid. rewrite validate_spec. simpl.
  now rewrite filter_all, filter_none.
Qed.

End BatchValidation.

(** C4, as amended.  A batch of more than 100 entries is rejected and
    nothing is sent to Redis.  The error is [TOO_MANY_DEVICES], with the
    number of entries and the maximum of 100, when every entry is a
    non-blank string.  When some entry is not, the per-entry check
    comes first: the error is [INVALID_DEVICE_IDS] with the offending
    entries, unless one of them cannot be converted to a string for the
    text of that error; the [TypeError] of the conversion is then
    caught, logged and answered as [INTERNAL_ERROR]. *)
Theorem oversized_batch {number : Type} (host : Host number)
    (client : RedisClient) (ids : list (value number)) (format : string) :
  100 < List.length ids ->
  storage_accesses
    (trace (GPSLastPositionService.getMultipleDevicesLastPositions host client
              (VArr ids) format)) = [] /\
  (Forall (fun id => GPSLastPositionService.is_blank host id = false) ids ->
   GPSLastPositionService.getMultipleDevicesLastPositions host client (VArr ids) format
     = (Ok (Failure "TOO_MANY_DEVICES" (TooMany (List.length ids) 100)), [])) /\
  (Exists (fun id => GPSLastPositionService.is_blank host id = true) ids ->
   GPSLastPositionService.getMultipleDevicesLastPositions host client (VArr ids) format
     = if existsb toString_throws (filter (GPSLastPositionService.is_blank host) ids)
       then (Ok (Failure "INTERNAL_ERROR" (Details (primitive_error host))),
             [Logged LError (primitive_error host)])
       else (Ok (Failure "INVALID_DEVICE_IDS"
                   (InvalidIds (filter (GPSLastPositionService.is_blank host) ids))),
             [])).
Proof.
  intros Hsize.
  unfold GPSLastPositionService.getMultipleDevicesLastPositions.
  replace (List.length ids =? 0)%nat with false
    by (symmetry; apply Nat.eqb_neq; lia).
  rewrite validate_spec. cbn [app].
  destruct (filter (GPSLastPositionService.is_blank host) ids) as [ | bad others ] eqn:Hbad.
  - assert (Hall : Forall (fun id => GPSLastPositionService.is_blank host id = false) ids).
    { apply Forall_forall. intros id Hin.
      destruct (GPSLastPositionService.is_blank host id) eqn:E; [ | reflexivity ].
      assert (Hmem : In id (filter (GPSLastPositionService.is_blank host) ids))
        by now apply filter_In.
      rewrite Hbad in Hmem. destruct Hmem. }
    rewrite filter_all by exact Hall. rewrite length_map.
    change (0 <? List.length (@nil (value number)))%nat with false.
    replace (GPSLastPositionService.maxDevices <? List.length ids)%nat with true
      by (symmetry; apply Nat.ltb_lt; unfold GPSLastPositionService.maxDevices; lia).
    cbv beta iota.
    split; [ reflexivity | ]. split.
    + intros _. reflexivity.
    + intros Hsome. apply filter_some in Hsome. now rewrite Hbad in Hsome.
  - change (0 <? List.length (bad :: others))%nat with true.
    cbv beta iota. unfold join.
    destruct (existsb toString_throws (bad :: others)).
    + split; [ reflexivity | ]. split.
      * intros Hall. apply filter_none in Hall. rewrite Hbad in Hall. discriminate.
      * intros _. reflexivity.
    + split; [ reflexivity | ]. split.
      * intros Hall. apply filter_none in Hall. rewrite Hbad in Hall. discriminate.
      * intros _. reflexivity.
Qed.

(** A batch of 101 well-formed identifiers, and the same batch with an
    entry before it that is an object with a field [toString]. *)
Lemma oversized_batch_witness :
  GPSLastPositionService.getMultipleDevicesLastPositions ExampleHost.host
    (Redis.client Examples.five_devices)
    (VArr (repeat (VStr "device-001") 101)) "full"
  = (Ok (Failure "TOO_MANY_DEVICES" (TooMany 101 100)), []) /\
  GPSLastPositionService.getMultipleDevicesLastPositions ExampleHost.host
    (Redis.client Examples.five_devices)
    (VArr (VObj [("toString", VNum "1")] :: repeat (VStr "device-001") 101)) "full"
  = (Ok (Failure "INTERNAL_ERROR"
           (Details "Cannot convert object to primitive value")),
     [Logged LError "Cannot convert object to primitive value"]).
Proof.
  split.
  - destruct (oversized_batch ExampleHost.host (Redis.client Examples.five_devices)
                (repeat (VStr "device-001") 101) "full")
      as (_ & Hvalid & _).
    + rewrite repeat_length. lia.
    + eapply eq_trans.
      * apply Hvalid. apply Forall_forall. intros id Hin.
        apply repeat_spec in Hin. subst id. reflexivity.
      * reflexivity.
  - destruct (oversized_batch ExampleHost.host (Redis.client Examples.five_devices)
                (VObj [("toString", VNum "1")] :: repeat (VStr "device-001") 101)
                "full")
      as (_ & _ & Hinvalid).
    + cbn [List.length]. rewrite repeat_length. lia.
    + eapply eq_trans.
      * apply Hinvalid. apply Exists_cons_hd. reflexivity.
      * reflexivity.
Defined.

(** C4 as stated fails for a batch of 101 entries one of which is the
    empty string: the request is rejected, but as [INVALID_DEVICE_IDS],
    not as too many. *)
Lemma oversized_batch_with_blank_entry :
  let ids : list (value ExampleHost.numeral) :=
    VStr "" :: repeat (VStr "device-001") 100 in
  100 < List.length ids /\
  GPSLastPositionService.getMultipleDevicesLastPositions ExampleHost.host
    (Redis.client Examples.five_devices) (VArr ids) "full"
  = (Ok (Failure "INVALID_DEVICE_IDS" (InvalidIds [VStr ""])), []).
Proof.
  split.
  - simpl. lia.
  - vm_compute. reflexivity.
Qed.

(** ** Unsupported physical types *)

Section Unsupported.
Context {number : Type} (host : Host number) (client : RedisClient).
Local Abbreviation val := (value number).

Lemma not_supported (dataType : string) :
  ~ In dataType ["string"; "hash"; "list"; "zset"] ->
  (dataType =? "string") = false /\ (dataType =? "hash") = false /\
  (dataType =? "list") = false /\ (dataType =? "zset") = false.
Proof.
  intros Hnot. repeat split; apply String.eqb_neq; intros ->; apply Hnot;
    simpl; tauto.
Qed.

Lemma decode_unsupported (key deviceId dataType : string) :
  type_reply client key = Ok dataType ->
  ~ In dataType ["string"; "hash"; "list"; "zset"] ->
  GPSLastPositionRepository.getDataByType host client key deviceId
    = (Ok VNull, [Redis (CType key); Logged LWarn deviceId]).
Proof.
  intros Htype Hnot.
  destruct (not_supported _ Hnot) as (Hs & Hh & Hl & Hz).
  unfold GPSLastPositionRepository.getDataByType, send.
  rewrite Htype. cbn [bind]. now rewrite Hs, Hh, Hl, Hz.
Qed.

End Unsupported.

(** C9.  When the key of a device exists and its Redis type is none of
    string, hash, list and zset, the decoder returns null and logs one
    warning, without throwing; the repository lookup returns null, and
    the single lookup of the service answers [POSITION_NOT_FOUND]. *)
Theorem unsupported_type_is_not_found {number : Type} (host : Host number)
    (client : RedisClient) (deviceId format dataType : string) (n : Z) :
  let cleanDeviceId := JSString.trim deviceId in
  let key := (keyPrefix host ++ cleanDeviceId)%string in
  cleanDeviceId <> "" ->
  connect_reply client = Ok tt ->
  exists_reply client key = Ok n -> n <> 0%Z ->
  type_reply client key = Ok dataType ->
  ~ In dataType ["string"; "hash"; "list"; "zset"] ->
  GPSLastPositionRepository.getDataByType host client key cleanDeviceId
    = (Ok VNull, [Redis (CType key); Logged LWarn cleanDeviceId]) /\
  outcome (GPSLastPositionRepository.getLastPosition host client cleanDeviceId)
    = Ok VNull /\
  outcome (GPSLastPositionService.getDeviceLastPosition host client
             (VStr deviceId) format)
    = Ok (Failure "POSITION_NOT_FOUND" (ForEntity cleanDeviceId)).
Proof.
  intros cleanDeviceId key Hclean Hconnect Hexists Hn Htype Hnot.
  pose proof (decode_unsupported host client key cleanDeviceId dataType Htype Hnot) as Hdecode.
  assert (Hrepo :
    outcome (GPSLastPositionRepository.getLastPosition host client cleanDeviceId)
      = Ok VNull).
  { unfold GPSLastPositionRepository.getLastPosition.
    rewrite (connect_accepted client Hconnect). unfold send.
    fold key. rewrite Hexists.
    cbn [try_catch bind ret app].
    replace (n =? 0)%Z with false by (symmetry; now apply Z.eqb_neq).
    rewrite Hdecode. reflexivity. }
  repeat split; [ exact Hdecode | exact Hrepo | ].
  unfold GPSLastPositionService.getDeviceLastPosition.
  rewrite is_blank_string.
  replace (JSString.trim deviceId =? "") with false
    by (symmetry; now apply String.eqb_neq).
  unfold GPSLastPositionService.repository_getLastPosition.
  step_outcome. cbn [GPSLastPositionService.clean]. fold cleanDeviceId.
  rewrite Hrepo. reflexivity.
Qed.

(** A key of the device namespace that holds a Redis set. *)
Lemma unsupported_type_is_not_found_witness :
  GPSLastPositionRepository.getDataByType ExampleHost.host
    (Redis.client Examples.with_a_set) "gps:last:device-006" "device-006"
    = (Ok VNull, [Redis (CType "gps:last:device-006"); Logged LWarn "device-006"]) /\
  outcome (GPSLastPositionService.getDeviceLastPosition ExampleHost.host
             (Redis.client Examples.with_a_set) (VStr " device-006 ") "full")
    = Ok (Failure "POSITION_NOT_FOUND" (ForEntity "device-006")).
Proof.
  destruct (@unsupported_type_is_not_found _ ExampleHost.host
              (Redis.client Examples.with_a_set) " device-006 " "full" "set" 1%Z)
    as (Hdecode & _ & Hservice).
  - discriminate.
  - reflexivity.
  - reflexivity.
  - discriminate.
  - reflexivity.
  - simpl. intros [H | [H | [H | [H | []]]]]; discriminate.
  - split; [ exact Hdecode | exact Hservice ].
Defined.

(** ** Batch lookup *)

Section Batch.
Context {number : Type} (host : Host number) (client : RedisClient).
Local Abbreviation val := (value number).

(** The loop never throws: a lookup that throws is logged and skipped. *)
Lemma collect_outcome (get : string -> M val) (ids : list string) (positions : list val) :
  outcome (collect host get ids positions) =
  Ok (positions ++
      flat_map (fun id =>
                  match outcome (get id) with
                  | Ok position => if truthy host position then [position] else []
                  | Throw _ => []
                  end) ids).
Proof.
  revert positions.
  induction ids as [ | id rest IH ]; intros positions; simpl.
  - now rewrite app_nil_r.
  - rewrite outcome_bind, outcome_try_catch, outcome_bind.
    destruct (outcome (get id)) as [position | e].
    + destruct (truthy host position); cbn [outcome ret fst]; rewrite IH.
      * now rewrite <- app_assoc.
      * reflexivity.
    + cbn [outcome fst app]. apply IH.
Qed.

Lemma getMultipleLastPositions_outcome (deviceIds : list string) :
  connect_reply client = Ok tt ->
  outcome (GPSLastPositionRepository.getMultipleLastPositions host client deviceIds)
  = Ok (flat_map (resolved host client) deviceIds).
Proof.
  intros Hconnect. unfold GPSLastPositionRepository.getMultipleLastPositions.
  rewrite outcome_try_catch, outcome_bind, (connect_outcome client Hconnect).
  rewrite outcome_bind, collect_outcome. cbn [app].
  rewrite outcome_log_then. cbn [outcome ret fst]. f_equal.
  apply flat_map_ext. intros id. apply (resolved_connected host client id).
Qed.

Lemma resolved_at_most_one (deviceId : string) :
  List.length (resolved host client deviceId) <= 1.
Proof.
  unfold resolved.
  destruct (outcome _) as [position | e]; [ destruct (truthy host position) | ];
    simpl; lia.
Qed.

Lemma flat_map_at_most_one {A B : Type} (f : A -> list B) (l : list A) :
  (forall a, List.length (f a) <= 1) ->
  List.length (flat_map f l) <= List.length l.
Proof.
  intros Hf. induction l as [ | a l IH ]; simpl; [ lia | ].
  rewrite length_app. specialize (Hf a). lia.
Qed.

(** Counting: each entry either contributes its one record or is kept
    by a filter that drops exactly the contributing entries. *)
Lemma found_or_not (f : string -> list val) (seen : string -> bool) (l : list string) :
  (forall id, List.length (f id) <= 1) ->
  (forall id, In id l -> seen id = negb (List.length (f id) =? 0)%nat) ->
  List.length (flat_map f l) + List.length (filter (fun id => negb (seen id)) l)
  = List.length l.
Proof.
  intros Hone. induction l as [ | id l IH ]; intros Hseen; simpl; [ reflexivity | ].
  rewrite length_app.
  assert (IH' := IH (fun id' Hin => Hseen id' (or_intror Hin))).
  rewrite (Hseen id (or_introl eq_refl)).
  specialize (Hone id).
  destruct (f id) as [ | r [ | r' more ] ]; simpl in *; lia.
Qed.

(** When every record carries the identifier it was looked up under,
    an entry is among the found identifiers exactly when its lookup
    contributed a record. *)
Lemma includes_found (ids : list string) :
  (forall id r, In id ids -> In r (resolved host client id) ->
                get_prop r "deviceId" = VStr id) ->
  forall id, In id ids ->
  includes (map (fun p : val => get_prop p "deviceId")
                (flat_map (resolved host client) ids)) id
  = negb (List.length (resolved host client id) =? 0)%nat.
Proof.
  intros Hcarry id Hin.
  destruct (resolved host client id) as [ | r more ] eqn:Hres; simpl.
  - apply not_true_is_false. intros Hinc.
    apply existsb_exists in Hinc. destruct Hinc as (v & Hv & Hsame).
    apply in_map_iff in Hv. destruct Hv as (p & <- & Hp).
    apply in_flat_map in Hp. destruct Hp as (id' & Hid' & Hp).
    rewrite (Hcarry id' p Hid' Hp) in Hsame. simpl in Hsame.
    apply String.eqb_eq in Hsame. subst id'.
    rewrite Hres in Hp. destruct Hp.
  - apply existsb_exists. exists (get_prop r "deviceId"). split.
    + apply in_map_iff. exists r. split; [ reflexivity | ].
      apply in_flat_map. exists id. split; [ exact Hin | ].
      rewrite Hres. now left.
    + rewrite (Hcarry id r Hin) by (rewrite Hres; now left).
      simpl. apply String.eqb_refl.
Qed.

(** The batch lookup of the service answers every request: what its
    body throws is turned into an [INTERNAL_ERROR] response. *)
Lemma batch_lookup_always_answers (deviceIds : val) (format : string) :
  exists answer,
    outcome (GPSLastPositionService.getMultipleDevicesLastPositions host client
               deviceIds format) = Ok answer.
Proof.
  unfold GPSLastPositionService.getMultipleDevicesLastPositions.
  rewrite outcome_try_catch.
  destruct (outcome _) as [answer | e].
  - now exists answer.
  - cbv beta. rewrite outcome_log_then. eexists. reflexivity.
Qed.

(** A lookup that throws contributes nothing to the batch. *)
Lemma failed_lookup_is_skipped (deviceId : string) (e : error) :
  outcome (GPSLastPositionRepository.getLastPosition host client deviceId) = Throw e ->
  resolved host client deviceId = [].
Proof. intros H. unfold resolved. now rewrite H. Qed.

End Batch.

(** C8, as amended.  The batch lookup answers with at most one record
    per entry of the requested sequence, in the order of the entries:
    each entry contributes the record of its own lookup or nothing.  So
    there are at most as many records as entries, and an identifier
    listed twice is looked up, and answered, twice. *)
Theorem one_record_per_entry {number : Type} (host : Host number)
    (client : RedisClient) (deviceIds : list string) :
  connect_reply client = Ok tt ->
  outcome (GPSLastPositionRepository.getMultipleLastPositions host client deviceIds)
    = Ok (flat_map (resolved host client) deviceIds) /\
  (forall deviceId, List.length (resolved host client deviceId) <= 1) /\
  List.length (flat_map (resolved host client) deviceIds) <= List.length deviceIds.
Proof.
  intros Hconnect. split; [ | split ].
  - now apply getMultipleLastPositions_outcome.
  - apply resolved_at_most_one.
  - apply flat_map_at_most_one, resolved_at_most_one.
Qed.

(** Three entries: one decodes, one is corrupt, one has no key. *)
Lemma one_record_per_entry_witness :
  exists position,
    outcome (GPSLastPositionRepository.getMultipleLastPositions ExampleHost.host
               (Redis.client Examples.mixed)
               ["device-001"; "device-002"; "device-003"])
    = Ok [position] /\
    get_prop position "deviceId" = VStr "device-001".
Proof.
  destruct (one_record_per_entry ExampleHost.host (Redis.client Examples.mixed)
              ["device-001"; "device-002"; "device-003"] eq_refl)
    as (Hrun & _ & _).
  eexists. split.
  - rewrite Hrun. vm_compute. reflexivity.
  - reflexivity.
Defined.

(** C8 as stated fails when an identifier is requested twice: the
    output holds two records for it. *)
Lemma repeated_id_is_answered_twice :
  exists first second,
    outcome (GPSLastPositionRepository.getMultipleLastPositions ExampleHost.host
               (Redis.client Examples.five_devices)
               ["device-001"; "device-001"])
    = Ok [first; second] /\
    get_prop first "deviceId" = VStr "device-001" /\
    get_prop second "deviceId" = VStr "device-001".
Proof.
  do 2 eexists. split; [ vm_compute; reflexivity | split; reflexivity ].
Qed.

(** C2, as amended.  For a batch of one to a hundred non-blank string
    identifiers, with Redis reachable: the repository's batch lookup
    does not throw, whatever the individual lookups do; an entry whose
    lookup throws or finds nothing contributes no record; the service
    answers with success, the projected records, [requested] the number
    of entries and [found] the number of records.  The equation
    [found + notFound = requested] holds when every record carries, as
    its [deviceId], the identifier it was looked up under. *)
Theorem batch_summary_adds_up {number : Type} (host : Host number)
    (client : RedisClient) (ids : list (value number)) (format : string) :
  connect_reply client = Ok tt ->
  ids <> [] ->
  List.length ids <= 100 ->
  Forall (fun id => GPSLastPositionService.is_blank host id = false) ids ->
  let cleanDeviceIds := map GPSLastPositionService.clean ids in
  let positions := flat_map (resolved host client) cleanDeviceIds in
  outcome (GPSLastPositionRepository.getMultipleLastPositions host client cleanDeviceIds)
    = Ok positions /\
  exists payload,
    outcome (GPSLastPositionService.getMultipleDevicesLastPositions host client
               (VArr ids) format)
      = Ok (Success payload) /\
    batch_data payload
      = map (fun p => GPSLastPositionService._formatPositionData host p format)
            positions /\
    requested (summary payload) = List.length ids /\
    found (summary payload) = List.length positions /\
    ((forall id r, In id cleanDeviceIds -> In r (resolved host client id) ->
                   get_prop r "deviceId" = VStr id) ->
     found (summary payload) + notFound (summary payload)
       = requested (summary payload)).
Proof.
  intros Hconnect Hnonempty Hsize Hvalid cleanDeviceIds positions.
  pose proof (getMultipleLastPositions_outcome host client cleanDeviceIds Hconnect) as Hrepo.
  split; [ exact Hrepo | ].
  unfold GPSLastPositionService.getMultipleDevicesLastPositions.
  replace (List.length ids =? 0)%nat with false
    by (symmetry; apply Nat.eqb_neq; destruct ids; [ congruence | discriminate ]).
  rewrite (validate_all_valid host _ Hvalid). fold cleanDeviceIds.
  change (0 <? List.length (@nil (value number)))%nat with false.
  replace (GPSLastPositionService.maxDevices <? List.length cleanDeviceIds)%nat
    with false
    by (symmetry; apply Nat.ltb_ge; unfold cleanDeviceIds;
        rewrite length_map; exact Hsize).
  cbv beta iota.
  unfold GPSLastPositionService.repository_getMultipleLastPositions.
  step_outcome. rewrite Hrepo. cbn [outcome ret fst].
  eexists. split; [ reflexivity | ].
  cbn [batch_data summary requested found notFound].
  fold positions. rewrite !length_map. fold cleanDeviceIds.
  repeat split.
  - unfold cleanDeviceIds. now rewrite length_map.
  - intros Hcarry. unfold positions.
    apply (found_or_not (resolved host client)
             (includes (map (fun p : value number => get_prop p "deviceId")
                            (flat_map (resolved host client) cleanDeviceIds)))).
    + apply resolved_at_most_one.
    + now apply includes_found.
Qed.

(** The same three entries through the service: one found, two not. *)
Lemma batch_summary_adds_up_witness :
  exists payload,
    outcome (GPSLastPositionService.getMultipleDevicesLastPositions ExampleHost.host
               (Redis.client Examples.mixed)
               (VArr [VStr "device-001"; VStr "device-002"; VStr " device-003 "])
               "gps")
      = Ok (Success payload) /\
    batch_data payload
      = [ VObj [("id", VStr "device-001"); ("lat", VNum "-12.045409");
                ("lng", VNum "-77.031494")] ] /\
    found (summary payload) = 1 /\
    found (summary payload) + notFound (summary payload) = 3.
Proof.
  destruct (@batch_summary_adds_up _ ExampleHost.host (Redis.client Examples.mixed)
              [VStr "device-001"; VStr "device-002"; VStr " device-003 "] "gps")
    as (_ & payload & Hrun & Hdata & Hrequested & Hfound & Hsum).
  - reflexivity.
  - discriminate.
  - simpl. lia.
  - repeat constructor.
  - exists payload. repeat split.
    + exact Hrun.
    + exact Hdata.
    + exact Hfound.
    + rewrite Hsum; [ exact Hrequested | ].
      intros id r [<- | [<- | [<- | []]]] Hin; vm_compute in Hin;
        [ destruct Hin as [<- | []]; reflexivity | destruct Hin | destruct Hin ].
Defined.

(** C2 as stated fails when a stored record names another identifier
    than the key it is stored under: the one requested device is counted
    both as found and as not found. *)
Lemma renamed_record_is_counted_twice :
  exists payload,
    outcome (GPSLastPositionService.getMultipleDevicesLastPositions ExampleHost.host
               (Redis.client Examples.renamed) (VArr [VStr "device-001"]) "full")
      = Ok (Success payload) /\
    summary payload
      = {| requested := 1; found := 1; notFound := 1;
           notFoundIds := ["device-001"] |} /\
    found (summary payload) + notFound (summary payload)
      <> requested (summary payload).
Proof.
  eexists. split; [ vm_compute; reflexivity | ].
  split; [ reflexivity | simpl; lia ].
Qed.

(** ** Single lookup and the identifier of the returned record *)

Section SingleLookup.
Context {number : Type} (host : Host number) (client : RedisClient).
Local Abbreviation val := (value number).

Lemma outcome_send {A : Type} (c : command) (reply : result A) :
  outcome (send c reply) = reply.
Proof. reflexivity. Qed.

(** A decoded payload becomes the returned record of the mobile
    repository, with [userId] filled in from the requested identifier
    when the payload has no truthy one. *)
Lemma mobile_lookup_of_payload (userId : string) (n : Z) (position : val) :
  connect_reply client = Ok tt ->
  exists_reply client (MobileLastPositionRepository.keyPrefix ++ userId)%string = Ok n ->
  n <> 0%Z ->
  outcome (MobileLastPositionRepository.getDataByType host client
             (MobileLastPositionRepository.keyPrefix ++ userId)%string userId)
    = Ok position ->
  truthy host position = true ->
  exists r,
    outcome (MobileLastPositionRepository.getLastPosition host client userId) = Ok r /\
    truthy host r = true /\
    get_prop r "userId" = js_or host (get_prop position "userId") (VStr userId).
Proof.
  intros Hconnect Hexists Hn Hdecode Htruthy.
  unfold MobileLastPositionRepository.getLastPosition.
  rewrite outcome_try_catch, outcome_bind, (mobile_connect_outcome client Hconnect).
  rewrite outcome_bind, outcome_send, Hexists.
  replace (n =? 0)%Z with false by (symmetry; now apply Z.eqb_neq).
  rewrite outcome_bind, Hdecode, Htruthy. cbn [negb].
  rewrite outcome_log_then. cbn [outcome ret fst].
  eexists. split; [ reflexivity | ]. split; [ reflexivity | ].
  rewrite get_prop_set_other by discriminate.
  apply get_prop_set_same.
Qed.

(** The same for the device repository, which copies the payload and
    only stamps [retrievedAt]. *)
Lemma device_lookup_of_payload (deviceId : string) (n : Z) (position : val) :
  connect_reply client = Ok tt ->
  exists_reply client (keyPrefix host ++ deviceId)%string = Ok n ->
  n <> 0%Z ->
  outcome (GPSLastPositionRepository.getDataByType host client
             (keyPrefix host ++ deviceId)%string deviceId)
    = Ok position ->
  truthy host position = true ->
  exists r,
    outcome (GPSLastPositionRepository.getLastPosition host client deviceId) = Ok r /\
    truthy host r = true /\
    get_prop r "deviceId" = get_prop (VObj (spread position)) "deviceId".
Proof.
  intros Hconnect Hexists Hn Hdecode Htruthy.
  unfold GPSLastPositionRepository.getLastPosition.
  rewrite outcome_try_catch, outcome_bind, (connect_outcome client Hconnect).
  rewrite outcome_bind, outcome_send, Hexists.
  replace (n =? 0)%Z with false by (symmetry; now apply Z.eqb_neq).
  rewrite outcome_bind, Hdecode, Htruthy. cbn [negb].
  rewrite outcome_log_then. cbn [outcome ret fst].
  eexists. split; [ reflexivity | ]. split; [ reflexivity | ].
  now apply get_prop_set_other.
Qed.

Ltac decode_hash Htype Hhash Hdecode Htruthy :=
  rewrite outcome_bind, outcome_send, Htype in Hdecode;
  simpl String.eqb in Hdecode; cbv iota in Hdecode;
  rewrite outcome_bind, outcome_send, Hhash in Hdecode;
  match type of Hdecode with
  | context [if ?b then _ else _] => destruct b
  end;
  [ injection Hdecode as <-; discriminate Htruthy
  | rewrite outcome_bind in Hdecode;
    match type of Hdecode with
    | context [match outcome ?m with Ok _ => _ | Throw _ => _ end] =>
        destruct (outcome m); [ | discriminate Hdecode ]
    end;
    injection Hdecode as <-; reflexivity ].

(** The identifier of a decoded field map of the device namespace: the
    field [deviceId] when it is there and not empty, otherwise the
    identifier from the key. *)
Lemma device_decode_hash (key deviceId : string) (fields : list (string * string))
    (position : val) :
  type_reply client key = Ok "hash" ->
  hgetall_reply client key = Ok (Some fields) ->
  outcome (GPSLastPositionRepository.getDataByType host client key deviceId)
    = Ok position ->
  truthy host position = true ->
  get_prop (VObj (spread position)) "deviceId"
    = VStr (field_or (assoc "deviceId" fields) deviceId).
Proof.
  intros Htype Hhash Hdecode Htruthy.
  unfold GPSLastPositionRepository.getDataByType in Hdecode.
  decode_hash Htype Hhash Hdecode Htruthy.
Qed.

(** In the mobile namespace: the field [userId], else the field
    [deviceId], else the identifier from the key. *)
Lemma mobile_decode_hash (key userId : string) (fields : list (string * string))
    (position : val) :
  type_reply client key = Ok "hash" ->
  hgetall_reply client key = Ok (Some fields) ->
  outcome (MobileLastPositionRepository.getDataByType host client key userId)
    = Ok position ->
  truthy host position = true ->
  get_prop position "userId"
    = VStr (field_or (assoc "userId" fields)
              (field_or (assoc "deviceId" fields) userId)).
Proof.
  intros Htype Hhash Hdecode Htruthy.
  unfold MobileLastPositionRepository.getDataByType in Hdecode.
  decode_hash Htype Hhash Hdecode Htruthy.
Qed.

End SingleLookup.

(** C1, as amended.  With Redis reachable and the key present:

    - in the mobile namespace, whatever the encoding, a payload that
      decodes to a truthy value is returned as a record whose [userId]
      is the payload's [userId] when that is truthy and the requested
      identifier otherwise; for a field map the payload's [userId] is
      the field [userId], else the field [deviceId], else the requested
      identifier;
    - in the device namespace, a field map is returned as a record
      whose [deviceId] is the field [deviceId] when it is there and not
      empty, and the requested identifier otherwise.

    So a payload without identifier comes back under the requested
    one, and a payload that names another identifier keeps it. *)
Theorem lookup_identifier {number : Type} (host : Host number)
    (client : RedisClient) (id : string) (n : Z) :
  connect_reply client = Ok tt ->
  n <> 0%Z ->
  (forall position,
     exists_reply client (MobileLastPositionRepository.keyPrefix ++ id)%string = Ok n ->
     outcome (MobileLastPositionRepository.getDataByType host client
                (MobileLastPositionRepository.keyPrefix ++ id)%string id)
       = Ok position ->
     truthy host position = true ->
     exists r,
       outcome (MobileLastPositionRepository.getLastPosition host client id) = Ok r /\
       truthy host r = true /\
       get_prop r "userId" = js_or host (get_prop position "userId") (VStr id) /\
       (forall fields,
          type_reply client (MobileLastPositionRepository.keyPrefix ++ id)%string
            = Ok "hash" ->
          hgetall_reply client (MobileLastPositionRepository.keyPrefix ++ id)%string
            = Ok (Some fields) ->
          get_prop position "userId"
            = VStr (field_or (assoc "userId" fields)
                      (field_or (assoc "deviceId" fields) id)))) /\
  (forall position fields,
     exists_reply client (keyPrefix host ++ id)%string = Ok n ->
     type_reply client (keyPrefix host ++ id)%string = Ok "hash" ->
     hgetall_reply client (keyPrefix host ++ id)%string = Ok (Some fields) ->
     outcome (GPSLastPositionRepository.getDataByType host client
                (keyPrefix host ++ id)%string id)
       = Ok position ->
     truthy host position = true ->
     exists r,
       outcome (GPSLastPositionRepository.getLastPosition host client id) = Ok r /\
       truthy host r = true /\
       get_prop r "deviceId" = VStr (field_or (assoc "deviceId" fields) id)).
Proof.
  intros Hconnect Hn. split.
  - intros position Hexists Hdecode Htruthy.
    destruct (mobile_lookup_of_payload host client id n position
                Hconnect Hexists Hn Hdecode Htruthy) as (r & Hrun & Hr & Hid).
    exists r. repeat split; try assumption.
    intros fields Htype Hhash.
    exact (mobile_decode_hash host client _ id fields position
             Htype Hhash Hdecode Htruthy).
  - intros position fields Hexists Htype Hhash Hdecode Htruthy.
    destruct (device_lookup_of_payload host client id n position
                Hconnect Hexists Hn Hdecode Htruthy) as (r & Hrun & Hr & Hid).
    exists r. repeat split; try assumption.
    rewrite Hid.
    exact (device_decode_hash host client _ id fields position
             Htype Hhash Hdecode Htruthy).
Qed.

(** A mobile payload in a list and a device field map, both without
    identifier, come back under the requested one. *)
Lemma lookup_identifier_witness :
  (exists r,
     outcome (MobileLastPositionRepository.getLastPosition ExampleHost.host
                (Redis.client Examples.anonymous) "user-003") = Ok r /\
     get_prop r "lat" = VNum "-12.06" /\
     get_prop r "userId" = VStr "user-003") /\
  (exists r,
     outcome (GPSLastPositionRepository.getLastPosition ExampleHost.host
                (Redis.client Examples.anonymous) "device-001") = Ok r /\
     get_prop r "deviceId" = VStr "device-001").
Proof.
  destruct (lookup_identifier ExampleHost.host (Redis.client Examples.anonymous)
              "user-003" 1%Z eq_refl) as [Hmobile _]; [ discriminate | ].
  destruct (lookup_identifier ExampleHost.host (Redis.client Examples.anonymous)
              "device-001" 1%Z eq_refl) as [_ Hdevice]; [ discriminate | ].
  split.
  - destruct (Hmobile
                (VObj [("lat", VNum "-12.06"); ("lng", VNum "-77.05")])
                eq_refl eq_refl eq_refl) as (r & Hrun & _ & Hid & _).
    exists r. repeat split; [ exact Hrun | | exact Hid ].
    vm_compute in Hrun. injection Hrun as <-. reflexivity.
  - destruct (Hdevice
                (VObj [("deviceId", VStr "device-001"); ("lat", VNum "-12.045409");
                       ("lng", VNum "-77.031494"); ("timestamp", VNull);
                       ("receivedAt", VNull); ("updatedAt", VNull);
                       ("metadata", VNull); ("name", VNull)])
                [("lat", "-12.045409"); ("lng", "-77.031494")]
                eq_refl eq_refl eq_refl eq_refl eq_refl) as (r & Hrun & _ & Hid).
    exists r. split; [ exact Hrun | exact Hid ].
Defined.

(** C1 as stated fails when the payload names another identifier: the
    field map stored for [device-001] with [deviceId] set to [tracker-9]
    is returned under [tracker-9], and the mobile payload stored for
    [user-001] with [userId] set to [user-999] is returned under
    [user-999]. *)
Lemma stored_identifier_wins :
  (exists r,
     outcome (GPSLastPositionRepository.getLastPosition ExampleHost.host
                (Redis.client Examples.renamed) "device-001") = Ok r /\
     get_prop r "deviceId" = VStr "tracker-9" /\
     get_prop r "deviceId" <> VStr "device-001") /\
  (exists r,
     outcome (MobileLastPositionRepository.getLastPosition ExampleHost.host
                (Redis.client Examples.renamed) "user-001") = Ok r /\
     get_prop r "userId" = VStr "user-999" /\
     get_prop r "userId" <> VStr "user-001").
Proof.
  split; eexists; (split; [ vm_compute; reflexivity | ]);
    (split; [ reflexivity | discriminate ]).
Qed.

(** * Further properties *)

(** ** Records returned by a lookup *)

(** X1.  A payload that decodes to an object comes back with its own
    fields, and with [retrievedAt] set to the time of the read, whether
    or not the payload had such a field.  The mobile repository sets
    [userId] as well and leaves the rest. *)
Theorem lookup_keeps_payload {number : Type} (host : Host number)
    (client : RedisClient) (id : string) (n : Z)
    (fields : list (string * value number)) :
  connect_reply client = Ok tt ->
  n <> 0%Z ->
  (exists_reply client (keyPrefix host ++ id)%string = Ok n ->
   outcome (GPSLastPositionRepository.getDataByType host client
              (keyPrefix host ++ id)%string id) = Ok (VObj fields) ->
   exists r,
     outcome (GPSLastPositionRepository.getLastPosition host client id) = Ok r /\
     get_prop r "retrievedAt" = VStr (now host) /\
     forall k, k <> "retrievedAt" -> get_prop r k = get_prop (VObj fields) k) /\
  (exists_reply client (MobileLastPositionRepository.keyPrefix ++ id)%string = Ok n ->
   outcome (MobileLastPositionRepository.getDataByType host client
              (MobileLastPositionRepository.keyPrefix ++ id)%string id)
     = Ok (VObj fields) ->
   exists r,
     outcome (MobileLastPositionRepository.getLastPosition host client id) = Ok r /\
     get_prop r "retrievedAt" = VStr (now host) /\
     forall k, k <> "retrievedAt" -> k <> "userId" ->
               get_prop r k = get_prop (VObj fields) k).
Proof.
  intros Hconnect Hn. split; intros Hexists Hdecode.
  - unfold GPSLastPositionRepository.getLastPosition.
    rewrite outcome_try_catch, outcome_bind, (connect_outcome client Hconnect).
    rewrite outcome_bind, outcome_send, Hexists.
    replace (n =? 0)%Z with false by (symmetry; now apply Z.eqb_neq).
    rewrite outcome_bind, Hdecode. cbn [truthy negb].
    rewrite outcome_log_then. cbn [outcome ret fst spread].
    eexists. split; [ reflexivity | ]. split.
    + apply get_prop_set_same.
    + intros k Hk. now apply get_prop_set_other.
  - unfold MobileLastPositionRepository.getLastPosition.
    rewrite outcome_try_catch, outcome_bind, (mobile_connect_outcome client Hconnect).
    rewrite outcome_bind, outcome_send, Hexists.
    replace (n =? 0)%Z with false by (symmetry; now apply Z.eqb_neq).
    rewrite outcome_bind, Hdecode. cbn [truthy negb].
    rewrite outcome_log_then. cbn [outcome ret fst spread].
    eexists. split; [ reflexivity | ]. split.
    + apply get_prop_set_same.
    + intros k Hk Hu. rewrite get_prop_set_other by exact Hk.
      now apply get_prop_set_other.
Qed.

(** A stored [retrievedAt] is replaced; the coordinates stay. *)
Lemma lookup_keeps_payload_witness :
  let db : Redis.database :=
    [ ("gps:last:device-001",
       Redis.String_ (ExampleHost.json
         "{'deviceId':'device-001','lat':-12.04,'retrievedAt':'yesterday'}")) ] in
  exists r,
    outcome (GPSLastPositionRepository.getLastPosition ExampleHost.host
               (Redis.client db) "device-001") = Ok r /\
    get_prop r "retrievedAt" = VStr "2025-07-29T10:30:00.000Z" /\
    get_prop r "lat" = VNum "-12.04".
Proof.
  intros db.
  destruct (lookup_keeps_payload ExampleHost.host (Redis.client db) "device-001" 1%Z
              [("deviceId", VStr "device-001"); ("lat", VNum "-12.04");
               ("retrievedAt", VStr "yesterday")] eq_refl)
    as [Hdevice _]; [ discriminate | ].
  destruct (Hdevice eq_refl eq_refl) as (r & Hrun & Hstamp & Hkeep).
  exists r. repeat split; [ exact Hrun | exact Hstamp | ].
  rewrite Hkeep by discriminate. reflexivity.
Defined.

(** ** Keys that are absent, empty or corrupt *)

(** X2.  When EXISTS answers 0, a lookup returns null after exactly two
    commands (connect and EXISTS): the type and the content of the key
    are never read.  Next to what [connect()] logs about the connection,
    the repository logs one debug line.  The single lookup of the
    service then answers [POSITION_NOT_FOUND] with the identifier as it
    was trimmed. *)
Theorem absent_key_is_not_read {number : Type} (host : Host number)
    (client : RedisClient) (deviceId format : string) :
  let cleanDeviceId := JSString.trim deviceId in
  let key := (keyPrefix host ++ cleanDeviceId)%string in
  cleanDeviceId <> "" ->
  connect_reply client = Ok tt ->
  exists_reply client key = Ok 0%Z ->
  GPSLastPositionRepository.getLastPosition host client cleanDeviceId
    = (Ok VNull,
       Redis CConnect :: connect_lines client ++
       [Redis (CExists key); Logged LDebug cleanDeviceId]) /\
  GPSLastPositionService.getDeviceLastPosition host client (VStr deviceId) format
    = (Ok (Failure "POSITION_NOT_FOUND" (ForEntity cleanDeviceId)),
       Logged LInfo cleanDeviceId :: Redis CConnect :: connect_lines client ++
       [Redis (CExists key); Logged LDebug cleanDeviceId]) /\
  storage_accesses
    (trace (GPSLastPositionService.getDeviceLastPosition host client
              (VStr deviceId) format))
    = [Redis CConnect; Redis (CExists key)].
Proof.
  intros cleanDeviceId key Hclean Hconnect Hexists.
  assert (Hrepo :
    GPSLastPositionRepository.getLastPosition host client cleanDeviceId
    = (Ok VNull,
       Redis CConnect :: connect_lines client ++
       [Redis (CExists key); Logged LDebug cleanDeviceId])).
  { unfold GPSLastPositionRepository.getLastPosition.
    rewrite (connect_accepted client Hconnect). unfold send.
    fold key. rewrite Hexists. reflexivity. }
  assert (Hservice :
    GPSLastPositionService.getDeviceLastPosition host client (VStr deviceId) format
    = (Ok (Failure "POSITION_NOT_FOUND" (ForEntity cleanDeviceId)),
       Logged LInfo cleanDeviceId :: Redis CConnect :: connect_lines client ++
       [Redis (CExists key); Logged LDebug cleanDeviceId])).
  { unfold GPSLastPositionService.getDeviceLastPosition.
    rewrite is_blank_string.
    replace (JSString.trim deviceId =? "") with false
      by (symmetry; now apply String.eqb_neq).
    unfold GPSLastPositionService.repository_getLastPosition.
    cbn [GPSLastPositionService.clean]. fold cleanDeviceId.
    rewrite Hrepo. unfold log, ret. cbn [try_catch bind truthy negb app].
    now rewrite app_nil_r. }
  split; [ exact Hrepo | ]. split; [ exact Hservice | ].
  rewrite Hservice. cbn [trace snd storage_accesses filter is_storage].
  fold (storage_accesses
          (connect_lines client ++ [Redis (CExists key); Logged LDebug cleanDeviceId])).
  rewrite storage_accesses_app, storage_accesses_connect_lines. reflexivity.
Qed.

(** A device that was never written, asked for in the first call of a
    repository, which opens the connection. *)
Lemma absent_key_is_not_read_witness :
  GPSLastPositionService.getDeviceLastPosition ExampleHost.host
    (Examples.fresh Examples.five_devices) (VStr " device-009") "gps"
  = (Ok (Failure "POSITION_NOT_FOUND" (ForEntity "device-009")),
     [ Logged LInfo "device-009"; Redis CConnect; Logged LInfo "connected";
       Redis (CExists "gps:last:device-009"); Logged LDebug "device-009" ]).
Proof.
  apply (@absent_key_is_not_read _ ExampleHost.host
           (Examples.fresh Examples.five_devices) " device-009" "gps").
  - discriminate.
  - reflexivity.
  - reflexivity.
Defined.

(** X3.  A key that exists but holds nothing (an empty string, a field
    map without fields, an empty list, an empty sorted set) is looked
    up as null, in both namespaces: it is treated as not there, not as
    an empty record and not as an error. *)
Theorem empty_entry_is_null {number : Type} (host : Host number)
    (db : Redis.database) (id : string) (e : Redis.entry) :
  is_empty e = true ->
  (assoc (keyPrefix host ++ id)%string db = Some e ->
   outcome (GPSLastPositionRepository.getLastPosition host (Redis.client db) id)
     = Ok VNull) /\
  (assoc (MobileLastPositionRepository.keyPrefix ++ id)%string db = Some e ->
   outcome (MobileLastPositionRepository.getLastPosition host (Redis.client db) id)
     = Ok VNull).
Proof.
  intros Hempty. split; intros Hstored.
  - unfold GPSLastPositionRepository.getLastPosition,
      GPSLastPositionRepository.getDataByType,
      GPSLastPositionRepository.connect, send.
    cbn [Redis.client connect_reply exists_reply type_reply get_reply
         hgetall_reply lindex_reply zrevrange_reply].
    rewrite Hstored.
    destruct e as [text | fields | items | ranked | typeName]; simpl in Hempty;
      try discriminate.
    + apply String.eqb_eq in Hempty. subst text. reflexivity.
    + destruct fields; [ reflexivity | discriminate ].
    + destruct items; [ reflexivity | discriminate ].
    + destruct ranked; [ reflexivity | discriminate ].
  - unfold MobileLastPositionRepository.getLastPosition,
      MobileLastPositionRepository.getDataByType,
      MobileLastPositionRepository.connect, send.
    cbn [Redis.client connect_reply exists_reply type_reply get_reply
         hgetall_reply lindex_reply zrevrange_reply].
    rewrite Hstored.
    destruct e as [text | fields | items | ranked | typeName]; simpl in Hempty;
      try discriminate.
    + apply String.eqb_eq in Hempty. subst text. reflexivity.
    + destruct fields; [ reflexivity | discriminate ].
    + destruct items; [ reflexivity | discriminate ].
    + destruct ranked; [ reflexivity | discriminate ].
Qed.

(** An empty list under the key of a device. *)
Lemma empty_entry_is_null_witness :
  outcome (GPSLastPositionRepository.getLastPosition ExampleHost.host
             (Redis.client [("gps:last:device-001", Redis.List_ [])]) "device-001")
  = Ok VNull.
Proof.
  apply (proj1 (empty_entry_is_null ExampleHost.host
                  [("gps:last:device-001", Redis.List_ [])] "device-001"
                  (Redis.List_ []) eq_refl)).
  reflexivity.
Defined.

(** X4.  A serialized payload that does not parse makes the repository
    lookup throw the [SyntaxError] of [JSON.parse], after logging a
    line for the identifier.  The single lookup of the service logs a
    line for the identifier as it was passed and answers
    [INTERNAL_ERROR], not [POSITION_NOT_FOUND], with the message of the
    error as its details; in a batch the same identifier contributes no
    record. *)
Theorem corrupt_payload_is_an_error {number : Type} (host : Host number)
    (client : RedisClient) (deviceId format text : string) (n : Z) :
  let cleanDeviceId := JSString.trim deviceId in
  let key := (keyPrefix host ++ cleanDeviceId)%string in
  cleanDeviceId <> "" ->
  connect_reply client = Ok tt ->
  exists_reply client key = Ok n -> n <> 0%Z ->
  type_reply client key = Ok "string" ->
  get_reply client key = Ok (Some text) ->
  text <> "" ->
  JSON_parse host text = None ->
  GPSLastPositionRepository.getLastPosition host client cleanDeviceId
    = (Throw (SyntaxError (JSON_error host text)),
       Redis CConnect :: connect_lines client ++
       [ Redis (CExists key); Redis (CType key); Redis (CGet key);
         Logged LError cleanDeviceId ]) /\
  GPSLastPositionService.getDeviceLastPosition host client (VStr deviceId) format
    = (Ok (Failure "INTERNAL_ERROR" (Details (JSON_error host text))),
       Logged LInfo cleanDeviceId :: Redis CConnect :: connect_lines client ++
       [ Redis (CExists key); Redis (CType key); Redis (CGet key);
         Logged LError cleanDeviceId; Logged LError deviceId ]) /\
  resolved host client cleanDeviceId = [].
Proof.
  intros cleanDeviceId key Hclean Hconnect Hexists Hn Htype Hget Htext Hparse.
  assert (Hrepo :
    GPSLastPositionRepository.getLastPosition host client cleanDeviceId
    = (Throw (SyntaxError (JSON_error host text)),
       Redis CConnect :: connect_lines client ++
       [ Redis (CExists key); Redis (CType key); Redis (CGet key);
         Logged LError cleanDeviceId ])).
  { unfold GPSLastPositionRepository.getLastPosition,
      GPSLastPositionRepository.getDataByType, parse.
    rewrite (connect_accepted client Hconnect). unfold send.
    fold key. rewrite Hexists.
    cbn [try_catch bind ret app].
    replace (n =? 0)%Z with false by (symmetry; now apply Z.eqb_neq).
    rewrite Htype. cbn [bind String.eqb Ascii.eqb Bool.eqb].
    rewrite Hget. cbn [bind].
    replace (text =? "") with false by (symmetry; now apply String.eqb_neq).
    rewrite Hparse. unfold throw, log. cbn [try_catch bind app].
    now rewrite <- app_assoc. }
  split; [ exact Hrepo | ]. split.
  - unfold GPSLastPositionService.getDeviceLastPosition.
    rewrite is_blank_string.
    replace (JSString.trim deviceId =? "") with false
      by (symmetry; now apply String.eqb_neq).
    unfold GPSLastPositionService.repository_getLastPosition.
    cbn [GPSLastPositionService.clean GPSLastPositionService.as_passed].
    fold cleanDeviceId.
    rewrite Hrepo. unfold log, ret. cbn [try_catch bind message app].
    now rewrite <- app_assoc.
  - unfold resolved. now rewrite Hrepo.
Qed.

(** The corrupt payload of the examples, asked for with a blank before
    the identifier in the first call of a repository. *)
Lemma corrupt_payload_is_an_error_witness :
  GPSLastPositionService.getDeviceLastPosition ExampleHost.host
    (Examples.fresh Examples.mixed) (VStr " device-002") "full"
    = (Ok (Failure "INTERNAL_ERROR" (Details "Unexpected token in JSON")),
       [ Logged LInfo "device-002"; Redis CConnect; Logged LInfo "connected";
         Redis (CExists "gps:last:device-002"); Redis (CType "gps:last:device-002");
         Redis (CGet "gps:last:device-002");
         Logged LError "device-002"; Logged LError " device-002" ]) /\
  resolved ExampleHost.host (Examples.fresh Examples.mixed) "device-002" = [].
Proof.
  destruct (@corrupt_payload_is_an_error _ ExampleHost.host
              (Examples.fresh Examples.mixed) " device-002" "full" "{lat:" 1%Z)
    as (_ & Hservice & Hbatch).
  - discriminate.
  - reflexivity.
  - reflexivity.
  - discriminate.
  - reflexivity.
  - reflexivity.
  - discriminate.
  - reflexivity.
  - split; [ exact Hservice | exact Hbatch ].
Defined.

(** ** Errors inside the services *)

Section Answers.
Context {number : Type} (host : Host number) (client : RedisClient).
Local Abbreviation val := (value number).

(** A handler that logs and answers turns every throw into an answer. *)
Lemma caught_answers {A : Type} (body : M A) (subject : error -> string)
    (answer : error -> A) :
  exists a,
    outcome (try_catch body (fun error => log LError (subject error) ;; ret (answer error)))
    = Ok a.
Proof.
  rewrite outcome_try_catch.
  destruct (outcome body) as [a | e].
  - now exists a.
  - cbv beta. rewrite outcome_log_then. eexists. reflexivity.
Qed.

Lemma connect_refused (e : error) :
  connect_reply client = Throw e ->
  GPSLastPositionRepository.connect client
  = (Throw e, [Redis CConnect; Logged LError (message e)]).
Proof.
  intros H. unfold GPSLastPositionRepository.connect, send. now rewrite H.
Qed.

End Answers.

(** X5.  No operation of the two services throws: whatever Redis
    replies and whatever is passed in, the single lookup, the batch
    lookup and the listings end with an answer. *)
Theorem services_always_answer {number : Type} (host : Host number)
    (client : RedisClient) (input : value number) (format : string)
    (opts : options) :
  (exists answer,
     outcome (GPSLastPositionService.getDeviceLastPosition host client input format)
     = Ok answer) /\
  (exists answer,
     outcome (GPSLastPositionService.getMultipleDevicesLastPositions host client
                input format) = Ok answer) /\
  (exists answer,
     outcome (GPSLastPositionService.getAllLastPositions host client opts) = Ok answer) /\
  (exists answer,
     outcome (MobileLastPositionService.getUserLastPosition host client input)
     = Ok answer) /\
  (exists answer,
     outcome (MobileLastPositionService.getMultipleUsersLastPositions host client input)
     = Ok answer) /\
  (exists answer,
     outcome (MobileLastPositionService.getAllLastPositions host client opts)
     = Ok answer).
Proof.
  repeat split;
    [ unfold GPSLastPositionService.getDeviceLastPosition
    | unfold GPSLastPositionService.getMultipleDevicesLastPositions
    | unfold GPSLastPositionService.getAllLastPositions
    | unfold MobileLastPositionService.getUserLastPosition
    | unfold MobileLastPositionService.getMultipleUsersLastPositions
    | unfold MobileLastPositionService.getAllLastPositions ];
    first
      [ apply (caught_answers _ message
                 (fun error => Failure "INTERNAL_ERROR" (Details (message error))))
      | apply (caught_answers _ (fun _ => GPSLastPositionService.as_passed input)
                 (fun error => Failure "INTERNAL_ERROR" (Details (message error)))) ].
Qed.

(** X6.  When no connection to Redis can be had, the single lookup, the
    batch lookup and the listing of the device service answer
    [INTERNAL_ERROR] with the text of the connection error, and the
    only command they sent is the attempt to connect. *)
Theorem unreachable_store {number : Type} (host : Host number)
    (client : RedisClient) (e : error) (deviceId format : string)
    (ids : list (value number)) (opts : options) :
  connect_reply client = Throw e ->
  JSString.trim deviceId <> "" ->
  ids <> [] -> List.length ids <= 100 ->
  Forall (fun id => GPSLastPositionService.is_blank host id = false) ids ->
  let refused {A : Type} (m : M (response number A)) :=
    outcome m = Ok (Failure "INTERNAL_ERROR" (Details (message e))) /\
    storage_accesses (trace m) = [Redis CConnect] in
  refused (GPSLastPositionService.getDeviceLastPosition host client (VStr deviceId) format) /\
  refused (GPSLastPositionService.getMultipleDevicesLastPositions host client
             (VArr ids) format) /\
  refused (GPSLastPositionService.getAllLastPositions host client opts).
Proof.
  intros Hconnect Hclean Hnonempty Hsize Hvalid refused.
  pose proof (connect_refused client e Hconnect) as Hrefused.
  unfold refused. repeat split.
  - unfold GPSLastPositionService.getDeviceLastPosition,
      GPSLastPositionService.repository_getLastPosition,
      GPSLastPositionRepository.getLastPosition.
    rewrite is_blank_string.
    replace (JSString.trim deviceId =? "") with false
      by (symmetry; now apply String.eqb_neq).
    rewrite Hrefused. reflexivity.
  - unfold GPSLastPositionService.getDeviceLastPosition,
      GPSLastPositionService.repository_getLastPosition,
      GPSLastPositionRepository.getLastPosition.
    rewrite is_blank_string.
    replace (JSString.trim deviceId =? "") with false
      by (symmetry; now apply String.eqb_neq).
    rewrite Hrefused. reflexivity.
  - unfold GPSLastPositionService.getMultipleDevicesLastPositions.
    replace (List.length ids =? 0)%nat with false
      by (symmetry; apply Nat.eqb_neq; destruct ids; [ congruence | discriminate ]).
    rewrite (validate_all_valid host _ Hvalid).
    change (0 <? List.length (@nil (value number)))%nat with false.
    replace (GPSLastPositionService.maxDevices
               <? List.length (map GPSLastPositionService.clean ids))%nat
      with false
      by (symmetry; apply Nat.ltb_ge; rewrite length_map; exact Hsize).
    cbv beta iota.
    unfold GPSLastPositionService.repository_getMultipleLastPositions,
      GPSLastPositionRepository.getMultipleLastPositions.
    rewrite Hrefused. reflexivity.
  - unfold GPSLastPositionService.getMultipleDevicesLastPositions.
    replace (List.length ids =? 0)%nat with false
      by (symmetry; apply Nat.eqb_neq; destruct ids; [ congruence | discriminate ]).
    rewrite (validate_all_valid host _ Hvalid).
    change (0 <? List.length (@nil (value number)))%nat with false.
    replace (GPSLastPositionService.maxDevices
               <? List.length (map GPSLastPositionService.clean ids))%nat
      with false
      by (symmetry; apply Nat.ltb_ge; rewrite length_map; exact Hsize).
    cbv beta iota.
    unfold GPSLastPositionService.repository_getMultipleLastPositions,
      GPSLastPositionRepository.getMultipleLastPositions.
    rewrite Hrefused. reflexivity.
  - unfold GPSLastPositionService.getAllLastPositions,
      GPSLastPositionService.repository_getAllLastPositions,
      GPSLastPositionRepository.getAllLastPositions.
    rewrite Hrefused. reflexivity.
  - unfold GPSLastPositionService.getAllLastPositions,
      GPSLastPositionService.repository_getAllLastPositions,
      GPSLastPositionRepository.getAllLastPositions.
    rewrite Hrefused. reflexivity.
Qed.

(** The five devices behind a connection that is refused. *)
Lemma unreachable_store_witness :
  outcome (GPSLastPositionService.getDeviceLastPosition ExampleHost.host
             (Examples.unreachable Examples.five_devices) (VStr "device-001") "full")
    = Ok (Failure "INTERNAL_ERROR"
            (Details "connect ECONNREFUSED 127.0.0.1:6379")) /\
  storage_accesses
    (trace (GPSLastPositionService.getAllLastPositions ExampleHost.host
              (Examples.unreachable Examples.five_devices)
              {| opt_limit := None; opt_offset := None |}))
    = [Redis CConnect].
Proof.
  destruct (@unreachable_store _ ExampleHost.host
              (Examples.unreachable Examples.five_devices)
              (ReplyError "connect ECONNREFUSED 127.0.0.1:6379")
              "device-001" "full" [VStr "device-001"]
              {| opt_limit := None; opt_offset := None |})
    as ((Hsingle & _) & _ & (_ & Hlisting)).
  - reflexivity.
  - discriminate.
  - discriminate.
  - simpl. lia.
  - repeat constructor.
  - split; [ exact Hsingle | exact Hlisting ].
Defined.

(** ** Whitespace around identifiers *)

Section Trimming.






End Trimming.




(** ** What the middleware lets through *)

Section Accepted.
Context {number : Type} (host : Host number).
Local Abbreviation val := (value number).

Lemma in_class_is_no_space (c : ascii) :
  validationMiddleware.in_class c = true -> JSString.is_white_space c = false.
Proof.
  destruct c as [[] [] [] [] [] [] [] []]; vm_compute; intros H;
    first [ discriminate H | reflexivity ].
Qed.

Lemma every_in_class_trimStart (s : string) :
  JSString.every validationMiddleware.in_class s = true -> JSString.trimStart s = s.
Proof.
  destruct s as [ | c rest ]; simpl; [ reflexivity | ].
  intros H. apply andb_true_iff in H. destruct H as [Hc _].
  now rewrite (in_class_is_no_space c Hc).
Qed.

Lemma every_in_class_trimEnd (s : string) :
  JSString.every validationMiddleware.in_class s = true -> JSString.trimEnd s = s.
Proof.
  induction s as [ | c rest IH ]; simpl; [ reflexivity | ].
  intros H. apply andb_true_iff in H. destruct H as [Hc Hrest].
  rewrite (IH Hrest).
  destruct rest; [ now rewrite (in_class_is_no_space c Hc) | reflexivity ].
Qed.

Lemma every_in_class_trim (s : string) :
  JSString.every validationMiddleware.in_class s = true -> JSString.trim s = s.
Proof.
  intros H. unfold JSString.trim.
  rewrite (every_in_class_trimStart s H). now apply every_in_class_trimEnd.
Qed.

Lemma well_formed_checks (s : string) :
  well_formed s ->
  truthy host (VStr s) = true /\ (JSString.trim s =? "") = false /\
  (100 <? String.length s)%nat = false /\
  validationMiddleware.validPattern_test s = true.
Proof.
  intros (Hne & Hlen & Hclass).
  assert (Hs : (s =? "") = false) by now apply String.eqb_neq.
  repeat split.
  - simpl. now rewrite Hs.
  - now rewrite (every_in_class_trim s Hclass).
  - apply Nat.ltb_ge. exact Hlen.
  - unfold validationMiddleware.validPattern_test. now rewrite Hs, Hclass.
Qed.

Lemma checks_well_formed (s : string) :
  (100 <? String.length s)%nat = false ->
  validationMiddleware.validPattern_test s = true ->
  well_formed s.
Proof.
  intros Hlen Hpattern.
  unfold validationMiddleware.validPattern_test in Hpattern.
  apply andb_true_iff in Hpattern. destruct Hpattern as [Hne Hclass].
  repeat split.
  - apply String.eqb_neq. now apply negb_true_iff.
  - now apply Nat.ltb_ge.
  - exact Hclass.
Qed.

End Accepted.

(** X8.  The identifier checks of the device routes and of the mobile
    routes let through exactly the strings of one to a hundred
    characters of the class [[A-Za-z0-9._-]], and nothing that is not a
    string.  Such an identifier has no whitespace to trim, so the
    service looks it up as it was sent. *)
Theorem accepted_identifiers {number : Type} (host : Host number)
    (deviceId : value number) :
  (validationMiddleware.validateDeviceIdMiddleware host deviceId
     = validationMiddleware.next <->
   exists s, deviceId = VStr s /\ well_formed s) /\
  (validationMiddleware.validateUserIdMiddleware host deviceId
     = validationMiddleware.next <->
   exists s, deviceId = VStr s /\ well_formed s) /\
  (forall s, deviceId = VStr s -> well_formed s ->
   GPSLastPositionService.is_blank host deviceId = false /\
   GPSLastPositionService.clean deviceId = s).
Proof.
  split; [ | split ].
  - split.
    + unfold validationMiddleware.validateDeviceIdMiddleware.
      destruct (truthy host deviceId); cbn [negb]; [ | discriminate ].
      destruct deviceId as [ | | b | n | s | items | fields ]; try discriminate.
      destruct (JSString.trim s =? ""); [ discriminate | ].
      destruct (100 <? String.length s)%nat eqn:Hlen; [ discriminate | ].
      destruct (validationMiddleware.validPattern_test s) eqn:Hpattern;
        [ | discriminate ].
      intros _. exists s. split; [ reflexivity | now apply checks_well_formed ].
    + intros (s & -> & Hwf).
      destruct (well_formed_checks host s Hwf) as (Ht & Htrim & Hlen & Hpattern).
      unfold validationMiddleware.validateDeviceIdMiddleware.
      now rewrite Ht, Htrim, Hlen, Hpattern.
  - split.
    + unfold validationMiddleware.validateUserIdMiddleware.
      destruct (truthy host deviceId); cbn [negb]; [ | discriminate ].
      destruct deviceId as [ | | b | n | s | items | fields ]; try discriminate.
      destruct (JSString.trim s =? ""); [ discriminate | ].
      destruct (100 <? String.length s)%nat eqn:Hlen; [ discriminate | ].
      destruct (validationMiddleware.validPattern_test s) eqn:Hpattern;
        [ | discriminate ].
      intros _. exists s. split; [ reflexivity | now apply checks_well_formed ].
    + intros (s & -> & Hwf).
      destruct (well_formed_checks host s Hwf) as (Ht & Htrim & Hlen & Hpattern).
      unfold validationMiddleware.validateUserIdMiddleware.
      now rewrite Ht, Htrim, Hlen, Hpattern.
  - intros s -> Hwf.
    destruct (well_formed_checks host s Hwf) as (_ & Htrim & _ & _).
    destruct Hwf as (_ & _ & Hclass).
    split.
    + rewrite is_blank_string. exact Htrim.
    + simpl. now apply every_in_class_trim.
Qed.

(** An identifier of the test data, and one with a space. *)
Lemma accepted_identifiers_witness :
  validationMiddleware.validateDeviceIdMiddleware ExampleHost.host (VStr "device-001")
    = validationMiddleware.next /\
  GPSLastPositionService.clean (VStr "device-001" : value ExampleHost.numeral)
    = "device-001" /\
  ~ well_formed "device 001".
Proof.
  destruct (accepted_identifiers ExampleHost.host (VStr "device-001"))
    as (Hdevice & _ & Hverbatim).
  assert (Hwf : well_formed "device-001").
  { repeat split; [ discriminate | simpl; lia ]. }
  split; [ | split ].
  - apply Hdevice. exists "device-001". now split.
  - now apply (Hverbatim "device-001" eq_refl Hwf).
  - destruct (accepted_identifiers ExampleHost.host (VStr "device 001"))
      as (Hspace & _ & _).
    intros Hbad.
    assert (Hnext :
      validationMiddleware.validateDeviceIdMiddleware ExampleHost.host
        (VStr "device 001") = validationMiddleware.next)
      by (apply Hspace; exists "device 001"; now split).
    discriminate Hnext.
Defined.

(** ** A batch that passed the request check *)

Section AcceptedBatch.
Context {number : Type} (host : Host number).
Local Abbreviation val := (value number).

Lemma check_entries_grows (ids : list val) :
  forall i invalid,
    validationMiddleware.check_entries host i ids invalid = [] ->
    invalid = [] /\
    Forall (fun id => exists s, id = VStr s /\ well_formed s) ids.
Proof.
  induction ids as [ | id rest IH ]; intros i invalid Hnone; simpl in Hnone.
  - now split.
  - apply IH in Hnone. destruct Hnone as [Hkept Hrest].
    destruct id as [ | | b | n | s | items | fields ];
      try (now apply app_eq_nil in Hkept; destruct Hkept as [_ Hkept]).
    destruct (negb (truthy host (VStr s)) || (JSString.trim s =? ""))%bool;
      [ now apply app_eq_nil in Hkept; destruct Hkept as [_ Hkept] | ].
    destruct (100 <? String.length s)%nat eqn:Hlen;
      [ now apply app_eq_nil in Hkept; destruct Hkept as [_ Hkept] | ].
    destruct (validationMiddleware.validPattern_test s) eqn:Hpattern;
      cbn [negb] in Hkept;
      [ | now apply app_eq_nil in Hkept; destruct Hkept as [_ Hkept] ].
    split; [ exact Hkept | ].
    constructor; [ | exact Hrest ].
    exists s. split; [ reflexivity | now apply checks_well_formed ].
Qed.

Lemma well_formed_entries (ids : list val) :
  Forall (fun id => exists s, id = VStr s /\ well_formed s) ids ->
  exists names,
    ids = map VStr names /\ Forall well_formed names /\
    map GPSLastPositionService.clean ids = names /\
    Forall (fun id => GPSLastPositionService.is_blank host id = false) ids.
Proof.
  induction 1 as [ | id rest (s & -> & Hwf) _ (names & -> & Hnames & Hclean & Hvalid) ].
  - exists []. repeat split; constructor.
  - exists (s :: names).
    destruct (well_formed_checks host s Hwf) as (_ & Htrim & _ & _).
    assert (Hs : JSString.trim s = s) by (apply every_in_class_trim, Hwf).
    repeat split.
    + now constructor.
    + simpl. now rewrite Hs, Hclean.
    + constructor; [ | exact Hvalid ]. now rewrite is_blank_string.
Qed.

End AcceptedBatch.

(** X9.  A batch that the request check of the device routes lets
    through is an array of one to a hundred well-formed identifiers, and
    the validation of the batch lookup then refuses none of them and
    changes none of them: the identifiers queried are the ones sent. *)
Theorem accepted_batch_is_queried_as_sent {number : Type} (host : Host number)
    (ids : list (value number)) :
  validationMiddleware.validateMultipleDevicesMiddleware host (VArr ids)
    = validationMiddleware.batch_next ->
  exists names,
    ids = map VStr names /\
    Forall well_formed names /\
    1 <= List.length names <= 100 /\
    GPSLastPositionService.validate host ids [] [] = (names, []).
Proof.
  unfold validationMiddleware.validateMultipleDevicesMiddleware. cbn [truthy negb].
  destruct (List.length ids =? 0)%nat eqn:Hzero; [ discriminate | ].
  destruct (100 <? List.length ids)%nat eqn:Hmany; [ discriminate | ].
  destruct (validationMiddleware.check_entries host 0 ids []) as [ | bad others ] eqn:Hcheck;
    [ | discriminate ].
  intros _.
  destruct (check_entries_grows host ids 0 [] Hcheck) as [_ Hentries].
  destruct (well_formed_entries host ids Hentries)
    as (names & Hids & Hnames & Hclean & Hvalid).
  exists names. repeat split; try assumption.
  - apply Nat.eqb_neq in Hzero. subst ids. rewrite length_map in Hzero. lia.
  - apply Nat.ltb_ge in Hmany. subst ids. now rewrite length_map in Hmany.
  - rewrite (validate_all_valid host ids Hvalid). now rewrite Hclean.
Qed.

(** Two identifiers of the test data. *)
Lemma accepted_batch_is_queried_as_sent_witness :
  GPSLastPositionService.validate ExampleHost.host
    [VStr "device-001"; VStr "device-002"] [] []
  = (["device-001"; "device-002"], []).
Proof.
  destruct (accepted_batch_is_queried_as_sent ExampleHost.host
              [VStr "device-001"; VStr "device-002"] eq_refl)
    as (names & Hids & _ & _ & Hvalidate).
  destruct names as [ | first [ | second [ | third more ] ] ];
    simpl in Hids; try discriminate Hids.
  injection Hids as <- <-. exact Hvalidate.
Defined.

(** ** Pages of a listing *)

Section Pages.
Context {number : Type} (host : Host number) (client : RedisClient).
Local Abbreviation val := (value number).

Lemma firstn_add_split {A : Type} (a b : nat) (l : list A) :
  firstn (a + b) l = firstn a l ++ firstn b (skipn a l).
Proof.
  revert l. induction a as [ | a IH ]; intros l; simpl; [ reflexivity | ].
  destruct l as [ | x l ]; simpl.
  - now rewrite firstn_nil.
  - now rewrite IH.
Qed.

(** The answer of the device listing for a positive limit [l] and an
    offset [o] that is not negative. *)
Lemma listing_page_shape (allPositions : list val) (o l : nat) :
  outcome (GPSLastPositionRepository.getAllLastPositions host client)
    = Ok allPositions ->
  0 < l ->
  outcome (GPSLastPositionService.getAllLastPositions host client
             {| opt_limit := Some (Z.of_nat l); opt_offset := Some (Z.of_nat o) |})
  = Ok (Success
      {| listing_data := firstn l (skipn o (gps_views host allPositions));
         listing_summary_of :=
           {| total := List.length allPositions;
              returned := List.length (firstn l (skipn o (gps_views host allPositions)));
              offset := Z.of_nat o;
              limit := Some (Z.of_nat l);
              format := "gps" |};
         listing_timestamp := now host |}).
Proof.
  intros Hscan Hl.
  unfold GPSLastPositionService.getAllLastPositions,
    GPSLastPositionService.repository_getAllLastPositions.
  step_outcome. rewrite Hscan. cbn [opt_limit opt_offset].
  replace (Z.of_nat l =? 0)%Z with false by (symmetry; apply Z.eqb_neq; lia).
  replace (0 <? Z.of_nat l)%Z with true by (symmetry; apply Z.ltb_lt; lia).
  cbn [negb andb outcome fst ret].
  rewrite Z.max_r by lia.
  rewrite slice_firstn_skipn, length_map. reflexivity.
Qed.

End Pages.

(** X10.  With a positive limit [l] and an offset [o], the device
    listing returns [min l (total - o)] records: never more than the
    limit, fewer on the last page, none when the offset is at or past
    the end; [total] counts every scanned record whatever the page. *)
Theorem page_size {number : Type} (host : Host number) (client : RedisClient)
    (allPositions : list (value number)) (o l : nat) :
  outcome (GPSLastPositionRepository.getAllLastPositions host client)
    = Ok allPositions ->
  0 < l ->
  exists page,
    outcome (GPSLastPositionService.getAllLastPositions host client
               {| opt_limit := Some (Z.of_nat l); opt_offset := Some (Z.of_nat o) |})
      = Ok (Success page) /\
    total (listing_summary_of page) = List.length allPositions /\
    returned (listing_summary_of page) = List.length (listing_data page) /\
    returned (listing_summary_of page) = Nat.min l (List.length allPositions - o) /\
    returned (listing_summary_of page) <= l /\
    (List.length allPositions <= o -> listing_data page = []).
Proof.
  intros Hscan Hl. eexists. split.
  - apply (listing_page_shape host client allPositions o l Hscan Hl).
  - cbn [listing_summary_of listing_data total returned].
    assert (Hlen :
      List.length (firstn l (skipn o (gps_views host allPositions)))
      = Nat.min l (List.length allPositions - o))
      by (rewrite length_firstn, length_skipn; unfold gps_views;
          now rewrite length_map).
    repeat split.
    + exact Hlen.
    + rewrite Hlen. lia.
    + intros Hpast. rewrite skipn_all2; [ apply firstn_nil | ].
      unfold gps_views. now rewrite length_map.
Qed.

(** The last page of the five devices, and a page past the end. *)
Lemma page_size_witness :
  (exists page,
     outcome (GPSLastPositionService.getAllLastPositions ExampleHost.host
                (Redis.client Examples.five_devices)
                {| opt_limit := Some 2%Z; opt_offset := Some 4%Z |})
       = Ok (Success page) /\
     returned (listing_summary_of page) = 1) /\
  (exists page,
     outcome (GPSLastPositionService.getAllLastPositions ExampleHost.host
                (Redis.client Examples.five_devices)
                {| opt_limit := Some 2%Z; opt_offset := Some 7%Z |})
       = Ok (Success page) /\
     listing_data page = []).
Proof.
  assert (Hscan : exists allPositions,
    outcome (GPSLastPositionRepository.getAllLastPositions ExampleHost.host
               (Redis.client Examples.five_devices)) = Ok allPositions /\
    List.length allPositions = 5)
    by (eexists; split; vm_compute; reflexivity).
  destruct Hscan as (allPositions & Hscan & Hfive).
  split.
  - destruct (page_size ExampleHost.host (Redis.client Examples.five_devices)
                allPositions 4 2 Hscan) as (page & Hrun & _ & _ & Hreturned & _);
      [ lia | ].
    exists page. split; [ exact Hrun | ]. rewrite Hreturned, Hfive. reflexivity.
  - destruct (page_size ExampleHost.host (Redis.client Examples.five_devices)
                allPositions 7 2 Hscan) as (page & Hrun & _ & _ & _ & _ & Hpast);
      [ lia | ].
    exists page. split; [ exact Hrun | ]. apply Hpast. lia.
Defined.

(** X11.  Consecutive pages fit together: over an unchanged store, the
    page at offset [o] with limit [l1] followed by the page at offset
    [o + l1] with limit [l2] is the page at offset [o] with limit
    [l1 + l2].  Paging through a listing neither skips nor repeats a
    record. *)
Theorem pages_tile {number : Type} (host : Host number) (client : RedisClient)
    (allPositions : list (value number)) (o l1 l2 : nat) :
  outcome (GPSLastPositionRepository.getAllLastPositions host client)
    = Ok allPositions ->
  0 < l1 -> 0 < l2 ->
  exists first second both,
    outcome (GPSLastPositionService.getAllLastPositions host client
               {| opt_limit := Some (Z.of_nat l1); opt_offset := Some (Z.of_nat o) |})
      = Ok (Success first) /\
    outcome (GPSLastPositionService.getAllLastPositions host client
               {| opt_limit := Some (Z.of_nat l2);
                  opt_offset := Some (Z.of_nat (o + l1)) |})
      = Ok (Success second) /\
    outcome (GPSLastPositionService.getAllLastPositions host client
               {| opt_limit := Some (Z.of_nat (l1 + l2));
                  opt_offset := Some (Z.of_nat o) |})
      = Ok (Success both) /\
    listing_data first ++ listing_data second = listing_data both.
Proof.
  intros Hscan Hl1 Hl2. do 3 eexists.
  split; [ apply (listing_page_shape host client allPositions o l1 Hscan Hl1) | ].
  split; [ apply (listing_page_shape host client allPositions (o + l1) l2 Hscan Hl2) | ].
  split; [ apply (listing_page_shape host client allPositions o (l1 + l2) Hscan); lia | ].
  cbn [listing_data].
  rewrite firstn_add_split, skipn_skipn. now rewrite (Nat.add_comm l1 o).
Qed.

(** Pages of two, then two, of the five devices. *)
Lemma pages_tile_witness :
  exists first second both,
    outcome (GPSLastPositionService.getAllLastPositions ExampleHost.host
               (Redis.client Examples.five_devices)
               {| opt_limit := Some 2%Z; opt_offset := Some 1%Z |})
      = Ok (Success first) /\
    outcome (GPSLastPositionService.getAllLastPositions ExampleHost.host
               (Redis.client Examples.five_devices)
               {| opt_limit := Some 2%Z; opt_offset := Some 3%Z |})
      = Ok (Success second) /\
    outcome (GPSLastPositionService.getAllLastPositions ExampleHost.host
               (Redis.client Examples.five_devices)
               {| opt_limit := Some 4%Z; opt_offset := Some 1%Z |})
      = Ok (Success both) /\
    listing_data first ++ listing_data second = listing_data both.
Proof.
  assert (Hscan : exists allPositions,
    outcome (GPSLastPositionRepository.getAllLastPositions ExampleHost.host
               (Redis.client Examples.five_devices)) = Ok allPositions)
    by (eexists; vm_compute; reflexivity).
  destruct Hscan as (allPositions & Hscan).
  apply (pages_tile ExampleHost.host (Redis.client Examples.five_devices)
           allPositions 1 2 2 Hscan); lia.
Defined.

(** X12.  At the service, a limit of zero or less is no limit: every
    record is returned, whatever the offset.  A negative offset with a
    positive limit reads from the first record, and is repeated as it
    was given in the summary. *)
Theorem pagination_out_of_range {number : Type} (host : Host number)
    (client : RedisClient) (allPositions : list (value number)) (l o : Z) :
  outcome (GPSLastPositionRepository.getAllLastPositions host client)
    = Ok allPositions ->
  ((l <= 0)%Z ->
   exists page,
     outcome (GPSLastPositionService.getAllLastPositions host client
                {| opt_limit := Some l; opt_offset := Some o |})
       = Ok (Success page) /\
     listing_data page = gps_views host allPositions /\
     returned (listing_summary_of page) = total (listing_summary_of page)) /\
  ((0 < l)%Z -> (o < 0)%Z ->
   exists page,
     outcome (GPSLastPositionService.getAllLastPositions host client
                {| opt_limit := Some l; opt_offset := Some o |})
       = Ok (Success page) /\
     listing_data page = firstn (Z.to_nat l) (gps_views host allPositions) /\
     offset (listing_summary_of page) = o).
Proof.
  intros Hscan. split.
  - intros Hl.
    unfold GPSLastPositionService.getAllLastPositions,
      GPSLastPositionService.repository_getAllLastPositions.
    step_outcome. rewrite Hscan. cbn [opt_limit opt_offset].
    replace (negb (l =? 0)%Z && (0 <? l)%Z) with false
      by (symmetry; apply andb_false_iff; right; apply Z.ltb_ge; lia).
    eexists. split; [ reflexivity | ]. now split.
  - intros Hl Ho.
    unfold GPSLastPositionService.getAllLastPositions,
      GPSLastPositionService.repository_getAllLastPositions.
    step_outcome. rewrite Hscan. cbn [opt_limit opt_offset].
    replace (l =? 0)%Z with false by (symmetry; apply Z.eqb_neq; lia).
    replace (0 <? l)%Z with true by (symmetry; apply Z.ltb_lt; lia).
    cbn [negb andb outcome fst ret].
    eexists. split; [ reflexivity | ]. cbn [listing_data listing_summary_of offset].
    split; [ | reflexivity ].
    rewrite Z.max_l by lia.
    fold (gps_views host allPositions).
    replace l with (Z.of_nat (Z.to_nat l)) at 1 by lia.
    change 0%Z with (Z.of_nat 0) at 1 2.
    now rewrite slice_firstn_skipn.
Qed.

(** A limit of zero and a negative offset over the five devices. *)
Lemma pagination_out_of_range_witness :
  (exists page,
     outcome (GPSLastPositionService.getAllLastPositions ExampleHost.host
                (Redis.client Examples.five_devices)
                {| opt_limit := Some 0%Z; opt_offset := Some 3%Z |})
       = Ok (Success page) /\
     returned (listing_summary_of page) = 5) /\
  (exists page,
     outcome (GPSLastPositionService.getAllLastPositions ExampleHost.host
                (Redis.client Examples.five_devices)
                {| opt_limit := Some 2%Z; opt_offset := Some (-1)%Z |})
       = Ok (Success page) /\
     List.length (listing_data page) = 2 /\
     offset (listing_summary_of page) = (-1)%Z).
Proof.
  assert (Hscan : exists allPositions,
    outcome (GPSLastPositionRepository.getAllLastPositions ExampleHost.host
               (Redis.client Examples.five_devices)) = Ok allPositions /\
    List.length allPositions = 5)
    by (eexists; split; vm_compute; reflexivity).
  destruct Hscan as (allPositions & Hscan & Hfive).
  destruct (pagination_out_of_range ExampleHost.host
              (Redis.client Examples.five_devices) allPositions 0 3 Hscan)
    as [Hzero _].
  destruct (pagination_out_of_range ExampleHost.host
              (Redis.client Examples.five_devices) allPositions 2 (-1) Hscan)
    as [_ Hnegative].
  split.
  - destruct Hzero as (page & Hrun & Hdata & Hreturned); [ lia | ].
    exists page. split; [ exact Hrun | ].
    vm_compute in Hrun. injection Hrun as <-. reflexivity.
  - destruct Hnegative as (page & Hrun & Hdata & Hoffset); [ lia | lia | ].
    exists page. split; [ exact Hrun | ]. split; [ | exact Hoffset ].
    rewrite Hdata, length_firstn. unfold gps_views. rewrite length_map, Hfive.
    reflexivity.
Defined.

(** ** The listing as a batch over the scanned keys *)

Section Scan.
Context {number : Type} (host : Host number) (client : RedisClient).
Local Abbreviation val := (value number).

Lemma prefix_append (p s : string) : prefix p (p ++ s) = true.
Proof.
  induction p as [ | c p IH ]; simpl.
  - destruct s; reflexivity.
  - destruct (ascii_dec c c) as [ _ | Hneq ]; [ exact IH | now destruct Hneq ].
Qed.

Lemma length_append (p s : string) :
  String.length (p ++ s) = String.length p + String.length s.
Proof. induction p as [ | c p IH ]; simpl; [ reflexivity | now rewrite IH ]. Qed.

Lemma substring_whole (s : string) : substring 0 (String.length s) s = s.
Proof. induction s as [ | c s IH ]; simpl; [ reflexivity | now rewrite IH ]. Qed.

Lemma substring_after (p s : string) :
  substring (String.length p) (String.length s) (p ++ s) = s.
Proof.
  induction p as [ | c p IH ]; simpl; [ apply substring_whole | exact IH ].
Qed.

Lemma replace_unfold (pattern replacement s : string) :
  JSString.replace pattern replacement s =
  if prefix pattern s
  then (replacement ++
        substring (String.length pattern) (String.length s - String.length pattern) s)%string
  else match s with
       | EmptyString => EmptyString
       | String c rest => String c (JSString.replace pattern replacement rest)
       end.
Proof. destruct s; reflexivity. Qed.

(** Taking the prefix off a key that was built with it gives the
    identifier back. *)
Lemma strip_prefix (p id : string) : JSString.replace p "" (p ++ id) = id.
Proof.
  rewrite replace_unfold, prefix_append, length_append.
  replace (String.length p + String.length id - String.length p)
    with (String.length id) by lia.
  simpl. apply substring_after.
Qed.

Lemma strip_prefix_all (p : string) (ids : list string) :
  map (JSString.replace p "") (map (fun id => (p ++ id)%string) ids) = ids.
Proof.
  induction ids as [ | id rest IH ]; simpl; [ reflexivity | ].
  now rewrite strip_prefix, IH.
Qed.

End Scan.

(** X13.  The listing of the device repository is the batch lookup of
    the scanned identifiers.  When KEYS answers with the keys of the
    identifiers [ids], each built with the configured prefix, the
    identifiers taken from the keys are [ids] again, every key is looked
    up under its own name, and the listing returns what the batch lookup
    of [ids] returns: per key the record found or nothing, in scan
    order, so never more records than keys. *)
Theorem listing_is_batch_of_scan {number : Type} (host : Host number)
    (client : RedisClient) (ids : list string) :
  connect_reply client = Ok tt ->
  keys_reply client (keyPrefix host ++ "*")%string
    = Ok (map (fun id => (keyPrefix host ++ id)%string) ids) ->
  outcome (GPSLastPositionRepository.getAllLastPositions host client)
    = Ok (flat_map (resolved host client) ids) /\
  outcome (GPSLastPositionRepository.getAllLastPositions host client)
    = outcome (GPSLastPositionRepository.getMultipleLastPositions host client ids) /\
  List.length (flat_map (resolved host client) ids) <= List.length ids.
Proof.
  intros Hconnect Hkeys.
  assert (Hall :
    outcome (GPSLastPositionRepository.getAllLastPositions host client)
    = Ok (flat_map (resolved host client) ids)).
  { unfold GPSLastPositionRepository.getAllLastPositions.
    rewrite outcome_try_catch, outcome_bind, (connect_outcome client Hconnect).
    rewrite outcome_bind, outcome_send, Hkeys.
    destruct ids as [ | id rest ]; [ reflexivity | ].
    cbn [map List.length Nat.eqb].
    change (JSString.replace (keyPrefix host) "" (keyPrefix host ++ id)
            :: map (JSString.replace (keyPrefix host) "")
                 (map (fun id0 => (keyPrefix host ++ id0)%string) rest))
      with (map (JSString.replace (keyPrefix host) "")
              (map (fun id0 => (keyPrefix host ++ id0)%string) (id :: rest))).
    rewrite strip_prefix_all.
    rewrite outcome_bind, collect_outcome. cbn [app].
    rewrite outcome_log_then. cbn [outcome ret fst]. f_equal.
    apply flat_map_ext. intros id'. apply (resolved_connected host client id'). }
  split; [ exact Hall | ]. split.
  - rewrite Hall. symmetry.
    now apply getMultipleLastPositions_outcome.
  - apply flat_map_at_most_one, resolved_at_most_one.
Qed.

(** The scan of the three keys of the examples, one of them corrupt. *)
Lemma listing_is_batch_of_scan_witness :
  outcome (GPSLastPositionRepository.getAllLastPositions ExampleHost.host
             (Redis.client Examples.mixed))
  = outcome (GPSLastPositionRepository.getMultipleLastPositions ExampleHost.host
               (Redis.client Examples.mixed) ["device-001"; "device-002"]).
Proof.
  apply (listing_is_batch_of_scan ExampleHost.host (Redis.client Examples.mixed)
           ["device-001"; "device-002"]); reflexivity.
Defined.

(** ** The listing route *)

Section ListingRoute.
Context {number : Type} (host : Host number) (client : RedisClient).
Local Abbreviation val := (value number).

Lemma parseInt_empty : JSString.parseInt "" = None.
Proof. reflexivity. Qed.





End ListingRoute.



(** ** Laws of the monad of probes *)

Section ProbingLaws.
Context {A B : Type}.

Lemma probing_outcome_bind (m : Probing.M A) (f : A -> Probing.M B) :
  Probing.outcome (Probing.bind m f) =
  match Probing.outcome m with
  | Ok a => Probing.outcome (f a)
  | Throw e => Throw e
  end.
Proof.
  destruct m as [[a | e] t]; simpl; [ | reflexivity ].
  destruct (f a); reflexivity.
Qed.

Lemma probing_outcome_try_catch (m : Probing.M A) (handler : error -> Probing.M A) :
  Probing.outcome (Probing.try_catch m handler) =
  match Probing.outcome m with
  | Ok a => Ok a
  | Throw e => Probing.outcome (handler e)
  end.
Proof.
  destruct m as [[a | e] t]; simpl; [ reflexivity | ].
  destruct (handler e); reflexivity.
Qed.

Lemma probing_outcome_lift (m : M A) :
  Probing.outcome (Probing.lift m) = outcome m.
Proof. reflexivity. Qed.

Lemma probing_outcome_send (p : probe) (reply : result A) :
  Probing.outcome (Probing.send p reply) = reply.
Proof. reflexivity. Qed.

Lemma probing_outcome_log_then (l : level) (subject : string) (k : Probing.M A) :
  Probing.outcome (Probing.bind (Probing.log l subject) (fun _ => k))
  = Probing.outcome k.
Proof. unfold Probing.log; simpl. destruct k; reflexivity. Qed.

End ProbingLaws.

Ltac step_probe :=
  repeat first
    [ rewrite probing_outcome_try_catch
    | rewrite probing_outcome_log_then
    | rewrite probing_outcome_bind
    | rewrite probing_outcome_lift
    | rewrite probing_outcome_send ].

(** ** The existence check *)

Section Existence.
Context {number : Type} (host : Host number).
Local Abbreviation val := (value number).

(** The existence check over a database: true exactly for a key that
    holds content of a supported type. *)
Lemma hasLastPosition_on_database (usage : string -> Z) (db : Redis.database)
    (deviceId : string) :
  well_typed (assoc (keyPrefix host ++ deviceId)%string db) ->
  Probing.outcome
    (GPSLastPositionRepository.hasLastPosition host (Redis.client db)
       (Redis.probes usage db) deviceId)
  = Ok (has_content (assoc (keyPrefix host ++ deviceId)%string db)).
Proof.
  intros Htyped.
  unfold GPSLastPositionRepository.hasLastPosition,
    GPSLastPositionRepository.connect, send, Probing.lift, Probing.send, Probing.log.
  cbn [Redis.client Redis.probes connect_reply exists_reply type_reply get_reply
       hkeys_reply llen_reply zcard_reply fst snd].
  destruct (assoc (keyPrefix host ++ deviceId)%string db)
    as [ [ text | fields | items | ranked | typeName ] | ].
  - reflexivity.
  - destruct fields; reflexivity.
  - destruct items; reflexivity.
  - destruct ranked; reflexivity.
  - destruct (not_supported typeName Htyped) as (Hs & Hh & Hl & Hz).
    simpl. now rewrite Hh, Hs, Hl, Hz.
  - reflexivity.
Qed.

(** A key without content of a supported type is looked up as null. *)
Lemma lookup_without_content (db : Redis.database) (deviceId : string) :
  well_typed (assoc (keyPrefix host ++ deviceId)%string db) ->
  has_content (assoc (keyPrefix host ++ deviceId)%string db) = false ->
  outcome (GPSLastPositionRepository.getLastPosition host (Redis.client db) deviceId)
  = Ok VNull.
Proof.
  intros Htyped Hnone.
  unfold GPSLastPositionRepository.getLastPosition,
    GPSLastPositionRepository.getDataByType,
    GPSLastPositionRepository.connect, send.
  cbn [Redis.client connect_reply exists_reply type_reply get_reply
       hgetall_reply lindex_reply zrevrange_reply].
  destruct (assoc (keyPrefix host ++ deviceId)%string db)
    as [ [ text | fields | items | ranked | typeName ] | ]; simpl in Hnone.
  - apply negb_false_iff, String.eqb_eq in Hnone. subst text. reflexivity.
  - destruct fields; [ reflexivity | discriminate ].
  - destruct items; [ reflexivity | discriminate ].
  - destruct ranked; [ reflexivity | discriminate ].
  - destruct (not_supported typeName Htyped) as (Hs & Hh & Hl & Hz).
    simpl. now rewrite Hs, Hh, Hl, Hz.
  - reflexivity.
Qed.

End Existence.

(** X15.  Asked whether a device exists whose key holds nothing of a
    supported type, or is absent, the service does not fail: over a
    database the existence check answers with success and a flag that
    is true exactly when the key holds a non-empty string, a field map
    with a field, a list with an element or a sorted set with a member.
    An empty container and a key of another type count as absent. *)
Theorem existence_on_database {number : Type} (host : Host number)
    (usage : string -> Z) (db : Redis.database) (deviceId : string) :
  let cleanDeviceId := JSString.trim deviceId in
  let stored := assoc (keyPrefix host ++ cleanDeviceId)%string db in
  cleanDeviceId <> "" ->
  well_typed stored ->
  Probing.outcome
    (GPSLastPositionService.checkDeviceExists host (Redis.client db)
       (Redis.probes usage db) (VStr deviceId))
  = Ok (Success {| exists_flag := has_content stored;
                   existence_id := cleanDeviceId;
                   existence_timestamp := now host |}).
Proof.
  intros cleanDeviceId stored Hclean Htyped.
  unfold GPSLastPositionService.checkDeviceExists,
    GPSLastPositionService.repository_hasLastPosition.
  rewrite is_blank_string.
  replace (JSString.trim deviceId =? "") with false
    by (symmetry; now apply String.eqb_neq).
  cbn [GPSLastPositionService.clean]. fold cleanDeviceId.
  step_probe.
  rewrite (hasLastPosition_on_database host usage db cleanDeviceId Htyped).
  reflexivity.
Qed.

(** A device with coordinates, an empty list, and a device never
    written. *)
Lemma existence_on_database_witness :
  let db : Redis.database :=
    [ ("gps:last:device-001", Examples.device "-12.04" "-77.03");
      ("gps:last:device-002", Redis.List_ []) ] in
  let flag id :=
    match Probing.outcome
            (GPSLastPositionService.checkDeviceExists ExampleHost.host
               (Redis.client db) (Redis.probes Examples.flat_usage db) (VStr id)) with
    | Ok (Success answer) => Some (exists_flag answer)
    | _ => None
    end in
  flag "device-001" = Some true /\ flag "device-002" = Some false /\
  flag "device-999" = Some false.
Proof.
  intros db flag. unfold flag.
  rewrite (@existence_on_database _ ExampleHost.host Examples.flat_usage db "device-001"),
          (@existence_on_database _ ExampleHost.host Examples.flat_usage db "device-002"),
          (@existence_on_database _ ExampleHost.host Examples.flat_usage db "device-999");
    try discriminate; try exact I.
  repeat split.
Defined.

(** X16.  Over a database, a device whose lookup returns a record also
    passes the existence check.  The converse does not follow: a key
    with content that does not decode exists and has no record. *)
Theorem found_implies_exists {number : Type} (host : Host number)
    (usage : string -> Z) (db : Redis.database) (deviceId : string)
    (r : value number) :
  well_typed (assoc (keyPrefix host ++ deviceId)%string db) ->
  outcome (GPSLastPositionRepository.getLastPosition host (Redis.client db) deviceId)
    = Ok r ->
  truthy host r = true ->
  Probing.outcome
    (GPSLastPositionRepository.hasLastPosition host (Redis.client db)
       (Redis.probes usage db) deviceId)
  = Ok true.
Proof.
  intros Htyped Hfound Htruthy.
  rewrite (hasLastPosition_on_database host usage db deviceId Htyped).
  destruct (has_content (assoc (keyPrefix host ++ deviceId)%string db)) eqn:Hcontent;
    [ reflexivity | ].
  rewrite (lookup_without_content host db deviceId Htyped Hcontent) in Hfound.
  injection Hfound as <-. discriminate Htruthy.
Qed.

(** The first of the five devices. *)
Lemma found_implies_exists_witness :
  Probing.outcome
    (GPSLastPositionRepository.hasLastPosition ExampleHost.host
       (Redis.client Examples.five_devices)
       (Redis.probes Examples.flat_usage Examples.five_devices) "device-001")
  = Ok true.
Proof.
  eapply (@found_implies_exists _ ExampleHost.host Examples.flat_usage
            Examples.five_devices "device-001").
  - exact I.
  - vm_compute. reflexivity.
  - reflexivity.
Defined.

(** X17.  Once the connection and EXISTS have answered, the existence
    check of the repository does not throw.  When EXISTS answered 1 and
    the probe of the type, or of the content of a field map, throws,
    the answer is true, although the lookup of the same device
    throws. *)
Theorem existence_check_falls_back {number : Type} (host : Host number)
    (client : RedisClient) (probes : RedisProbes) (deviceId : string) (n : Z) :
  let key := (keyPrefix host ++ deviceId)%string in
  connect_reply client = Ok tt ->
  exists_reply client key = Ok n ->
  (exists answer,
     Probing.outcome
       (GPSLastPositionRepository.hasLastPosition host client probes deviceId)
     = Ok answer) /\
  (n = 1%Z -> forall e, type_reply client key = Throw e ->
   Probing.outcome
     (GPSLastPositionRepository.hasLastPosition host client probes deviceId)
     = Ok true /\
   outcome (GPSLastPositionRepository.getLastPosition host client deviceId)
     = Throw e) /\
  (n = 1%Z -> forall e, type_reply client key = Ok "hash" ->
   hkeys_reply probes key = Throw e ->
   Probing.outcome
     (GPSLastPositionRepository.hasLastPosition host client probes deviceId)
     = Ok true).
Proof.
  intros key Hconnect Hexists.
  assert (Henter : forall inner : Probing.M bool,
    Probing.outcome
      (Probing.try_catch
         (Probing.lift (GPSLastPositionRepository.connect client) ;;
          Probing.log LDebug key ;;
          exists_ <- Probing.lift (send (CExists key) (exists_reply client key)) ;;
          Probing.log LDebug key ;;
          if (exists_ =? 1)%Z then
            Probing.try_catch inner
              (fun _ => Probing.log LWarn key ;; Probing.ret (exists_ =? 1)%Z)
          else Probing.ret false)%probing
         (fun error => Probing.log LError deviceId ;; Probing.throw error)%probing)
    = if (n =? 1)%Z then
        match Probing.outcome inner with
        | Ok answer => Ok answer
        | Throw _ => Ok true
        end
      else Ok false).
  { intros inner.
    rewrite probing_outcome_try_catch, probing_outcome_bind, probing_outcome_lift,
      (connect_outcome client Hconnect).
    rewrite probing_outcome_log_then, probing_outcome_bind, probing_outcome_lift,
      outcome_send, Hexists, probing_outcome_log_then.
    destruct (n =? 1)%Z eqn:Hone; [ | reflexivity ].
    rewrite probing_outcome_try_catch.
    destruct (Probing.outcome inner); [ reflexivity | ].
    cbv beta. now rewrite probing_outcome_log_then. }
  unfold GPSLastPositionRepository.hasLastPosition. fold key.
  rewrite Henter.
  split; [ | split ].
  - destruct (n =? 1)%Z; [ | now eexists ].
    destruct (Probing.outcome _); now eexists.
  - intros -> e Htype. split.
    + cbn [Z.eqb Pos.eqb].
      rewrite probing_outcome_bind, probing_outcome_lift, outcome_send, Htype.
      reflexivity.
    + unfold GPSLastPositionRepository.getLastPosition,
        GPSLastPositionRepository.getDataByType.
      rewrite outcome_try_catch, outcome_bind, (connect_outcome client Hconnect).
      rewrite outcome_bind, outcome_send. fold key. rewrite Hexists.
      cbn [Z.eqb]. rewrite outcome_bind, outcome_bind, outcome_send, Htype.
      cbv beta. now rewrite outcome_log_then.
  - intros -> e Htype Hkeys.
    cbn [Z.eqb Pos.eqb].
    rewrite probing_outcome_bind, probing_outcome_lift, outcome_send, Htype.
    rewrite probing_outcome_log_then. cbn [String.eqb Ascii.eqb Bool.eqb].
    rewrite probing_outcome_bind, probing_outcome_send, Hkeys. reflexivity.
Qed.

(** The first device behind a connection that drops at TYPE. *)
Lemma existence_check_falls_back_witness :
  Probing.outcome
    (GPSLastPositionRepository.hasLastPosition ExampleHost.host
       (Examples.type_fails Examples.five_devices)
       (Redis.probes Examples.flat_usage Examples.five_devices) "device-001")
    = Ok true /\
  outcome (GPSLastPositionRepository.getLastPosition ExampleHost.host
             (Examples.type_fails Examples.five_devices) "device-001")
    = Throw (ReplyError "Connection is closed.").
Proof.
  destruct (@existence_check_falls_back _ ExampleHost.host
              (Examples.type_fails Examples.five_devices)
              (Redis.probes Examples.flat_usage Examples.five_devices)
              "device-001" 1%Z eq_refl eq_refl) as (_ & Htype & _).
  exact (Htype eq_refl (ReplyError "Connection is closed.") eq_refl).
Defined.

(** ** Statistics, liveness and health *)

Section Statistics.
Context {number : Type} (host : Host number) (client : RedisClient)
  (probes : RedisProbes).

(** The loop adds to the running total what each key counts for. *)
Lemma add_usage_outcome (keys : list string) (totalMemoryUsage : Z) :
  Probing.outcome (GPSLastPositionRepository.add_usage probes keys totalMemoryUsage)
  = Ok (totalMemoryUsage + fold_right Z.add 0%Z (map (counted_bytes probes) keys))%Z.
Proof.
  revert totalMemoryUsage.
  induction keys as [ | key rest IH ]; intros totalMemoryUsage.
  - simpl. now rewrite Z.add_0_r.
  - cbn [GPSLastPositionRepository.add_usage map fold_right].
    rewrite probing_outcome_bind, probing_outcome_try_catch, probing_outcome_bind,
      probing_outcome_send.
    unfold counted_bytes at 1.
    destruct (memory_usage_reply probes key) as [ [ bytes | ] | e ];
      cbn [Probing.outcome Probing.ret fst]; rewrite IH; f_equal; lia.
Qed.

Lemma ping_outcome :
  Probing.outcome (GPSLastPositionRepository.ping client probes)
  = Ok match connect_reply client, ping_reply probes with
       | Ok _, Ok result => result =? "PONG"
       | _, _ => false
       end.
Proof.
  unfold GPSLastPositionRepository.ping.
  rewrite probing_outcome_try_catch, probing_outcome_bind, probing_outcome_lift.
  destruct (connect_reply client) as [ [] | e ] eqn:Hconnect.
  - rewrite (connect_outcome client Hconnect).
    rewrite probing_outcome_bind, probing_outcome_send.
    destruct (ping_reply probes) as [ result | e ]; [ reflexivity | ].
    cbv beta. now rewrite probing_outcome_log_then.
  - rewrite (connect_refused client e Hconnect). cbn [outcome fst]. cbv beta.
    now rewrite probing_outcome_log_then.
Qed.

Lemma getStats_outcome :
  Probing.outcome (GPSLastPositionRepository.getStats host client probes)
  = match connect_reply client, keys_reply client (keyPrefix host ++ "*")%string with
    | Ok _, Ok keys =>
        Ok {| totalDevices := List.length keys;
              keyPattern := (keyPrefix host ++ "*")%string;
              memoryUsage := fold_right Z.add 0%Z (map (counted_bytes probes) keys);
              stats_timestamp := now host |}
    | Ok _, Throw e => Throw e
    | Throw e, _ => Throw e
    end.
Proof.
  unfold GPSLastPositionRepository.getStats.
  rewrite probing_outcome_try_catch, probing_outcome_bind, probing_outcome_lift.
  destruct (connect_reply client) as [ [] | e ] eqn:Hconnect.
  - rewrite (connect_outcome client Hconnect).
    rewrite probing_outcome_bind, probing_outcome_lift, outcome_send.
    destruct (keys_reply client (keyPrefix host ++ "*")%string) as [ keys | e ].
    + rewrite probing_outcome_bind, add_usage_outcome. reflexivity.
    + cbv beta. now rewrite probing_outcome_log_then.
  - rewrite (connect_refused client e Hconnect). cbn [outcome fst]. cbv beta.
    now rewrite probing_outcome_log_then.
Qed.

End Statistics.

(** X18.  The statistics of the device repository count every scanned
    key and add up the memory of the keys for which MEMORY USAGE
    answered; a key for which it throws, or answers null, adds nothing
    and does not fail the statistics.  Only a failure of the connection
    or of KEYS does. *)
Theorem stats_pass_over_memory_failures {number : Type} (host : Host number)
    (client : RedisClient) (probes : RedisProbes) (keys : list string) :
  connect_reply client = Ok tt ->
  (keys_reply client (keyPrefix host ++ "*")%string = Ok keys ->
   Probing.outcome (GPSLastPositionRepository.getStats host client probes)
   = Ok {| totalDevices := List.length keys;
           keyPattern := (keyPrefix host ++ "*")%string;
           memoryUsage := fold_right Z.add 0%Z (map (counted_bytes probes) keys);
           stats_timestamp := now host |}) /\
  (forall e, keys_reply client (keyPrefix host ++ "*")%string = Throw e ->
   Probing.outcome (GPSLastPositionRepository.getStats host client probes) = Throw e).
Proof.
  intros Hconnect. split.
  - intros Hkeys. now rewrite getStats_outcome, Hconnect, Hkeys.
  - intros e Hkeys. now rewrite getStats_outcome, Hconnect, Hkeys.
Qed.

(** Five keys of 64 bytes, one failing and one unknown to MEMORY USAGE. *)
Lemma stats_pass_over_memory_failures_witness :
  exists stats,
    Probing.outcome
      (GPSLastPositionRepository.getStats ExampleHost.host
         (Redis.client Examples.five_devices) Examples.patchy_probes) = Ok stats /\
    totalDevices stats = 5 /\ memoryUsage stats = 192%Z.
Proof.
  destruct (stats_pass_over_memory_failures ExampleHost.host
              (Redis.client Examples.five_devices) Examples.patchy_probes
              (map fst Examples.five_devices) eq_refl) as [Hstats _].
  eexists. split; [ apply Hstats; reflexivity | split; reflexivity ].
Defined.

(** X19.  The liveness probe never throws.  It answers true exactly
    when a connection is available and PING is answered with PONG; a
    refused connection, a failing PING and any other answer give
    false. *)
Theorem ping_answers (client : RedisClient) (probes : RedisProbes) :
  exists alive,
    Probing.outcome (GPSLastPositionRepository.ping client probes)
      = Ok alive /\
    (alive = true <-> connect_reply client = Ok tt /\ ping_reply probes = Ok "PONG").
Proof.
  eexists. split; [ apply ping_outcome | ].
  destruct (connect_reply client) as [ [] | e ].
  - destruct (ping_reply probes) as [ result | e ].
    + split.
      * intros H. apply String.eqb_eq in H. now subst result.
      * intros [_ H]. injection H as ->. reflexivity.
    + split; [ discriminate | intros [_ H]; discriminate H ].
  - split; [ discriminate | intros [H _]; discriminate H ].
Qed.

(** The five devices, reachable and not. *)
Lemma ping_answers_witness :
  Probing.outcome
    (GPSLastPositionRepository.ping
       (Redis.client Examples.five_devices) Examples.patchy_probes) = Ok true /\
  Probing.outcome
    (GPSLastPositionRepository.ping
       (Examples.unreachable Examples.five_devices) Examples.patchy_probes) = Ok false.
Proof.
  split.
  - destruct (ping_answers
                (Redis.client Examples.five_devices) Examples.patchy_probes)
      as (alive & Hrun & Halive).
    rewrite Hrun. f_equal. apply Halive. now split.
  - destruct (ping_answers
                (Examples.unreachable Examples.five_devices) Examples.patchy_probes)
      as (alive & Hrun & Halive).
    rewrite Hrun. f_equal. destruct alive; [ | reflexivity ].
    destruct (proj1 Halive eq_refl) as [Hconnect _]. discriminate Hconnect.
Defined.

(** X20.  The health check never throws.  It reports healthy exactly
    when a connection is available, PING is answered with PONG and
    KEYS succeeds: a store that answers PING but fails the scan of the
    statistics is reported unhealthy, with the text of that error. *)
Theorem health_needs_ping_and_scan {number : Type} (host : Host number)
    (client : RedisClient) (probes : RedisProbes) :
  exists report,
    Probing.outcome (GPSLastPositionService.healthCheck host client probes)
      = Ok report /\
    (healthy_of report = true <->
     connect_reply client = Ok tt /\ ping_reply probes = Ok "PONG" /\
     exists keys, keys_reply client (keyPrefix host ++ "*")%string = Ok keys) /\
    (forall e, connect_reply client = Ok tt ->
       keys_reply client (keyPrefix host ++ "*")%string = Throw e ->
       report = Unhealthy (message e) (now host)).
Proof.
  unfold GPSLastPositionService.healthCheck,
    GPSLastPositionService.repository_ping, GPSLastPositionService.repository_getStats.
  rewrite probing_outcome_try_catch, probing_outcome_bind, ping_outcome.
  rewrite probing_outcome_bind, getStats_outcome.
  cbn [connected connect_reply keys_reply].
  destruct (connect_reply client) as [ [] | e ].
  - destruct (keys_reply client (keyPrefix host ++ "*")%string) as [ keys | e ].
    + eexists. split; [ reflexivity | ]. split.
      * cbn [healthy_of].
        destruct (ping_reply probes) as [ result | e ].
        -- split.
           ++ intros H. apply String.eqb_eq in H. subst result.
              repeat split. now exists keys.
           ++ intros (_ & H & _). injection H as ->. reflexivity.
        -- split; [ discriminate | intros (_ & H & _); discriminate H ].
      * intros e _ H. discriminate H.
    + cbv beta. rewrite probing_outcome_log_then.
      eexists. split; [ reflexivity | ]. split.
      * cbn [healthy_of Probing.outcome Probing.ret fst].
        split; [ discriminate | intros (_ & _ & keys & H); discriminate H ].
      * intros e' _ H. injection H as ->. reflexivity.
  - cbv beta. rewrite probing_outcome_log_then.
    eexists. split; [ reflexivity | ]. split.
    + cbn [healthy_of Probing.outcome Probing.ret fst].
      split; [ discriminate | intros (H & _); discriminate H ].
    + intros e' H. discriminate H.
Qed.

(** The five devices are healthy. *)
Lemma health_needs_ping_and_scan_witness :
  exists report,
    Probing.outcome
      (GPSLastPositionService.healthCheck ExampleHost.host
         (Redis.client Examples.five_devices) Examples.patchy_probes) = Ok report /\
    healthy_of report = true.
Proof.
  destruct (health_needs_ping_and_scan ExampleHost.host
              (Redis.client Examples.five_devices) Examples.patchy_probes)
    as (report & Hrun & Hhealthy & _).
  exists report. split; [ exact Hrun | ].
  apply Hhealthy. repeat split. eexists. reflexivity.
Defined.

(** ** The route of the single lookup *)

(** X21.  On the route of the single device lookup, an identifier that
    the check refuses is answered 400 without any command.  A
    well-formed identifier is looked up as it was sent, and the status
    follows the lookup: 200 with the record as it was returned when
    there is one, 404 with [POSITION_NOT_FOUND] when the lookup returned
    null, and 400 with [INTERNAL_ERROR] when the lookup threw.  The body
    of a failure names the identifier; the text of the error that was
    thrown is not sent. *)
Theorem single_lookup_route {number : Type} (host : Host number)
    (client : RedisClient) (deviceId : string) :
  (well_formed deviceId ->
   outcome (GPSLastPositionController.route_last_of host client deviceId)
   = match outcome (GPSLastPositionRepository.getLastPosition host client deviceId) with
     | Ok position =>
         if truthy host position
         then Ok (200%Z, Success {| single_data := position;
                                    single_id := deviceId;
                                    single_timestamp := now host |})
         else Ok (404%Z, Failure "POSITION_NOT_FOUND" (ForEntity deviceId))
     | Throw e => Ok (400%Z, Failure "INTERNAL_ERROR" (ForEntity deviceId))
     end) /\
  (~ well_formed deviceId ->
   exists code,
     GPSLastPositionController.route_last_of host client deviceId
     = (Ok (400%Z, Failure code NoInfo), [])).
Proof.
  split.
  - intros Hwf.
    destruct (well_formed_checks host deviceId Hwf) as (Ht & Htrim & Hlen & Hpattern).
    assert (Hs : JSString.trim deviceId = deviceId) by (apply every_in_class_trim, Hwf).
    assert (Hne : (deviceId =? "") = false)
      by (apply String.eqb_neq; exact (proj1 Hwf)).
    unfold GPSLastPositionController.route_last_of,
      validationMiddleware.validateDeviceIdMiddleware.
    rewrite Ht, Htrim, Hlen, Hpattern. cbn [negb].
    unfold GPSLastPositionController.getLastPosition,
      GPSLastPositionService.getDeviceLastPosition,
      GPSLastPositionService.repository_getLastPosition.
    rewrite is_blank_string, Htrim. cbn [GPSLastPositionService.clean].
    rewrite Hs. step_outcome.
    destruct (outcome (GPSLastPositionRepository.getLastPosition host client deviceId))
      as [ position | e ].
    + destruct (truthy host position); cbn [negb outcome ret fst];
        [ reflexivity | ].
      cbn [String.eqb Ascii.eqb Bool.eqb GPSLastPositionController.deviceId_or].
      now rewrite Hne.
    + cbv beta. rewrite outcome_log_then. reflexivity.
  - intros Hbad.
    unfold GPSLastPositionController.route_last_of,
      validationMiddleware.validateDeviceIdMiddleware.
    destruct (truthy host (VStr deviceId)); cbn [negb]; [ | now eexists ].
    destruct (JSString.trim deviceId =? ""); [ now eexists | ].
    destruct (100 <? String.length deviceId)%nat eqn:Hlen; [ now eexists | ].
    destruct (validationMiddleware.validPattern_test deviceId) eqn:Hpattern;
      cbn [negb]; [ | now eexists ].
    destruct Hbad. now apply checks_well_formed.
Qed.

(** A device that is stored, one that is not, and a store that cannot
    be reached. *)
Lemma single_lookup_route_witness :
  let answer (client : RedisClient) (id : string) :=
    match outcome (GPSLastPositionController.route_last_of ExampleHost.host client id)
    with
    | Ok (status, Success _) => Some (status, "", NoInfo)
    | Ok (status, Failure code info) => Some (status, code, info)
    | Throw _ => None
    end in
  answer (Redis.client Examples.five_devices) "device-001"
    = Some (200%Z, "", NoInfo) /\
  answer (Redis.client Examples.five_devices) "device-009"
    = Some (404%Z, "POSITION_NOT_FOUND", ForEntity "device-009") /\
  answer (Examples.unreachable Examples.five_devices) "device-001"
    = Some (400%Z, "INTERNAL_ERROR", ForEntity "device-001").
Proof.
  intros answer. unfold answer.
  assert (Hwf : forall id, id = "device-001" \/ id = "device-009" -> well_formed id)
    by (intros id [-> | ->]; repeat split; try discriminate; simpl; lia).
  rewrite
    (proj1 (single_lookup_route ExampleHost.host (Redis.client Examples.five_devices)
              "device-001") (Hwf _ (or_introl eq_refl))),
    (proj1 (single_lookup_route ExampleHost.host (Redis.client Examples.five_devices)
              "device-009") (Hwf _ (or_intror eq_refl))),
    (proj1 (single_lookup_route ExampleHost.host
              (Examples.unreachable Examples.five_devices)
              "device-001") (Hwf _ (or_introl eq_refl))).
  repeat split.
Defined.

(** ** Batches of the mobile service *)

Section MobileBatch.
Context {number : Type} (host : Host number) (client : RedisClient).
Local Abbreviation val := (value number).

Lemma mobile_getMultipleLastPositions_outcome (userIds : list string) :
  connect_reply client = Ok tt ->
  outcome (MobileLastPositionRepository.getMultipleLastPositions host client userIds)
  = Ok (flat_map (resolved_user host client) userIds).
Proof.
  intros Hconnect. unfold MobileLastPositionRepository.getMultipleLastPositions.
  rewrite outcome_try_catch, outcome_bind, (mobile_connect_outcome client Hconnect).
  rewrite outcome_bind, collect_outcome. cbn [app].
  rewrite outcome_log_then. cbn [outcome ret fst]. f_equal.
  apply flat_map_ext. intros id. apply (resolved_user_connected host client id).
Qed.

Lemma resolved_user_at_most_one (userId : string) :
  List.length (resolved_user host client userId) <= 1.
Proof.
  unfold resolved_user.
  destruct (outcome _) as [position | e]; [ destruct (truthy host position) | ];
    simpl; lia.
Qed.

(** When every contributed record carries, under [field], the
    identifier it was looked up under, an identifier is among the found
    ones exactly when its lookup contributed a record. *)
Lemma includes_contributions (f : string -> list val) (field : string)
    (ids : list string) :
  (forall id r, In id ids -> In r (f id) -> get_prop r field = VStr id) ->
  forall id, In id ids ->
  includes (map (fun p : val => get_prop p field) (flat_map f ids)) id
  = negb (List.length (f id) =? 0)%nat.
Proof.
  intros Hcarry id Hin.
  destruct (f id) as [ | r more ] eqn:Hres; simpl.
  - apply not_true_is_false. intros Hinc.
    apply existsb_exists in Hinc. destruct Hinc as (v & Hv & Hsame).
    apply in_map_iff in Hv. destruct Hv as (p & <- & Hp).
    apply in_flat_map in Hp. destruct Hp as (id' & Hid' & Hp).
    rewrite (Hcarry id' p Hid' Hp) in Hsame. simpl in Hsame.
    apply String.eqb_eq in Hsame. subst id'.
    rewrite Hres in Hp. destruct Hp.
  - apply existsb_exists. exists (get_prop r field). split.
    + apply in_map_iff. exists r. split; [ reflexivity | ].
      apply in_flat_map. exists id. split; [ exact Hin | ].
      rewrite Hres. now left.
    + rewrite (Hcarry id r Hin) by (rewrite Hres; now left).
      simpl. apply String.eqb_refl.
Qed.

(** The record of a mobile lookup carries the identifier of the decoded
    payload when that is truthy, and the requested one otherwise. *)
Lemma mobile_record_identifier (userId : string) (r : val) :
  In r (resolved_user host client userId) ->
  exists position,
    outcome (MobileLastPositionRepository.getDataByType host client
               (MobileLastPositionRepository.keyPrefix ++ userId)%string userId)
      = Ok position /\
    get_prop r "userId" = js_or host (get_prop position "userId") (VStr userId).
Proof.
  unfold resolved_user, MobileLastPositionRepository.getLastPosition.
  rewrite outcome_try_catch, outcome_bind.
  destruct (outcome (MobileLastPositionRepository.connect client)) as [ [] | e ];
    [ | cbv beta; rewrite outcome_log_then; intros [] ].
  rewrite outcome_bind, outcome_send.
  destruct (exists_reply client _) as [ n | e ];
    [ | cbv beta; rewrite outcome_log_then; intros [] ].
  destruct (n =? 0)%Z; [ rewrite outcome_log_then; intros [] | ].
  rewrite outcome_bind.
  destruct (outcome (MobileLastPositionRepository.getDataByType host client _ userId))
    as [ position | e ]; [ | cbv beta; rewrite outcome_log_then; intros [] ].
  destruct (truthy host position); cbn [negb];
    rewrite outcome_log_then; cbn [outcome ret fst truthy]; [ | intros [] ].
  intros [<- | []]. exists position. split; [ reflexivity | ].
  rewrite get_prop_set_other by discriminate.
  apply get_prop_set_same.
Qed.

End MobileBatch.

(** X22.  In the mobile service the summary of a batch adds up whenever
    no stored payload names an identifier other than the one of its
    key: for one to a hundred non-blank string identifiers, with Redis
    reachable, [found + notFound = requested], and [requested] is the
    number of identifiers.  Payloads without any identifier are counted
    right, because the repository fills the requested one in. *)
Theorem mobile_batch_adds_up {number : Type} (host : Host number)
    (client : RedisClient) (ids : list (value number)) :
  connect_reply client = Ok tt ->
  ids <> [] ->
  List.length ids <= 100 ->
  Forall (fun id => GPSLastPositionService.is_blank host id = false) ids ->
  (forall id position,
     In id (map GPSLastPositionService.clean ids) ->
     outcome (MobileLastPositionRepository.getDataByType host client
                (MobileLastPositionRepository.keyPrefix ++ id)%string id)
       = Ok position ->
     truthy host (get_prop position "userId") = true ->
     get_prop position "userId" = VStr id) ->
  exists payload,
    outcome (MobileLastPositionService.getMultipleUsersLastPositions host client
               (VArr ids)) = Ok (Success payload) /\
    MobileLastPositionService.requested_users (MobileLastPositionService.users_summary_of payload) = List.length ids /\
    MobileLastPositionService.found_users (MobileLastPositionService.users_summary_of payload) = List.length (MobileLastPositionService.users_data payload) /\
    MobileLastPositionService.found_users (MobileLastPositionService.users_summary_of payload) + MobileLastPositionService.notFound_users (MobileLastPositionService.users_summary_of payload)
      = MobileLastPositionService.requested_users (MobileLastPositionService.users_summary_of payload).
Proof.
  intros Hconnect Hnonempty Hsize Hvalid Hnames.
  set (cleanUserIds := map GPSLastPositionService.clean ids) in *.
  unfold MobileLastPositionService.getMultipleUsersLastPositions.
  replace (List.length ids =? 0)%nat with false
    by (symmetry; apply Nat.eqb_neq; destruct ids; [ congruence | discriminate ]).
  rewrite (validate_all_valid host _ Hvalid). fold cleanUserIds.
  change (0 <? List.length (@nil (value number)))%nat with false.
  replace (MobileLastPositionService.maxUsers <? List.length cleanUserIds)%nat
    with false
    by (symmetry; apply Nat.ltb_ge; unfold cleanUserIds;
        rewrite length_map; exact Hsize).
  cbv beta iota.
  unfold MobileLastPositionService.repository_getMultipleLastPositions.
  step_outcome.
  rewrite (mobile_getMultipleLastPositions_outcome host client cleanUserIds Hconnect).
  cbn [outcome ret fst].
  eexists. split; [ reflexivity | ].
  cbn [MobileLastPositionService.users_data MobileLastPositionService.users_summary_of MobileLastPositionService.requested_users MobileLastPositionService.found_users MobileLastPositionService.notFound_users].
  repeat split.
  - unfold cleanUserIds. now rewrite length_map.
  - apply (found_or_not (resolved_user host client)
             (includes (map (fun p : value number => get_prop p "userId")
                            (flat_map (resolved_user host client) cleanUserIds)))).
    + apply resolved_user_at_most_one.
    + apply includes_contributions.
      intros id r Hin Hr.
      destruct (mobile_record_identifier host client id r Hr)
        as (position & Hdecode & ->).
      unfold js_or.
      destruct (truthy host (get_prop position "userId")) eqn:Hown;
        [ | reflexivity ].
      now apply (Hnames id position Hin Hdecode).
Qed.

(** The four users without identifier in their payloads, and one user
    who was never written. *)
Lemma mobile_batch_adds_up_witness :
  exists payload,
    outcome (MobileLastPositionService.getMultipleUsersLastPositions ExampleHost.host
               (Redis.client Examples.anonymous)
               (VArr [ VStr "user-001"; VStr "user-002"; VStr "user-003";
                       VStr "user-004"; VStr "user-005" ]))
      = Ok (Success payload) /\
    MobileLastPositionService.found_users (MobileLastPositionService.users_summary_of payload) = 4 /\
    MobileLastPositionService.notFound_users (MobileLastPositionService.users_summary_of payload) = 1.
Proof.
  destruct (@mobile_batch_adds_up _ ExampleHost.host (Redis.client Examples.anonymous)
              [ VStr "user-001"; VStr "user-002"; VStr "user-003";
                VStr "user-004"; VStr "user-005" ])
    as (payload & Hrun & Hrequested & Hfound & Hsum).
  - reflexivity.
  - discriminate.
  - simpl. lia.
  - repeat constructor.
  - intros id position [<- | [<- | [<- | [<- | [<- | []]]]]] Hdecode Hown;
      vm_compute in Hdecode; try discriminate Hdecode;
      injection Hdecode as <-; vm_compute in Hown; try discriminate Hown;
      reflexivity.
  - exists payload. split; [ exact Hrun | ].
    assert (Hfour : MobileLastPositionService.found_users (MobileLastPositionService.users_summary_of payload) = 4)
      by (vm_compute in Hrun; injection Hrun as <-; reflexivity).
    split; [ exact Hfour | ].
    rewrite Hrequested, Hfour in Hsum. simpl in Hsum. lia.
Defined.

(** ** The current element of a list and of a sorted set *)

Section Current.

Lemma index_last {A : Type} (older : list A) (x : A) :
  Redis.index (older ++ [x]) (-1) = Some x.
Proof.
  unfold Redis.index. rewrite length_app. cbn [List.length Z.ltb Z.compare].
  replace (Z.of_nat (List.length older + 1) + -1 <? 0)%Z with false
    by (symmetry; apply Z.ltb_ge; lia).
  replace (Z.to_nat (Z.of_nat (List.length older + 1) + -1)) with (List.length older)
    by lia.
  rewrite nth_error_app2 by lia. now rewrite Nat.sub_diag.
Qed.

Lemma range_top {A : Type} (lower : list A) (x : A) :
  Redis.range (rev (lower ++ [x])) 0 0 = [x].
Proof.
  rewrite rev_app_distr. cbn [rev app].
  unfold Redis.range. cbn [List.length Z.ltb Z.compare].
  replace (Z.min 0 (Z.of_nat (S (List.length (rev lower))) - 1))%Z with 0%Z by lia.
  reflexivity.
Qed.

End Current.

(** X23.  The three serialized encodings decode alike.  A payload
    stored as a string, as the last element of a list, or as the
    highest-ranked member of a sorted set is decoded by parsing that one
    text: the older elements of the list and the lower members of the
    set are never parsed, so a corrupt one among them does no harm, and
    a text that does not parse is thrown as an error in all three. *)
Theorem current_element_is_decoded {number : Type} (host : Host number)
    (db : Redis.database) (key deviceId text : string) (others : list string) :
  text <> "" ->
  assoc key db = Some (Redis.String_ text) \/
  assoc key db = Some (Redis.List_ (others ++ [text])) \/
  assoc key db = Some (Redis.ZSet (others ++ [text])) ->
  outcome (GPSLastPositionRepository.getDataByType host (Redis.client db) key deviceId)
  = match JSON_parse host text with
    | Some payload => Ok payload
    | None => Throw (SyntaxError (JSON_error host text))
    end.
Proof.
  intros Htext Hstored.
  assert (Hne : (text =? "") = false) by now apply String.eqb_neq.
  unfold GPSLastPositionRepository.getDataByType, send, parse.
  cbn [Redis.client type_reply get_reply lindex_reply zrevrange_reply].
  destruct Hstored as [-> | [-> | ->]]; cbn [bind String.eqb Ascii.eqb Bool.eqb].
  - rewrite Hne. destruct (JSON_parse host text); reflexivity.
  - rewrite index_last, Hne. destruct (JSON_parse host text); reflexivity.
  - rewrite range_top. destruct (JSON_parse host text); reflexivity.
Qed.

(** A list whose older element is corrupt. *)
Lemma current_element_is_decoded_witness :
  outcome (GPSLastPositionRepository.getDataByType ExampleHost.host
             (Redis.client
                [ ("gps:last:device-001",
                   Redis.List_ [ "{lat:"; ExampleHost.json "{'lat':-12.04}" ]) ])
             "gps:last:device-001" "device-001")
  = Ok (VObj [("lat", VNum "-12.04")]).
Proof.
  rewrite (@current_element_is_decoded _ ExampleHost.host
             [ ("gps:last:device-001",
                Redis.List_ [ "{lat:"; ExampleHost.json "{'lat':-12.04}" ]) ]
             "gps:last:device-001" "device-001"
             (ExampleHost.json "{'lat':-12.04}") ["{lat:"]).
  - reflexivity.
  - discriminate.
  - right. left. reflexivity.
Defined.

(** ** What a batch lists as not found, and how batches split *)

(** X24.  In the answer of the device batch lookup, when every record
    carries the identifier it was looked up under, [notFoundDeviceIds]
    lists exactly the requested identifiers whose lookup gave no record,
    in the order of the request, and the data are the projections of the
    records of the others, in the same order. *)
Theorem not_found_ids_are_the_missing {number : Type} (host : Host number)
    (client : RedisClient) (ids : list (value number)) (format : string) :
  connect_reply client = Ok tt ->
  ids <> [] ->
  List.length ids <= 100 ->
  Forall (fun id => GPSLastPositionService.is_blank host id = false) ids ->
  let cleanDeviceIds := map GPSLastPositionService.clean ids in
  (forall id r, In id cleanDeviceIds -> In r (resolved host client id) ->
                get_prop r "deviceId" = VStr id) ->
  exists payload,
    outcome (GPSLastPositionService.getMultipleDevicesLastPositions host client
               (VArr ids) format)
      = Ok (Success payload) /\
    notFoundIds (summary payload)
      = filter (fun id => (List.length (resolved host client id) =? 0)%nat)
               cleanDeviceIds /\
    batch_data payload
      = map (fun p => GPSLastPositionService._formatPositionData host p format)
            (flat_map (resolved host client) cleanDeviceIds).
Proof.
  intros Hconnect Hnonempty Hsize Hvalid cleanDeviceIds Hcarry.
  unfold GPSLastPositionService.getMultipleDevicesLastPositions.
  replace (List.length ids =? 0)%nat with false
    by (symmetry; apply Nat.eqb_neq; destruct ids; [ congruence | discriminate ]).
  rewrite (validate_all_valid host _ Hvalid). fold cleanDeviceIds.
  change (0 <? List.length (@nil (value number)))%nat with false.
  replace (GPSLastPositionService.maxDevices <? List.length cleanDeviceIds)%nat
    with false
    by (symmetry; apply Nat.ltb_ge; unfold cleanDeviceIds;
        rewrite length_map; exact Hsize).
  cbv beta iota.
  unfold GPSLastPositionService.repository_getMultipleLastPositions.
  step_outcome.
  rewrite (getMultipleLastPositions_outcome host client cleanDeviceIds Hconnect).
  cbn [outcome ret fst].
  eexists. split; [ reflexivity | ].
  cbn [batch_data summary notFoundIds]. split; [ | reflexivity ].
  apply filter_ext_in. intros id Hin.
  rewrite (includes_found host client cleanDeviceIds Hcarry id Hin).
  apply negb_involutive.
Qed.

(** One device found, one corrupt, one never written. *)
Lemma not_found_ids_are_the_missing_witness :
  exists payload,
    outcome (GPSLastPositionService.getMultipleDevicesLastPositions ExampleHost.host
               (Redis.client Examples.mixed)
               (VArr [VStr "device-003"; VStr "device-001"; VStr "device-002"])
               "gps")
      = Ok (Success payload) /\
    notFoundIds (summary payload) = ["device-003"; "device-002"].
Proof.
  destruct (@not_found_ids_are_the_missing _ ExampleHost.host
              (Redis.client Examples.mixed)
              [VStr "device-003"; VStr "device-001"; VStr "device-002"] "gps")
    as (payload & Hrun & Hmissing & _).
  - reflexivity.
  - discriminate.
  - simpl. lia.
  - repeat constructor.
  - intros id r [<- | [<- | [<- | []]]] Hin; vm_compute in Hin;
      [ destruct Hin | destruct Hin as [<- | []]; reflexivity | destruct Hin ].
  - exists payload. split; [ exact Hrun | ]. rewrite Hmissing. reflexivity.
Defined.

(** X25.  Batches split: with Redis reachable, the batch lookup of a
    sequence of identifiers returns the records of its first part
    followed by the records of the rest.  Looking a long list up in
    several smaller batches gives the same records in the same order. *)
Theorem batches_split {number : Type} (host : Host number) (client : RedisClient)
    (first rest : list string) :
  connect_reply client = Ok tt ->
  exists found_first found_rest,
    outcome (GPSLastPositionRepository.getMultipleLastPositions host client first)
      = Ok found_first /\
    outcome (GPSLastPositionRepository.getMultipleLastPositions host client rest)
      = Ok found_rest /\
    outcome (GPSLastPositionRepository.getMultipleLastPositions host client
               (first ++ rest))
      = Ok (found_first ++ found_rest).
Proof.
  intros Hconnect. do 2 eexists.
  rewrite !(getMultipleLastPositions_outcome host client _ Hconnect).
  repeat split. now rewrite flat_map_app.
Qed.

(** The five devices in batches of two and three. *)
Lemma batches_split_witness :
  exists found_first found_rest,
    outcome (GPSLastPositionRepository.getMultipleLastPositions ExampleHost.host
               (Redis.client Examples.five_devices) ["device-001"; "device-002"])
      = Ok found_first /\
    outcome (GPSLastPositionRepository.getMultipleLastPositions ExampleHost.host
               (Redis.client Examples.five_devices)
               ["device-003"; "device-004"; "device-005"])
      = Ok found_rest /\
    outcome (GPSLastPositionRepository.getMultipleLastPositions ExampleHost.host
               (Redis.client Examples.five_devices)
               ["device-001"; "device-002"; "device-003"; "device-004"; "device-005"])
      = Ok (found_first ++ found_rest).
Proof.
  apply (batches_split ExampleHost.host (Redis.client Examples.five_devices)
           ["device-001"; "device-002"]
           ["device-003"; "device-004"; "device-005"] eq_refl).
Defined.
